(** * personal-trainer-js: a shallow embedding of the front end

    The development follows the layers of the repository:

    - [JS]: the few ECMAScript primitives the views rely on (strings,
      completions, arrays, own-property order of ordinary objects);
    - [Number]: the arithmetic of the host on the integers among its
      numbers;
    - [lodash]: [groupBy] and [sumBy] as lodash implements them;
    - the data model of the REST service (customers, trainings);
    - the HTTP layer ([axios]) against a remote service that is any state
      machine, and the monad in which the [async] functions of the views
      run: component state, the service, a log of what the user and the
      service can observe, and exceptions;
    - [api] (src/services/api.js), [CustomerList], [TrainingList],
      [CalendarPage], [StatisticsPage] and [Layout].

    Scope of the model.

    - Numbers are IEEE 754 binary64 values. [Number] holds the integers
      among them with the infinities and NaN, and rounds sums and products
      as the host does; time values, the ends of calendar entries and the
      aggregation [activityStats_binary64] are computed in it. Durations
      and ids of the payloads are integers ([Z]); the aggregation
      [activityStats] adds them exactly, which is what the host computes
      on collections whose durations add up, in absolute value, to at
      most 2^53. A [Date] is its time value, NaN for an Invalid Date.
    - Strings are byte strings. [toLowerCase] and [Date.parse] belong to the
      host and are parameters of what uses them.
    - A handler runs to its end against the service before anything else
      happens to the component: a [fetchCustomers()] that a handler starts
      without awaiting it sends its request inside the handler and resumes
      right after the handler returns. Several handlers in flight at once
      are not modelled.
    - Payloads are typed by shape ([Data]). [api.getCustomers] reads
      [_embedded.customers] and throws on a payload that has none;
      [api.getTrainings] returns the payload as it is. *)

From Stdlib Require Import List String Ascii ZArith NArith Bool Lia.
From Stdlib Require Import Permutation Sorted SpecFloat.
Import ListNotations.

Set Implicit Arguments.

Local Open Scope string_scope.
Local Open Scope list_scope.
Local Open Scope Z_scope.

(* ===================================================================== *)
(** * ECMAScript primitives *)
(* ===================================================================== *)

Module JS.

(** Exceptions the modelled code can raise. *)
Inductive Exn : Type :=
| AxiosError (message : string)   (* network failure or non-2xx status *)
| TypeError (message : string).   (* property read on null / undefined *)

(** Completion of a synchronous evaluation: a value or a [throw]. *)
Inductive Completion (A : Type) : Type :=
| Normal (a : A)
| Throw (e : Exn).
Arguments Normal {A} a.
Arguments Throw {A} e.

Definition cbind {A B} (c : Completion A) (k : A -> Completion B)
  : Completion B :=
  match c with
  | Normal a => k a
  | Throw e => Throw e
  end.

(** ** Strings

    [String.prototype.toLowerCase] is the case folding of the host (it
    follows the Unicode case mappings and looks at the context of a
    letter); the views that call it take it as a parameter
    [toLowerCase : string -> string]. *)

(** [startsWith s sub]: [sub] is a prefix of [s]. *)
Fixpoint startsWith (s sub : string) : bool :=
  match sub, s with
  | EmptyString, _ => true
  | String _ _, EmptyString => false
  | String b sub', String a s' => Ascii.eqb a b && startsWith s' sub'
  end.

(** [String.prototype.includes]: [sub] occurs in [s] at some position. *)
Fixpoint includes (s sub : string) : bool :=
  startsWith s sub ||
  match s with
  | EmptyString => false
  | String _ s' => includes s' sub
  end.

(** ** Arrays *)

(** [Array.prototype.filter] with a callback that may throw. *)
Fixpoint Array_filter {A} (callback : A -> Completion bool) (l : list A)
  : Completion (list A) :=
  match l with
  | [] => Normal []
  | x :: l' =>
      cbind (callback x) (fun keep =>
      cbind (Array_filter callback l') (fun rest =>
      Normal (if keep then x :: rest else rest)))
  end.

(** [Array.prototype.map] with a callback that may throw. *)
Fixpoint Array_map {A B} (callback : A -> Completion B) (l : list A)
  : Completion (list B) :=
  match l with
  | [] => Normal []
  | x :: l' =>
      cbind (callback x) (fun y =>
      cbind (Array_map callback l') (fun rest =>
      Normal (y :: rest)))
  end.

(** Stable insertion: [x] goes before the first [y] with [le x y]. *)
Fixpoint insert_sorted {A} (le : A -> A -> bool) (x : A) (l : list A)
  : list A :=
  match l with
  | [] => [x]
  | y :: l' => if le x y then x :: y :: l' else y :: insert_sorted le x l'
  end.

Fixpoint stable_sort {A} (le : A -> A -> bool) (l : list A) : list A :=
  match l with
  | [] => []
  | x :: l' => insert_sorted le x (stable_sort le l')
  end.

(** [Array.prototype.sort(comparefn)]: a stable sort; [a] stays before
    [b] when [comparefn a b <= 0]. *)
Definition Array_sort {A} (comparefn : A -> A -> Z) (l : list A) : list A :=
  stable_sort (fun a b => comparefn a b <=? 0) l.

(** ** Ordinary objects used as maps

    An object with string keys is kept as the list of its own properties
    in creation order. *)
Definition Obj (V : Type) : Type := list (string * V).

Definition digit_of (c : ascii) : option N :=
  let n := N_of_ascii c in
  if (48 <=? n)%N && (n <=? 57)%N then Some (n - 48)%N else None.

Fixpoint parse_digits (s : string) (acc : N) : option N :=
  match s with
  | EmptyString => Some acc
  | String c s' =>
      match digit_of c with
      | Some d => parse_digits s' (10 * acc + d)%N
      | None => None
      end
  end.

(** A key is an array index when it is the canonical decimal form of an
    integer below 2^32 - 1. *)
Definition array_index (key : string) : option N :=
  match key with
  | EmptyString => None
  | String c rest =>
      if Ascii.eqb c "0"%char && negb (String.eqb rest EmptyString)
      then None
      else match parse_digits key 0 with
           | Some n => if (n <? 4294967295)%N then Some n else None
           | None => None
           end
  end.

Definition is_array_index (key : string) : bool :=
  match array_index key with Some _ => true | None => false end.

Definition index_le {V} (a b : string * V) : bool :=
  match array_index (fst a), array_index (fst b) with
  | Some m, Some n => (m <=? n)%N
  | _, _ => true
  end.

(** [Object.entries]: array-index keys in ascending numeric order, then
    the other string keys in creation order. *)
Definition Object_entries {V} (o : Obj V) : list (string * V) :=
  stable_sort index_le (filter (fun kv => is_array_index (fst kv)) o)
  ++ filter (fun kv => negb (is_array_index (fst kv))) o.

(** [Array.prototype.join] on strings. *)
Fixpoint Array_join (separator : string) (l : list string) : string :=
  match l with
  | [] => EmptyString
  | [x] => x
  | x :: l' => (x ++ separator ++ Array_join separator l')%string
  end.

Definition quote_char : ascii := "034"%char.
Definition newline_char : ascii := "010"%char.

(** [s.replace(/q/g, qq)] for the double quote [q]: every double quote of
    [s] is doubled. *)
Fixpoint double_quotes (s : string) : string :=
  match s with
  | EmptyString => EmptyString
  | String c s' =>
      if Ascii.eqb c quote_char
      then String quote_char (String quote_char (double_quotes s'))
      else String c (double_quotes s')
  end.

(** [Math.round(n / d)] for integers [n] and [d > 0]: the quotient rounded
    to the nearest integer, halves upwards. *)
Definition Math_round_div (n d : Z) : Z := (2 * n + d) / (2 * d).

End JS.

(* ===================================================================== *)
(** * Numbers *)
(* ===================================================================== *)

(** The numbers of the program are IEEE 754 binary64 values. The numbers
    the views meet are durations, time values and their sums, products and
    differences; what is held here are the integers among the binary64
    values, the two infinities and NaN. The two zeros are one. *)
Module Number.

Inductive t : Type :=
| Finite (z : Z)
| Infinity (negative : bool)
| NaN.

(** The nearest integer with at most 53 significant bits, halves to the
    even significand: up to 2^53 every integer, beyond that every [2^k]-th
    one. *)
Definition round (z : Z) : Z :=
  let a := Z.abs z in
  if a <=? 9007199254740992 then z
  else
    let k := Z.log2 a - 52 in
    let q := a / 2 ^ k in
    let r := a mod 2 ^ k in
    let half := 2 ^ (k - 1) in
    let q' := if r <? half then q
              else if half <? r then q + 1
              else if Z.even q then q else q + 1 in
    Z.sgn z * (q' * 2 ^ k).

(** The Number value for the integer [z]: what a sum or a product with
    exact value [z] evaluates to, and what an integer of a JSON payload is
    read as. *)
Definition of_Z (z : Z) : t :=
  let r := round z in
  if 2 ^ 1024 <=? Z.abs r then Infinity (z <? 0) else Finite r.

Definition opp (x : t) : t :=
  match x with
  | Finite z => Finite (- z)
  | Infinity negative => Infinity (negb negative)
  | NaN => NaN
  end.

(** [x + y] *)
Definition add (x y : t) : t :=
  match x, y with
  | NaN, _ | _, NaN => NaN
  | Infinity s, Infinity s' => if Bool.eqb s s' then Infinity s else NaN
  | Infinity s, Finite _ | Finite _, Infinity s => Infinity s
  | Finite a, Finite b => of_Z (a + b)
  end.

(** [x - y] *)
Definition sub (x y : t) : t := add x (opp y).

(** [x * y] *)
Definition mul (x y : t) : t :=
  match x, y with
  | NaN, _ | _, NaN => NaN
  | Infinity s, Infinity s' => Infinity (xorb s s')
  | Infinity s, Finite b | Finite b, Infinity s =>
      if b =? 0 then NaN else Infinity (xorb s (b <? 0))
  | Finite a, Finite b => of_Z (a * b)
  end.

(** [Math.round(x / d)] for an integer [d > 0]. The quotient is itself
    rounded to binary64 before [Math.round] sees it; for [d = 60000] and
    [x] the difference of two time values (at most 1.728e16 in absolute
    value) that rounding is too small to move the quotient onto or across
    a half, so the result is the nearest integer to the exact quotient. *)
Definition Math_round_div (x : t) (d : Z) : t :=
  match x with
  | Finite n => Finite (JS.Math_round_div n d)
  | _ => x
  end.

(** What [Array.prototype.sort] makes of the value of its [comparefn]:
    its sign, NaN counting as zero. *)
Definition sort_order (v : t) : Z :=
  match v with
  | Finite z => z
  | Infinity negative => if negative then -1 else 1
  | NaN => 0
  end.

End Number.

(* ===================================================================== *)
(** * lodash *)
(* ===================================================================== *)

Module lodash.
Import JS.

(** One step of [groupBy]'s accumulator: push [value] on the array stored
    under [key] when [key] is an own property, else create the property
    holding [[value]]. *)
Fixpoint assign_group {A} (result : Obj (list A)) (key : string) (value : A)
  : Obj (list A) :=
  match result with
  | [] => [(key, [value])]
  | (k, vs) :: result' =>
      if String.eqb k key then (k, vs ++ [value]) :: result'
      else (k, vs) :: assign_group result' key value
  end.

Definition groupBy {A} (collection : list A) (iteratee : A -> string)
  : Obj (list A) :=
  fold_left (fun result value => assign_group result (iteratee value) value)
            collection [].

(** [sumBy] on integers, in exact arithmetic: 0 on the empty array, else
    the left-to-right sum. This is what the code computes as long as no
    addition rounds (see [sumBy_binary64]). *)
Definition sumBy {A} (array : list A) (iteratee : A -> Z) : Z :=
  fold_left (fun result value => result + iteratee value) array 0.

(** [sumBy] in the arithmetic of the host: 0 on the empty array, else the
    first value, to which the others are added from left to right, each
    addition rounding to binary64. *)
Definition sumBy_binary64 {A} (array : list A) (iteratee : A -> Number.t)
  : Number.t :=
  match array with
  | [] => Number.Finite 0
  | first :: rest =>
      fold_left (fun result value => Number.add result (iteratee value))
                rest (iteratee first)
  end.

End lodash.

(* ===================================================================== *)
(** * Data model *)
(* ===================================================================== *)

(** A customer as the service returns it; [links_self_href] is
    [_links.self.href], absent on form data and on embedded customers. *)
Record Customer : Type := {
  firstname : string;
  lastname : string;
  email : string;
  phone : string;
  streetaddress : string;
  postcode : string;
  city : string;
  links_self_href : option string
}.

(** A training of [GET /gettrainings]; [customer] can be [null]. *)
Record Training : Type := {
  id : Z;
  date : string;
  duration : Z;
  activity : string;
  customer : option Customer
}.

(** The payload of [POST /trainings]. *)
Record NewTraining : Type := {
  new_date : string;
  new_duration : Z;
  new_activity : string;
  new_customer : string
}.

(* ===================================================================== *)
(** * HTTP layer and the monad of the views *)
(* ===================================================================== *)

Inductive Method : Type := GET | POST | PUT | DELETE.

Inductive Body : Type :=
| NoBody
| CustomerBody (customer : Customer)
| TrainingBody (training : NewTraining).

Record Request : Type := {
  method : Method;
  url : string;
  body : Body
}.

(** [response.data] of a 2xx response, by shape. *)
Inductive Data : Type :=
| CustomersData (embedded_customers : list Customer)
| TrainingsData (trainings : list Training)
| CustomerData (customer : Customer)
| TrainingData (training : Training)
| NoContent.

(** [response.data] of the trainings list as the typed cells of a view
    hold it. The views take the payload for an array of trainings without
    looking at it; a payload of another shape cannot be held in a cell of
    type [list Training] and is read as the empty array. No statement below
    says what a view holds after such an answer. *)
Definition held_trainings (data : Data) : list Training :=
  match data with
  | TrainingsData trainings => trainings
  | _ => []
  end.

(** The remote service: any state machine answering a request with data or
    with a transport-level error. *)
Class Backend : Type := {
  Server : Type;
  serve : Request -> Server -> Server * JS.Completion Data
}.

(** What a handler does that is observable from outside the component. *)
Inductive Event : Type :=
| Http (request : Request) (response : JS.Completion Data)
| ToastSuccess (message : string)
| ToastError (message : string)
| ConsoleError (message : string) (error : JS.Exn)
| PageReload.

Section Effects.
Context `{Backend}.
Import JS.

Record World : Type := {
  remote : Server;
  log : list Event
}.

(** A computation of a component whose [useState] cells are [St]: it
    reads and writes the cells and the world, and completes normally or
    throws. State written before a [throw] stays written. *)
Definition Async (St A : Type) : Type :=
  St -> World -> Completion A * St * World.

Definition ret {St A} (a : A) : Async St A :=
  fun st w => (Normal a, st, w).

Definition throw {St A} (e : Exn) : Async St A :=
  fun st w => (Throw e, st, w).

Definition bind {St A B} (c : Async St A) (k : A -> Async St B)
  : Async St B :=
  fun st w =>
    match c st w with
    | (Normal a, st', w') => k a st' w'
    | (Throw e, st', w') => (Throw e, st', w')
    end.

Definition getState {St} : Async St St :=
  fun st w => (Normal st, st, w).

Definition modify {St} (f : St -> St) : Async St unit :=
  fun st w => (Normal tt, f st, w).

Definition emit {St} (e : Event) : Async St unit :=
  fun st w => (Normal tt, st, {| remote := remote w; log := log w ++ [e] |}).

(** [try { body } catch (error) { handler error }] *)
Definition try_catch {St A} (body : Async St A) (handler : Exn -> Async St A)
  : Async St A :=
  fun st w =>
    match body st w with
    | (Normal a, st', w') => (Normal a, st', w')
    | (Throw e, st', w') => handler e st' w'
    end.

(** [try { body } finally { fin }] *)
Definition finally {St A} (body : Async St A) (fin : Async St unit)
  : Async St A :=
  fun st w =>
    match body st w with
    | (r, st', w') =>
        match fin st' w' with
        | (Normal _, st'', w'') => (r, st'', w'')
        | (Throw e, st'', w'') => (Throw e, st'', w'')
        end
    end.

(** A promise that has been started: its outcome is kept as a value. *)
Definition settle {St A} (c : Async St A) : Async St (Completion A) :=
  fun st w => match c st w with (r, st', w') => (Normal r, st', w') end.

(** [await] of a settled promise. *)
Definition await {St A} (p : Completion A) : Async St A :=
  match p with
  | Normal a => ret a
  | Throw e => throw e
  end.

(** ** axios *)

Definition axios_request {St} (r : Request) : Async St Data :=
  fun st w =>
    match serve r (remote w) with
    | (remote', response) =>
        (response, st,
         {| remote := remote'; log := log w ++ [Http r response] |})
    end.

Definition axios_get {St} (u : string) : Async St Data :=
  axios_request {| method := GET; url := u; body := NoBody |}.

Definition axios_post {St} (u : string) (b : Body) : Async St Data :=
  axios_request {| method := POST; url := u; body := b |}.

Definition axios_put {St} (u : string) (b : Body) : Async St Data :=
  axios_request {| method := PUT; url := u; body := b |}.

Definition axios_delete {St} (u : string) : Async St Data :=
  axios_request {| method := DELETE; url := u; body := NoBody |}.

(** ** sonner, console, window *)

Definition toast_success {St} (message : string) : Async St unit :=
  emit (ToastSuccess message).

Definition toast_error {St} (message : string) : Async St unit :=
  emit (ToastError message).

Definition console_error {St} (message : string) (error : Exn)
  : Async St unit :=
  emit (ConsoleError message error).

Definition window_location_reload {St} : Async St unit :=
  emit PageReload.

End Effects.

Declare Scope async_scope.
Delimit Scope async_scope with async.
Notation "x <- c1 ;; c2" := (bind c1 (fun x => c2))
  (at level 61, c1 at next level, right associativity) : async_scope.
Notation "c1 ;; c2" := (bind c1 (fun _ => c2))
  (at level 61, right associativity) : async_scope.
Local Open Scope async_scope.

(** Rendering of a number inside a template literal. A safe integer (at
    most 2^53 in absolute value) prints as its decimal digits, which is
    what [Z_to_string] gives. Above 2^53 the host prints the shortest
    digits that read back as the same binary64 value, and from 1e21 on it
    uses exponent notation: there [Z_to_string] is not what the host
    prints, and the statements on rendered numbers keep to safe
    integers. *)
Definition digit_char (d : N) : ascii := ascii_of_N (48 + d).

Fixpoint decimal_digits (fuel : nat) (n : N) (acc : string) : string :=
  match fuel with
  | O => acc
  | S fuel' =>
      let acc' := String (digit_char (n mod 10)) acc in
      if (n <? 10)%N then acc' else decimal_digits fuel' (n / 10) acc'
  end.

Definition Z_to_string (z : Z) : string :=
  let digits := decimal_digits (S (N.to_nat (N.log2 (Z.abs_N z))))
                               (Z.abs_N z) EmptyString in
  if z <? 0 then String "-"%char digits else digits.

Definition Number_toString (x : Number.t) : string :=
  match x with
  | Number.Finite z => Z_to_string z
  | Number.Infinity negative => if negative then "-Infinity" else "Infinity"
  | Number.NaN => "NaN"
  end.

(* ===================================================================== *)
(** * src/services/api.js *)
(* ===================================================================== *)

Module api.
Import JS.

Definition BASE_URL : string :=
  "https://customer-rest-service-frontend-personaltrainer.2.rahtiapp.fi/api".

Section Operations.
Context `{Backend} {St : Type}.

(** [response.data._embedded.customers]; a payload of another shape
    has no [_embedded] member to read [customers] from. *)
Definition getCustomers : Async St (list Customer) :=
  response <- axios_get (BASE_URL ++ "/customers") ;;
  match response with
  | CustomersData customers => ret customers
  | _ => throw (TypeError "response.data._embedded is undefined")
  end.

Definition addCustomer (customer : Customer) : Async St Data :=
  response <- axios_post (BASE_URL ++ "/customers")
                         (CustomerBody customer) ;;
  ret response.

Definition updateCustomer (customerUrl : string) (customer : Customer)
  : Async St Data :=
  response <- axios_put customerUrl (CustomerBody customer) ;;
  ret response.

Definition deleteCustomer (customerUrl : string) : Async St unit :=
  axios_delete customerUrl ;;
  ret tt.

(** [response.data], whatever its shape. *)
Definition getTrainings : Async St Data :=
  response <- axios_get (BASE_URL ++ "/gettrainings") ;;
  ret response.

Definition addTraining (training : NewTraining) : Async St Data :=
  response <- axios_post (BASE_URL ++ "/trainings")
                         (TrainingBody training) ;;
  ret response.

Definition deleteTraining (trainingId : Z) : Async St unit :=
  axios_delete (BASE_URL ++ "/trainings/" ++ Z_to_string trainingId) ;;
  ret tt.

End Operations.

(** The keys of the exported [api] object, with their arguments. *)
Inductive Operation : Type :=
| op_getCustomers
| op_addCustomer (customer : Customer)
| op_updateCustomer (customerUrl : string) (customer : Customer)
| op_deleteCustomer (customerUrl : string)
| op_getTrainings
| op_addTraining (training : NewTraining)
| op_deleteTraining (trainingId : Z).

(** Calling a member of [api], its payload dropped. *)
Definition call `{Backend} {St : Type} (op : Operation) : Async St unit :=
  match op with
  | op_getCustomers => getCustomers ;; ret tt
  | op_addCustomer customer => addCustomer customer ;; ret tt
  | op_updateCustomer customerUrl customer =>
      updateCustomer customerUrl customer ;; ret tt
  | op_deleteCustomer customerUrl => deleteCustomer customerUrl
  | op_getTrainings => getTrainings ;; ret tt
  | op_addTraining training => addTraining training ;; ret tt
  | op_deleteTraining trainingId => deleteTraining trainingId
  end.

(** The request a member of [api] sends (see [call_sends_request_of]). *)
Definition request_of (op : Operation) : Request :=
  match op with
  | op_getCustomers =>
      {| method := GET; url := BASE_URL ++ "/customers"; body := NoBody |}
  | op_addCustomer customer =>
      {| method := POST; url := BASE_URL ++ "/customers";
         body := CustomerBody customer |}
  | op_updateCustomer customerUrl customer =>
      {| method := PUT; url := customerUrl; body := CustomerBody customer |}
  | op_deleteCustomer customerUrl =>
      {| method := DELETE; url := customerUrl; body := NoBody |}
  | op_getTrainings =>
      {| method := GET; url := BASE_URL ++ "/gettrainings"; body := NoBody |}
  | op_addTraining training =>
      {| method := POST; url := BASE_URL ++ "/trainings";
         body := TrainingBody training |}
  | op_deleteTraining trainingId =>
      {| method := DELETE;
         url := BASE_URL ++ "/trainings/" ++ Z_to_string trainingId;
         body := NoBody |}
  end.

End api.

(* ===================================================================== *)
(** * The dialogs of the customers page *)
(* ===================================================================== *)

Module CustomerDialog.

Definition defaultFormData : Customer := {|
  firstname := ""; lastname := ""; email := ""; phone := "";
  streetaddress := ""; postcode := ""; city := "";
  links_self_href := None
|}.

(** The [name] of the seven text fields of the form. *)
Inductive Field : Type :=
| f_firstname | f_lastname | f_email | f_phone
| f_streetaddress | f_postcode | f_city.

(** The effect on [customer, open]: [setFormData(customer || defaultFormData)]. *)
Definition formData_on_open (customer : option Customer) : Customer :=
  match customer with
  | Some c => c
  | None => defaultFormData
  end.

(** [handleChange]: [{ ...formData, [e.target.name]: e.target.value }]. *)
Definition handleChange (formData : Customer) (name : Field) (value : string)
  : Customer :=
  {| firstname := match name with f_firstname => value
                                | _ => firstname formData end;
     lastname := match name with f_lastname => value
                               | _ => lastname formData end;
     email := match name with f_email => value | _ => email formData end;
     phone := match name with f_phone => value | _ => phone formData end;
     streetaddress := match name with f_streetaddress => value
                                    | _ => streetaddress formData end;
     postcode := match name with f_postcode => value
                               | _ => postcode formData end;
     city := match name with f_city => value | _ => city formData end;
     links_self_href := links_self_href formData |}.

(** The form after the user's changes, in the order they were typed. *)
Definition typed (formData : Customer) (changes : list (Field * string))
  : Customer :=
  fold_left (fun form change => handleChange form (fst change) (snd change))
            changes formData.

End CustomerDialog.

Module TrainingDialog.

Record FormData : Type := {
  form_date : string;
  form_duration : Z;
  form_activity : string
}.

(** The initial form: the time of the first render, 60 minutes, no
    activity. *)
Definition initialFormData (now : string) : FormData :=
  {| form_date := now; form_duration := 60; form_activity := "" |}.

(** [handleSubmit]: the payload [{ ...formData, customer: customerUrl }]
    handed to [onSave]. *)
Definition submitted (formData : FormData) (customerUrl : string)
  : NewTraining :=
  {| new_date := form_date formData;
     new_duration := form_duration formData;
     new_activity := form_activity formData;
     new_customer := customerUrl |}.

End TrainingDialog.

(* ===================================================================== *)
(** * Customers page (CustomerList) *)
(* ===================================================================== *)

Module CustomerList.
Import JS.

(** The [useState] cells of the component. *)
Record State : Type := {
  customers : list Customer;
  loading : bool;
  searchTerm : string;
  customerDialogOpen : bool;
  trainingDialogOpen : bool;
  deleteDialogOpen : bool;
  selectedCustomer : option Customer;
  selectedCustomerUrl : string;
  isEditing : bool
}.

Definition initial : State := {|
  customers := [];
  loading := true;
  searchTerm := "";
  customerDialogOpen := false;
  trainingDialogOpen := false;
  deleteDialogOpen := false;
  selectedCustomer := None;
  selectedCustomerUrl := "";
  isEditing := false
|}.

Definition with_customers (v : list Customer) (st : State) : State :=
  {| customers := v; loading := loading st; searchTerm := searchTerm st;
     customerDialogOpen := customerDialogOpen st;
     trainingDialogOpen := trainingDialogOpen st;
     deleteDialogOpen := deleteDialogOpen st;
     selectedCustomer := selectedCustomer st;
     selectedCustomerUrl := selectedCustomerUrl st;
     isEditing := isEditing st |}.

Definition with_loading (v : bool) (st : State) : State :=
  {| customers := customers st; loading := v; searchTerm := searchTerm st;
     customerDialogOpen := customerDialogOpen st;
     trainingDialogOpen := trainingDialogOpen st;
     deleteDialogOpen := deleteDialogOpen st;
     selectedCustomer := selectedCustomer st;
     selectedCustomerUrl := selectedCustomerUrl st;
     isEditing := isEditing st |}.

Definition with_customerDialogOpen (v : bool) (st : State) : State :=
  {| customers := customers st; loading := loading st;
     searchTerm := searchTerm st;
     customerDialogOpen := v;
     trainingDialogOpen := trainingDialogOpen st;
     deleteDialogOpen := deleteDialogOpen st;
     selectedCustomer := selectedCustomer st;
     selectedCustomerUrl := selectedCustomerUrl st;
     isEditing := isEditing st |}.

Definition with_trainingDialogOpen (v : bool) (st : State) : State :=
  {| customers := customers st; loading := loading st;
     searchTerm := searchTerm st;
     customerDialogOpen := customerDialogOpen st;
     trainingDialogOpen := v;
     deleteDialogOpen := deleteDialogOpen st;
     selectedCustomer := selectedCustomer st;
     selectedCustomerUrl := selectedCustomerUrl st;
     isEditing := isEditing st |}.

Definition with_deleteDialogOpen (v : bool) (st : State) : State :=
  {| customers := customers st; loading := loading st;
     searchTerm := searchTerm st;
     customerDialogOpen := customerDialogOpen st;
     trainingDialogOpen := trainingDialogOpen st;
     deleteDialogOpen := v;
     selectedCustomer := selectedCustomer st;
     selectedCustomerUrl := selectedCustomerUrl st;
     isEditing := isEditing st |}.

Definition with_selectedCustomer (v : option Customer) (st : State) : State :=
  {| customers := customers st; loading := loading st;
     searchTerm := searchTerm st;
     customerDialogOpen := customerDialogOpen st;
     trainingDialogOpen := trainingDialogOpen st;
     deleteDialogOpen := deleteDialogOpen st;
     selectedCustomer := v;
     selectedCustomerUrl := selectedCustomerUrl st;
     isEditing := isEditing st |}.

Definition with_selectedCustomerUrl (v : string) (st : State) : State :=
  {| customers := customers st; loading := loading st;
     searchTerm := searchTerm st;
     customerDialogOpen := customerDialogOpen st;
     trainingDialogOpen := trainingDialogOpen st;
     deleteDialogOpen := deleteDialogOpen st;
     selectedCustomer := selectedCustomer st;
     selectedCustomerUrl := v;
     isEditing := isEditing st |}.

(** [selectedCustomer?._links?.self.href] *)
Definition selected_href (selected : option Customer) : option string :=
  match selected with
  | Some c => links_self_href c
  | None => None
  end.

Section Filter.
(** [String.prototype.toLowerCase] of the host. *)
Variable toLowerCase : string -> string.

(** The callback of [customers.filter] in the render. *)
Definition matchesSearch (searchTerm : string) (customer : Customer) : bool :=
  let searchStr := toLowerCase searchTerm in
  includes (toLowerCase (firstname customer)) searchStr
  || includes (toLowerCase (lastname customer)) searchStr
  || includes (toLowerCase (email customer)) searchStr
  || includes (toLowerCase (city customer)) searchStr.

Definition filteredCustomers (customers : list Customer)
           (searchTerm : string) : list Customer :=
  filter (matchesSearch searchTerm) customers.

(** The [rows] the grid is given. *)
Definition rows (st : State) : list Customer :=
  filteredCustomers (customers st) (searchTerm st).

End Filter.

Definition with_searchTerm (v : string) (st : State) : State :=
  {| customers := customers st; loading := loading st;
     searchTerm := v;
     customerDialogOpen := customerDialogOpen st;
     trainingDialogOpen := trainingDialogOpen st;
     deleteDialogOpen := deleteDialogOpen st;
     selectedCustomer := selectedCustomer st;
     selectedCustomerUrl := selectedCustomerUrl st;
     isEditing := isEditing st |}.

Definition with_isEditing (v : bool) (st : State) : State :=
  {| customers := customers st; loading := loading st;
     searchTerm := searchTerm st;
     customerDialogOpen := customerDialogOpen st;
     trainingDialogOpen := trainingDialogOpen st;
     deleteDialogOpen := deleteDialogOpen st;
     selectedCustomer := selectedCustomer st;
     selectedCustomerUrl := selectedCustomerUrl st;
     isEditing := v |}.

(** ** CSV export *)

(** The exported columns: header name and cell value. *)
Definition csv_fields : list (string * (Customer -> string)) :=
  [("firstname", firstname); ("lastname", lastname); ("email", email);
   ("phone", phone); ("streetaddress", streetaddress);
   ("postcode", postcode); ("city", city)].

(** One cell: the value between double quotes, its own double quotes
    doubled. *)
Definition csv_cell (value : string) : string :=
  String quote_char (double_quotes value ++ String quote_char EmptyString).

Definition csvHeader : string := Array_join "," (map fst csv_fields).

Definition csvRow (customer : Customer) : string :=
  Array_join "," (map (fun field => csv_cell (snd field customer)) csv_fields).

Definition csvString (customers : list Customer) : string :=
  Array_join (String newline_char EmptyString)
             (csvHeader :: map csvRow customers).

Section Component.
Context `{Backend}.

Definition setCustomers v : Async State unit := modify (with_customers v).
Definition setLoading v : Async State unit := modify (with_loading v).
Definition setCustomerDialogOpen v : Async State unit :=
  modify (with_customerDialogOpen v).
Definition setTrainingDialogOpen v : Async State unit :=
  modify (with_trainingDialogOpen v).
Definition setDeleteDialogOpen v : Async State unit :=
  modify (with_deleteDialogOpen v).
Definition setSelectedCustomer v : Async State unit :=
  modify (with_selectedCustomer v).
Definition setSelectedCustomerUrl v : Async State unit :=
  modify (with_selectedCustomerUrl v).

(** [fetchCustomers] up to its first [await]: the loading flag is set
    and the list request leaves. *)
Definition fetchCustomers_request
  : Async State (Completion (list Customer)) :=
  setLoading true ;;
  settle api.getCustomers.

(** [fetchCustomers] from the moment the response is in. *)
Definition fetchCustomers_resume (response : Completion (list Customer))
  : Async State unit :=
  finally
    (try_catch
       (customers <- await response ;;
        setCustomers customers)
       (fun error =>
          toast_error "Failed to fetch customers" ;;
          console_error "Error fetching customers:" error))
    (setLoading false).

Definition fetchCustomers : Async State unit :=
  response <- fetchCustomers_request ;;
  fetchCustomers_resume response.

(** [useEffect(() => { fetchCustomers(); }, [])] *)
Definition mount : Async State unit := fetchCustomers.

(** The handlers call [fetchCustomers()] without awaiting it: the
    request leaves, the handler runs to its end, and the fetch resumes
    afterwards. Nothing that follows the call inside a handler's [try] can
    throw, so a started fetch is always resumed. *)
Definition resume_pending (pending : option (Completion (list Customer)))
  : Async State unit :=
  match pending with
  | Some response => fetchCustomers_resume response
  | None => ret tt
  end.

Definition handleAddCustomer (customer : Customer) : Async State unit :=
  pending <-
    try_catch
      (api.addCustomer customer ;;
       toast_success "Customer added successfully" ;;
       response <- fetchCustomers_request ;;
       setCustomerDialogOpen false ;;
       ret (Some response))
      (fun error =>
         toast_error "Failed to add customer" ;;
         console_error "Error adding customer:" error ;;
         ret None) ;;
  resume_pending pending.

Definition handleEditCustomer (customer : Customer) : Async State unit :=
  closure <- getState ;;
  match selected_href (selectedCustomer closure) with
  | None => ret tt
  | Some EmptyString => ret tt
  | Some href =>
      pending <-
        try_catch
          (api.updateCustomer href customer ;;
           toast_success "Customer updated successfully" ;;
           response <- fetchCustomers_request ;;
           setCustomerDialogOpen false ;;
           setSelectedCustomer None ;;
           ret (Some response))
          (fun error =>
             toast_error "Failed to update customer" ;;
             console_error "Error updating customer:" error ;;
             ret None) ;;
      resume_pending pending
  end.

Definition handleDeleteCustomer : Async State unit :=
  closure <- getState ;;
  match selectedCustomerUrl closure with
  | EmptyString => ret tt
  | customerUrl =>
      pending <-
        try_catch
          (api.deleteCustomer customerUrl ;;
           toast_success "Customer deleted successfully" ;;
           response <- fetchCustomers_request ;;
           setDeleteDialogOpen false ;;
           setSelectedCustomerUrl "" ;;
           ret (Some response))
          (fun error =>
             toast_error "Failed to delete customer" ;;
             console_error "Error deleting customer:" error ;;
             ret None) ;;
      resume_pending pending
  end.

Definition handleAddTraining (training : NewTraining) : Async State unit :=
  try_catch
    (api.addTraining training ;;
     toast_success "Training added successfully" ;;
     setTrainingDialogOpen false ;;
     setSelectedCustomerUrl "")
    (fun error =>
       toast_error "Failed to add training" ;;
       console_error "Error adding training:" error).

(** ** Events of the page *)

Definition setSearchTerm v : Async State unit := modify (with_searchTerm v).
Definition setIsEditing v : Async State unit := modify (with_isEditing v).

(** [params.row._links.self.href] in the click handlers of a row. *)
Definition row_href (row : Customer) : Async State string :=
  match links_self_href row with
  | Some href => ret href
  | None => throw (TypeError "params.row._links is undefined")
  end.

Definition onEditClick (row : Customer) : Async State unit :=
  setSelectedCustomer (Some row) ;;
  setIsEditing true ;;
  setCustomerDialogOpen true.

Definition onDeleteClick (row : Customer) : Async State unit :=
  href <- row_href row ;;
  setSelectedCustomerUrl href ;;
  setDeleteDialogOpen true.

Definition onAddTrainingClick (row : Customer) : Async State unit :=
  href <- row_href row ;;
  setSelectedCustomerUrl href ;;
  setTrainingDialogOpen true.

Definition onAddCustomerClick : Async State unit :=
  setIsEditing false ;;
  setSelectedCustomer None ;;
  setCustomerDialogOpen true.

Definition onCustomerDialogClose : Async State unit :=
  setCustomerDialogOpen false ;;
  setIsEditing false ;;
  setSelectedCustomer None.

Definition onTrainingDialogClose : Async State unit :=
  setTrainingDialogOpen false ;;
  setSelectedCustomerUrl "".

Definition onDeleteDialogClose : Async State unit :=
  setDeleteDialogOpen false.

(** [onSave={isEditing ? handleEditCustomer : handleAddCustomer}] *)
Definition onCustomerDialogSave (formData : Customer) : Async State unit :=
  closure <- getState ;;
  if isEditing closure then handleEditCustomer formData
  else handleAddCustomer formData.

(** The form the customer dialog shows when it opens:
    [customer={selectedCustomer || undefined}]. *)
Definition customerDialog_formData (st : State) : Customer :=
  CustomerDialog.formData_on_open (selectedCustomer st).

(** Submitting the training dialog: [customerUrl={selectedCustomerUrl}]. *)
Definition onTrainingDialogSubmit (formData : TrainingDialog.FormData)
  : Async State unit :=
  closure <- getState ;;
  handleAddTraining
    (TrainingDialog.submitted formData (selectedCustomerUrl closure)).

(** [handleExportCSV]: the file handed to the browser, if the browser
    supports the [download] attribute of links. *)
Definition handleExportCSV (download_supported : bool)
  : Async State (option (string * string)) :=
  closure <- getState ;;
  let csvString := csvString (customers closure) in
  if download_supported then
    toast_success "Customers exported successfully" ;;
    ret (Some ("customers.csv", csvString))
  else ret None.

End Component.

(** The mutations the page offers. *)
Inductive Mutation : Type :=
| AddCustomer (customer : Customer)
| EditCustomer (customer : Customer)
| DeleteCustomer
| AddTraining (training : NewTraining).

Definition handle `{Backend} (m : Mutation) : Async State unit :=
  match m with
  | AddCustomer customer => handleAddCustomer customer
  | EditCustomer customer => handleEditCustomer customer
  | DeleteCustomer => handleDeleteCustomer
  | AddTraining training => handleAddTraining training
  end.

End CustomerList.

(* ===================================================================== *)
(** * Trainings page (TrainingList) *)
(* ===================================================================== *)

Module TrainingList.
Import JS.

Record State : Type := {
  trainings : list Training;
  loading : bool;
  searchTerm : string;
  deleteDialogOpen : bool;
  selectedTrainingId : option Z
}.

Definition initial : State := {|
  trainings := [];
  loading := true;
  searchTerm := "";
  deleteDialogOpen := false;
  selectedTrainingId := None
|}.

Definition with_trainings (v : list Training) (st : State) : State :=
  {| trainings := v; loading := loading st; searchTerm := searchTerm st;
     deleteDialogOpen := deleteDialogOpen st;
     selectedTrainingId := selectedTrainingId st |}.

Definition with_loading (v : bool) (st : State) : State :=
  {| trainings := trainings st; loading := v; searchTerm := searchTerm st;
     deleteDialogOpen := deleteDialogOpen st;
     selectedTrainingId := selectedTrainingId st |}.

Definition with_deleteDialogOpen (v : bool) (st : State) : State :=
  {| trainings := trainings st; loading := loading st;
     searchTerm := searchTerm st;
     deleteDialogOpen := v;
     selectedTrainingId := selectedTrainingId st |}.

Definition with_selectedTrainingId (v : option Z) (st : State) : State :=
  {| trainings := trainings st; loading := loading st;
     searchTerm := searchTerm st;
     deleteDialogOpen := deleteDialogOpen st;
     selectedTrainingId := v |}.

(** Reading a member of [training.customer], which may be [null]. *)
Definition customer_member {A} (training : Training) (member : Customer -> A)
  : Completion A :=
  match customer training with
  | Some c => Normal (member c)
  | None => Throw (TypeError "training.customer is null")
  end.

Section Filter.
(** [String.prototype.toLowerCase] of the host. *)
Variable toLowerCase : string -> string.

(** The callback of [trainings.filter] in the render:
    [activity matches || (training.customer && full name matches)]. *)
Definition matchesSearch (searchTerm : string) (training : Training)
  : Completion bool :=
  let searchStr := toLowerCase searchTerm in
  if includes (toLowerCase (activity training)) searchStr then Normal true
  else
    match customer training with
    | None => Normal false
    | Some _ =>
        cbind (customer_member training firstname) (fun first =>
        cbind (customer_member training lastname) (fun last =>
        Normal (includes (toLowerCase (first ++ " " ++ last)) searchStr)))
    end.

Definition filteredTrainings (trainings : list Training)
           (searchTerm : string) : Completion (list Training) :=
  Array_filter (matchesSearch searchTerm) trainings.

(** The [rows] the grid is given. *)
Definition rows (st : State) : Completion (list Training) :=
  filteredTrainings (trainings st) (searchTerm st).

End Filter.

Section Component.
Context `{Backend}.

Definition setTrainings v : Async State unit := modify (with_trainings v).
Definition setLoading v : Async State unit := modify (with_loading v).
Definition setDeleteDialogOpen v : Async State unit :=
  modify (with_deleteDialogOpen v).
Definition setSelectedTrainingId v : Async State unit :=
  modify (with_selectedTrainingId v).

Definition fetchTrainings : Async State unit :=
  finally
    (try_catch
       (data <- api.getTrainings ;;
        setTrainings (held_trainings data))
       (fun error =>
          console_error "Error fetching trainings:" error ;;
          toast_error "Failed to load training sessions"))
    (setLoading false).

Definition mount : Async State unit := fetchTrainings.

(** [if (!selectedTrainingId) return;] : [null] and [0] are falsy. *)
Definition handleDeleteTraining : Async State unit :=
  closure <- getState ;;
  match selectedTrainingId closure with
  | None => ret tt
  | Some 0 => ret tt
  | Some trainingId =>
      try_catch
        (api.deleteTraining trainingId ;;
         fetchTrainings ;;
         setDeleteDialogOpen false ;;
         setSelectedTrainingId None ;;
         toast_success "Training session deleted successfully")
        (fun error =>
           console_error "Error deleting training:" error ;;
           toast_error "Failed to delete training session")
  end.

(** ** Events of the page *)

(** [onClick] of a row's delete action. *)
Definition onDeleteClick (row : Training) : Async State unit :=
  setSelectedTrainingId (Some (id row)) ;;
  setDeleteDialogOpen true.

Definition onDeleteDialogClose : Async State unit :=
  setDeleteDialogOpen false.

End Component.

End TrainingList.

(* ===================================================================== *)
(** * Calendar page *)
(* ===================================================================== *)

Module CalendarPage.
Import JS.

(** A [Date], by its time value in milliseconds since the epoch; the
    time value of an Invalid Date is NaN. *)
Record Date : Type := { getTime : Number.t }.

Record CalendarEvent : Type := {
  ev_id : Z;
  ev_title : string;
  ev_start : Date;
  ev_end : Date;
  ev_customer : string
}.

Record State : Type := {
  events : list CalendarEvent;
  loading : bool
}.

Definition initial : State := {| events := []; loading := true |}.

(** [TimeClip]: a time value is an integer of at most 8.64e15 in absolute
    value; anything else makes an Invalid Date. *)
Definition TimeClip (time : Number.t) : Number.t :=
  match time with
  | Number.Finite t =>
      if Z.abs t <=? 8640000000000000 then Number.Finite t else Number.NaN
  | _ => Number.NaN
  end.

(** [tooltipAccessor]: the title, a line break, and the length of the
    event in minutes. *)
Definition tooltipAccessor (event : CalendarEvent) : string :=
  (ev_title event
   ++ String newline_char EmptyString
   ++ "Duration: "
   ++ Number_toString
        (Number.Math_round_div
           (Number.sub (getTime (ev_end event)) (getTime (ev_start event)))
           60000)
   ++ " minutes")%string.

Section Projection.
(** [Date.parse], the parser of the host: the time value a string stands
    for, or NaN. *)
Variable Date_parse : string -> Number.t.

(** [new Date(isoString)] *)
Definition new_Date_of_string (s : string) : Date :=
  {| getTime := TimeClip (Date_parse s) |}.

(** [new Date(number)] *)
Definition new_Date_of_number (t : Number.t) : Date :=
  {| getTime := TimeClip t |}.

(** The callback of [trainings.map] in [fetchTrainings]. *)
Definition toCalendarEvent (training : Training)
  : Completion CalendarEvent :=
  cbind (TrainingList.customer_member training firstname) (fun first =>
  cbind (TrainingList.customer_member training lastname) (fun last =>
  Normal
    {| ev_id := id training;
       ev_title := activity training ++ " / " ++ first ++ " " ++ last;
       ev_start := new_Date_of_string (date training);
       ev_end :=
         new_Date_of_number
           (Number.add
              (getTime (new_Date_of_string (date training)))
              (Number.mul (Number.of_Z (duration training))
                          (Number.Finite 60000)));
       ev_customer := first ++ " " ++ last |})).

Definition calendarEvents (trainings : list Training)
  : Completion (list CalendarEvent) :=
  Array_map toCalendarEvent trainings.

(** [trainings.map(...)] on [response.data]: only an array has a [map]
    to call. *)
Definition trainings_map (data : Data) : Completion (list CalendarEvent) :=
  match data with
  | TrainingsData trainings => calendarEvents trainings
  | _ => Throw (TypeError "trainings.map is not a function")
  end.

Context `{Backend}.

Definition setEvents v : Async State unit :=
  modify (fun st => {| events := v; loading := loading st |}).
Definition setLoading v : Async State unit :=
  modify (fun st => {| events := events st; loading := v |}).

Definition fetchTrainings : Async State unit :=
  finally
    (try_catch
       (trainings <- api.getTrainings ;;
        calendarEvents <- await (trainings_map trainings) ;;
        setEvents calendarEvents)
       (fun error =>
          console_error "Error fetching trainings:" error ;;
          toast_error "Failed to load calendar events"))
    (setLoading false).

End Projection.

End CalendarPage.

(* ===================================================================== *)
(** * Statistics page *)
(* ===================================================================== *)

Module StatisticsPage.
Import JS.

Record ActivityStat : Type := {
  stat_activity : string;
  stat_duration : Z
}.

Record State : Type := {
  stats : list ActivityStat;
  loading : bool
}.

Definition initial : State := {| stats := []; loading := true |}.

(** The body of [fetchStats] between the load and [setStats], with the
    totals in exact integer arithmetic: what the code computes as long as
    no addition rounds, which is so on every collection whose durations
    add up, in absolute value, to at most 2^53
    ([activityStats_binary64_exact]). *)
Definition activityStats (trainings : list Training) : list ActivityStat :=
  let groupedStats := lodash.groupBy trainings activity in
  let activityStats :=
    map (fun entry : string * list Training =>
           let (activity, trainings) := entry in
           {| stat_activity := activity;
              stat_duration := lodash.sumBy trainings duration |})
        (Object_entries groupedStats) in
  Array_sort (fun a b => stat_duration b - stat_duration a) activityStats.

(** A record of the chart with its total as a number of the host. *)
Record ActivityStat_binary64 : Type := {
  stat64_activity : string;
  stat64_duration : Number.t
}.

(** The same body in the arithmetic of the host: every duration is the
    binary64 value of the integer of the payload, [sumBy] adds in
    binary64, and the comparison function of the sort subtracts in
    binary64. (A NaN total would make that function inconsistent and the
    order of the result the host's own; totals are NaN only when sums of
    both signs overflow.) *)
Definition activityStats_binary64 (trainings : list Training)
  : list ActivityStat_binary64 :=
  let groupedStats := lodash.groupBy trainings activity in
  let activityStats :=
    map (fun entry : string * list Training =>
           let (activity, trainings) := entry in
           {| stat64_activity := activity;
              stat64_duration :=
                lodash.sumBy_binary64
                  trainings (fun t => Number.of_Z (duration t)) |})
        (Object_entries groupedStats) in
  Array_sort (fun a b =>
                Number.sort_order
                  (Number.sub (stat64_duration b) (stat64_duration a)))
             activityStats.

Section Component.
Context `{Backend}.

Definition setStats v : Async State unit :=
  modify (fun st => {| stats := v; loading := loading st |}).
Definition setLoading v : Async State unit :=
  modify (fun st => {| stats := stats st; loading := v |}).

Definition fetchStats : Async State unit :=
  finally
    (try_catch
       (trainings <- api.getTrainings ;;
        setStats (activityStats (held_trainings trainings)))
       (fun error =>
          console_error "Error fetching training statistics:" error ;;
          toast_error "Failed to load statistics"))
    (setLoading false).

End Component.

End StatisticsPage.

(* ===================================================================== *)
(** * Layout: the reset action *)
(* ===================================================================== *)

Module Layout.
Import JS.

Definition RESET_URL : string :=
  "https://customer-rest-service-frontend-personaltrainer.2.rahtiapp.fi/reset".

(** [axios.post(RESET_URL)], straight from the component. *)
Definition reset_request : Request :=
  {| method := POST; url := RESET_URL; body := NoBody |}.

Definition handleResetDatabase `{Backend} : Async unit unit :=
  try_catch
    (axios_post RESET_URL NoBody ;;
     toast_success "Database reset successfully" ;;
     window_location_reload)
    (fun error =>
       toast_error "Failed to reset database" ;;
       console_error "Error resetting database:" error).

End Layout.

(* ===================================================================== *)
(** * Notions used in the statements *)
(* ===================================================================== *)

(** [term] occurs in [s] when letter case is ignored the way the host
    ignores it: the lower-cased term is a substring of the lower-cased
    [s]. *)
Definition occurs_ignoring_case (toLowerCase : string -> string)
           (term s : string) : Prop :=
  exists pre post,
    toLowerCase s = (pre ++ toLowerCase term ++ post)%string.

Definition full_name (c : Customer) : string :=
  (firstname c ++ " " ++ lastname c)%string.

(** The value of the trainings filter callback when it completes. *)
Definition training_matches (toLowerCase : string -> string)
           (term : string) (t : Training) : bool :=
  JS.includes (toLowerCase (activity t)) (toLowerCase term)
  || match customer t with
     | Some c => JS.includes (toLowerCase (full_name c)) (toLowerCase term)
     | None => false
     end.

Definition Zsum (l : list Z) : Z := fold_right Z.add 0 l.

(** The accumulator of [groupBy] after the elements [seen]: keys are
    distinct, each holds exactly the elements seen under it, in order,
    and every element seen is filed under its key. *)
Definition grouped {A} (key : A -> string) (o : JS.Obj (list A))
           (seen : list A) : Prop :=
  NoDup (map fst o)
  /\ (forall k vs,
         In (k, vs) o ->
         vs = filter (fun x => String.eqb (key x) k) seen /\ vs <> [])
  /\ (forall x, In x seen -> In (key x) (map fst o)).

(** What the groups of an object add up to. *)
Definition group_total {A} (dur : A -> Z) (o : JS.Obj (list A)) : Z :=
  Zsum (map (fun kv => lodash.sumBy (snd kv) dur) o).

(** The trainings filed under activity label [a]. *)
Definition with_activity (a : string) (trainings : list Training)
  : list Training :=
  filter (fun t => String.eqb (activity t) a) trainings.

Section Runs.
Context {B : Backend}.

(** Running a handler from component state [st] against the service in
    state [srv], with an empty log: the log of the result is what the
    handler did. *)
Definition run {St A} (c : Async St A) (st : St) (srv : Server)
  : JS.Completion A * St * World :=
  c st {| remote := srv; log := [] |}.

Definition outcome {St A} (r : JS.Completion A * St * World)
  : JS.Completion A := fst (fst r).

Definition state_after {St A} (r : JS.Completion A * St * World) : St :=
  snd (fst r).

Definition events_of {St A} (r : JS.Completion A * St * World)
  : list Event := log (snd r).

End Runs.

Definition http_calls (evs : list Event)
  : list (Request * JS.Completion Data) :=
  flat_map (fun e => match e with
                     | Http r response => [(r, response)]
                     | _ => []
                     end) evs.

Definition is_list_call (c : Request * JS.Completion Data) : bool :=
  match method (fst c) with GET => true | _ => false end.

(** The "list all" requests of a log, and the mutating ones. *)
Definition list_calls (evs : list Event) : list (Request * JS.Completion Data) :=
  filter is_list_call (http_calls evs).

Definition mutating_calls (evs : list Event)
  : list (Request * JS.Completion Data) :=
  filter (fun c => negb (is_list_call c)) (http_calls evs).

Definition succeeded (c : Request * JS.Completion Data) : bool :=
  match snd c with JS.Normal _ => true | JS.Throw _ => false end.

Definition list_customers_request : Request :=
  {| method := GET; url := (api.BASE_URL ++ "/customers")%string;
     body := NoBody |}.

Definition list_trainings_request : Request :=
  {| method := GET; url := (api.BASE_URL ++ "/gettrainings")%string;
     body := NoBody |}.

(** The REST actions of the remote service as its interface lists them,
    each with the request that performs it. *)
Inductive RestAction : Type :=
| ListCustomers
| CreateCustomer (payload : Customer)
| ReplaceCustomer (locator : string) (payload : Customer)
| RemoveCustomer (locator : string)
| ListTrainings
| CreateTraining (payload : NewTraining)
| RemoveTraining (trainingId : Z)
| ResetAllData.

Definition rest_request (a : RestAction) : Request :=
  match a with
  | ListCustomers => list_customers_request
  | CreateCustomer payload =>
      {| method := POST; url := (api.BASE_URL ++ "/customers")%string;
         body := CustomerBody payload |}
  | ReplaceCustomer locator payload =>
      {| method := PUT; url := locator; body := CustomerBody payload |}
  | RemoveCustomer locator =>
      {| method := DELETE; url := locator; body := NoBody |}
  | ListTrainings => list_trainings_request
  | CreateTraining payload =>
      {| method := POST; url := (api.BASE_URL ++ "/trainings")%string;
         body := TrainingBody payload |}
  | RemoveTraining trainingId =>
      {| method := DELETE;
         url := (api.BASE_URL ++ "/trainings/" ++ Z_to_string trainingId)%string;
         body := NoBody |}
  | ResetAllData => Layout.reset_request
  end.

(** A service that answers the requests it receives with the responses of
    a script, in order, and with a network error once the script is over. *)
Definition scripted : Backend := {|
  Server := list (JS.Completion Data);
  serve := fun _ script =>
             match script with
             | [] => ([], JS.Throw (JS.AxiosError "Network Error"))
             | response :: rest => (rest, response)
             end
|}.

(** The largest time value of a [Date], in milliseconds on either side of
    the epoch. *)
Definition max_time : Z := 8640000000000000.

(** The instant [duration] minutes after [start], when [start] is a valid
    time value and that instant is one too; NaN otherwise. *)
Definition minutes_after (start : Number.t) (duration : Z) : Number.t :=
  match start with
  | Number.Finite s =>
      if Z.abs (s + duration * 60000) <=? max_time
      then Number.Finite (s + duration * 60000)
      else Number.NaN
  | _ => Number.NaN
  end.

(** What the calendar shows for training [t]: entry [e] starts at the
    training's timestamp, is labelled with the activity and the customer's
    name, and ends [duration t] minutes (in milliseconds) after its start
    when start and end are instants a [Date] can hold; else its end is an
    Invalid Date. *)
Definition derived_entry (Date_parse : string -> Number.t)
           (t : Training) (e : CalendarPage.CalendarEvent) : Prop :=
  exists c,
    customer t = Some c
    /\ CalendarPage.ev_start e
       = CalendarPage.new_Date_of_string Date_parse (date t)
    /\ CalendarPage.getTime (CalendarPage.ev_end e)
       = minutes_after (CalendarPage.getTime (CalendarPage.ev_start e))
                       (duration t)
    /\ CalendarPage.ev_title e
       = (activity t ++ " / " ++ full_name c)%string.

(** The Number value for the integer [z] by the specification of binary64
    that comes with Rocq ([SpecFloat], precision 53, exponents below
    1024), read back into [Number.t]: a second reading of IEEE 754 against
    which [Number.of_Z] is checked on samples. *)
Definition of_Z_by_SpecFloat (z : Z) : option Number.t :=
  match binary_normalize 53 1024 z 0 false with
  | S754_zero _ => Some (Number.Finite 0)
  | S754_infinity negative => Some (Number.Infinity negative)
  | S754_nan => Some Number.NaN
  | S754_finite negative m e =>
      let sign := if negative then -1 else 1 in
      if 0 <=? e then Some (Number.Finite (sign * (Z.pos m * 2 ^ e)))
      else if Z.pos m mod 2 ^ (- e) =? 0
           then Some (Number.Finite (sign * (Z.pos m / 2 ^ (- e))))
           else None
  end.

(** Integers around the places where binary64 rounds: next to 2^53 and
    2^54, halves and what lies on either side of them, and the largest
    finite values. *)
Definition rounding_samples : list Z :=
  [0; 1; -1; 60000; 8640000000000000;
   9007199254740991; 9007199254740992; 9007199254740993; 9007199254740994;
   9007199254740995; 9007199254740996; 9007199254740997;
   -9007199254740993; -9007199254740995;
   18014398509481984; 18014398509481985; 18014398509481986;
   18014398509481987; 18014398509481989; 18014398509481990;
   18014398509481991; -18014398509481986;
   2 ^ 60 + 127; 2 ^ 60 + 128; 2 ^ 60 + 129; 2 ^ 60 + 383; 2 ^ 60 + 384;
   2 ^ 60 + 385; 2 ^ 100 + 2 ^ 47; 2 ^ 100 + 3 * 2 ^ 47;
   2 ^ 100 + 3 * 2 ^ 47 + 1; 2 ^ 54 - 1; 2 ^ 55 - 1; 2 ^ 55 - 3;
   2 ^ 1023; 2 ^ 1024 - 2 ^ 971; 2 ^ 1024 - 2 ^ 971 + 2 ^ 969;
   2 ^ 1024 - 2 ^ 970 - 1; 2 ^ 1024 - 2 ^ 970; 2 ^ 1024;
   - (2 ^ 1024 - 2 ^ 970); 2 ^ 1100 + 1].

Definition same_number (x y : Number.t) : bool :=
  match x, y with
  | Number.Finite a, Number.Finite b => a =? b
  | Number.Infinity s, Number.Infinity s' => Bool.eqb s s'
  | Number.NaN, Number.NaN => true
  | _, _ => false
  end.

(** [x] is infinite, or at least [bound] in absolute value. *)
Definition beyond (bound : Z) (x : Number.t) : Prop :=
  match x with
  | Number.Finite z => bound <= Z.abs z
  | Number.Infinity _ => True
  | Number.NaN => False
  end.

(** The absolute values of the durations of a collection, added up. *)
Definition total_magnitude {A} (dur : A -> Z) (l : list A) : Z :=
  Zsum (map (fun x => Z.abs (dur x)) l).

(** The largest integer up to which every integer is a binary64 value. *)
Definition max_safe : Z := 9007199254740992.

(** A record of exact total [s] as the chart holds it when no addition
    has rounded. *)
Definition exact_stat (s : StatisticsPage.ActivityStat)
  : StatisticsPage.ActivityStat_binary64 :=
  {| StatisticsPage.stat64_activity := StatisticsPage.stat_activity s;
     StatisticsPage.stat64_duration :=
       Number.Finite (StatisticsPage.stat_duration s) |}.

(** ** Sample data *)

Definition anna : Customer := {|
  firstname := "Anna"; lastname := "Virtanen"; email := "anna@example.com";
  phone := "040-1234567"; streetaddress := "Katu 1"; postcode := "00100";
  city := "Helsinki";
  links_self_href := Some (api.BASE_URL ++ "/customers/1")%string
|}.

Definition john : Customer := {|
  firstname := "John"; lastname := "Smith"; email := "john@example.com";
  phone := "050-7654321"; streetaddress := "Tie 2"; postcode := "33100";
  city := "Tampere";
  links_self_href := Some (api.BASE_URL ++ "/customers/2")%string
|}.

Definition training (i : Z) (minutes : Z) (label : string)
           (owner : option Customer) : Training :=
  {| id := i; date := "2024-11-25T10:00:00.000Z"; duration := minutes;
     activity := label; customer := owner |}.

Definition new_training : NewTraining := {|
  new_date := "2024-11-25T10:00:00.000Z"; new_duration := 60;
  new_activity := "Spinning";
  new_customer := (api.BASE_URL ++ "/customers/1")%string
|}.

(** The customers page with a loaded list, every dialog open and a row
    selected. *)
Definition customers_page_loaded : CustomerList.State := {|
  CustomerList.customers := [anna; john];
  CustomerList.loading := false;
  CustomerList.searchTerm := "";
  CustomerList.customerDialogOpen := true;
  CustomerList.trainingDialogOpen := true;
  CustomerList.deleteDialogOpen := true;
  CustomerList.selectedCustomer := Some anna;
  CustomerList.selectedCustomerUrl := (api.BASE_URL ++ "/customers/1")%string;
  CustomerList.isEditing := true
|}.

(** The trainings page with a loaded list and training 42 selected. *)
Definition trainings_page_loaded : TrainingList.State := {|
  TrainingList.trainings :=
    [training 42 30 "Running" (Some anna); training 7 45 "Yoga" (Some john)];
  TrainingList.loading := false;
  TrainingList.searchTerm := "";
  TrainingList.deleteDialogOpen := true;
  TrainingList.selectedTrainingId := Some 42
|}.

(** Lower-casing of text in the ASCII range, where the host's
    [toLowerCase] maps the letters A to Z to a to z and keeps every other
    character. *)
Definition ascii_toLowerCase_char (c : ascii) : ascii :=
  let n := N_of_ascii c in
  if (65 <=? n)%N && (n <=? 90)%N then ascii_of_N (n + 32) else c.

Fixpoint ascii_toLowerCase (s : string) : string :=
  match s with
  | EmptyString => EmptyString
  | String c s' => String (ascii_toLowerCase_char c) (ascii_toLowerCase s')
  end.

(** A host whose parser knows the one timestamp of the sample data. *)
Definition sample_Date_parse (s : string) : Number.t :=
  if String.eqb s "2024-11-25T10:00:00.000Z"
  then Number.Finite 1732528800000 else Number.NaN.




(** ** Reading comma-separated text

    A reader of the usual format: records are separated by line breaks and
    fields by commas; a field is bare or stands between double quotes, and
    inside the quotes a doubled double quote stands for one double quote
    while commas and line breaks are ordinary characters. *)
Inductive CsvState : Type :=
| FieldStart    (* nothing of the field read yet *)
| Bare          (* inside a bare field *)
| Quoted        (* inside the quotes *)
| QuoteSeen.    (* a double quote read inside the quotes *)

Fixpoint csv_read (state : CsvState) (field : string) (record : list string)
         (records : list (list string)) (text : string)
  : option (list (list string)) :=
  match text with
  | EmptyString =>
      match state with
      | Quoted => None
      | _ => Some (records ++ [record ++ [field]])
      end
  | String c rest =>
      let field_end :=
        if Ascii.eqb c ","%char
        then csv_read FieldStart EmptyString (record ++ [field]) records rest
        else if Ascii.eqb c JS.newline_char
        then csv_read FieldStart EmptyString []
                      (records ++ [record ++ [field]]) rest
        else None in
      match state with
      | FieldStart =>
          if Ascii.eqb c JS.quote_char
          then csv_read Quoted EmptyString record records rest
          else if Ascii.eqb c ","%char || Ascii.eqb c JS.newline_char
          then field_end
          else csv_read Bare (String c EmptyString) record records rest
      | Bare =>
          if Ascii.eqb c JS.quote_char then None
          else if Ascii.eqb c ","%char || Ascii.eqb c JS.newline_char
          then field_end
          else csv_read Bare (field ++ String c EmptyString) record records
                        rest
      | Quoted =>
          if Ascii.eqb c JS.quote_char
          then csv_read QuoteSeen field record records rest
          else csv_read Quoted (field ++ String c EmptyString) record records
                        rest
      | QuoteSeen =>
          if Ascii.eqb c JS.quote_char
          then csv_read Quoted (field ++ String JS.quote_char EmptyString)
                        record records rest
          else field_end
      end
  end.

Definition csv_parse (text : string) : option (list (list string)) :=
  csv_read FieldStart EmptyString [] [] text.

(** The values of a customer in the exported columns. *)
Definition exported_values (c : Customer) : list string :=
  map (fun field : string * (Customer -> string) => snd field c)
      CustomerList.csv_fields.

(** What [Array_join] puts after the first element. *)
Fixpoint joined_after (separator : string) (l : list string) : string :=
  match l with
  | [] => EmptyString
  | y :: l' => (separator ++ y ++ joined_after separator l')%string
  end.

(** The mutating request a handler of the customers page sends from state
    [st], if its guard lets it send one. *)
Definition mutation_request (m : CustomerList.Mutation)
           (st : CustomerList.State) : option Request :=
  match m with
  | CustomerList.AddCustomer customer =>
      Some (rest_request (CreateCustomer customer))
  | CustomerList.EditCustomer customer =>
      match CustomerList.selected_href (CustomerList.selectedCustomer st) with
      | Some (String a href) =>
          Some (rest_request (ReplaceCustomer (String a href) customer))
      | _ => None
      end
  | CustomerList.DeleteCustomer =>
      match CustomerList.selectedCustomerUrl st with
      | String a href => Some (rest_request (RemoveCustomer (String a href)))
      | EmptyString => None
      end
  | CustomerList.AddTraining training =>
      Some (rest_request (CreateTraining training))
  end.

(** ** Sequences of user actions *)

Section Sessions.
Context {B : Backend}.

(** Edit on a row, typing [changes] into the dialog, Save. *)
Definition edit_and_save (row : Customer)
           (changes : list (CustomerDialog.Field * string))
  : Async CustomerList.State unit :=
  CustomerList.onEditClick row ;;
  opened <- getState ;;
  CustomerList.onCustomerDialogSave
    (CustomerDialog.typed (CustomerList.customerDialog_formData opened)
                          changes).

(** Add Customer, typing [changes] into the dialog, Save. *)
Definition add_and_save (changes : list (CustomerDialog.Field * string))
  : Async CustomerList.State unit :=
  CustomerList.onAddCustomerClick ;;
  opened <- getState ;;
  CustomerList.onCustomerDialogSave
    (CustomerDialog.typed (CustomerList.customerDialog_formData opened)
                          changes).

(** Delete on a row of the customers grid, then Delete in the dialog. *)
Definition delete_and_confirm (row : Customer)
  : Async CustomerList.State unit :=
  CustomerList.onDeleteClick row ;;
  CustomerList.handleDeleteCustomer.

(** Add Training on a row, then Save in the training dialog. *)
Definition add_training_and_submit (row : Customer)
           (formData : TrainingDialog.FormData)
  : Async CustomerList.State unit :=
  CustomerList.onAddTrainingClick row ;;
  CustomerList.onTrainingDialogSubmit formData.

(** Delete on a row of the trainings grid, then Delete in the dialog. *)
Definition delete_training_and_confirm (row : Training)
  : Async TrainingList.State unit :=
  TrainingList.onDeleteClick row ;;
  TrainingList.handleDeleteTraining.

End Sessions.

(** The value a form holds for one of its text fields. *)
Definition field_value (name : CustomerDialog.Field) (form : Customer)
  : string :=
  match name with
  | CustomerDialog.f_firstname => firstname form
  | CustomerDialog.f_lastname => lastname form
  | CustomerDialog.f_email => email form
  | CustomerDialog.f_phone => phone form
  | CustomerDialog.f_streetaddress => streetaddress form
  | CustomerDialog.f_postcode => postcode form
  | CustomerDialog.f_city => city form
  end.

Definition same_field (a b : CustomerDialog.Field) : bool :=
  match a, b with
  | CustomerDialog.f_firstname, CustomerDialog.f_firstname
  | CustomerDialog.f_lastname, CustomerDialog.f_lastname
  | CustomerDialog.f_email, CustomerDialog.f_email
  | CustomerDialog.f_phone, CustomerDialog.f_phone
  | CustomerDialog.f_streetaddress, CustomerDialog.f_streetaddress
  | CustomerDialog.f_postcode, CustomerDialog.f_postcode
  | CustomerDialog.f_city, CustomerDialog.f_city => true
  | _, _ => false
  end.

(** The last value typed into field [name], if any. *)
Definition last_typed (name : CustomerDialog.Field)
           (changes : list (CustomerDialog.Field * string)) : option string :=
  fold_left (fun last change =>
               if same_field (fst change) name then Some (snd change)
               else last)
            changes None.

(* ===================================================================== *)
(** * Strings and the local text filters *)
(* ===================================================================== *)

Section StringFacts.
Import JS.

Lemma startsWith_spec (sub s : string) :
  startsWith s sub = true <-> exists post, s = (sub ++ post)%string.
Proof.
  revert s; induction sub as [|b sub IH]; intros s.
  - split; [intros _; now exists s | intros _; now destruct s].
  - destruct s as [|a s]; simpl.
    + split; [discriminate | intros [post Hp]; discriminate].
    + rewrite andb_true_iff, Ascii.eqb_eq, IH. split.
      * intros [-> [post ->]]. now exists post.
      * intros [post Hp]. injection Hp as -> ->. split; eauto.
Qed.

Lemma includes_spec (s sub : string) :
  includes s sub = true <->
  exists pre post, s = (pre ++ sub ++ post)%string.
Proof.
  induction s as [|a s IH].
  - change (includes EmptyString sub)
      with (startsWith EmptyString sub || false).
    rewrite orb_false_r, startsWith_spec. split.
    + intros [post Hp]. now exists EmptyString, post.
    + intros [pre [post Hp]]. destruct pre; [|discriminate].
      now exists post.
  - change (includes (String a s) sub)
      with (startsWith (String a s) sub || includes s sub).
    rewrite orb_true_iff, IH, startsWith_spec. split.
    + intros [[post Hp] | [pre [post Hp]]].
      * now exists EmptyString, post.
      * exists (String a pre), post. simpl. now rewrite Hp.
    + intros [pre [post Hp]]. destruct pre as [|b pre].
      * left. now exists post.
      * right. simpl in Hp. injection Hp as _ ->. now exists pre, post.
Qed.

Variable toLowerCase : string -> string.

Lemma includes_occurs (term s : string) :
  includes (toLowerCase s) (toLowerCase term) = true <->
  occurs_ignoring_case toLowerCase term s.
Proof. apply includes_spec. Qed.

(** A callback that always completes makes [Array_filter] the plain
    filter. *)
Lemma Array_filter_total {A} (callback : A -> Completion bool)
      (f : A -> bool) (l : list A) :
  (forall x, callback x = Normal (f x)) ->
  Array_filter callback l = Normal (filter f l).
Proof.
  intros Hcb. induction l as [|x l IH]; simpl; [reflexivity|].
  rewrite Hcb, IH. simpl. now destruct (f x).
Qed.

Lemma filter_idem {A} (f : A -> bool) (l : list A) :
  filter f (filter f l) = filter f l.
Proof.
  induction l as [|x l IH]; simpl; [reflexivity|].
  destruct (f x) eqn:E; simpl; [rewrite E|]; now rewrite IH.
Qed.

Lemma trainings_callback_completes (term : string) (t : Training) :
  TrainingList.matchesSearch toLowerCase term t
  = Normal (training_matches toLowerCase term t).
Proof.
  unfold TrainingList.matchesSearch, training_matches,
    TrainingList.customer_member, full_name.
  destruct (includes (toLowerCase (activity t)) (toLowerCase term));
    [reflexivity|].
  destruct (customer t); reflexivity.
Qed.

Lemma filteredTrainings_eq (trainings : list Training) (term : string) :
  TrainingList.filteredTrainings toLowerCase trainings term
  = Normal (filter (training_matches toLowerCase term) trainings).
Proof.
  apply Array_filter_total, trainings_callback_completes.
Qed.

Lemma training_matches_spec (term : string) (t : Training) :
  training_matches toLowerCase term t = true <->
  occurs_ignoring_case toLowerCase term (activity t)
  \/ exists c, customer t = Some c
               /\ occurs_ignoring_case toLowerCase term (full_name c).
Proof.
  unfold training_matches. rewrite orb_true_iff, includes_occurs.
  destruct (customer t) as [c|].
  - rewrite includes_occurs. split.
    + intros [Ha | Hc]; [now left | right; now exists c].
    + intros [Ha | [c' [Hc' Hc]]]; [now left|].
      injection Hc' as <-. now right.
  - split.
    + intros [Ha | Hf]; [now left | discriminate].
    + intros [Ha | [c [Hc _]]]; [now left | discriminate].
Qed.

Lemma customers_callback_spec (term : string) (c : Customer) :
  CustomerList.matchesSearch toLowerCase term c = true <->
  exists field, In field [firstname; lastname; email; city]
                /\ occurs_ignoring_case toLowerCase term (field c).
Proof.
  unfold CustomerList.matchesSearch.
  rewrite !orb_true_iff, !includes_occurs. split.
  - intros [[[Hf | Hl] | He] | Hc];
      [exists firstname | exists lastname | exists email | exists city];
      simpl; tauto.
  - intros [field [Hin Hocc]]. simpl in Hin.
    destruct Hin as [<- | [<- | [<- | [<- | []]]]]; tauto.
Qed.

End StringFacts.

(** C6: the local text filters of both list views are functions of the
    loaded collection and the search term alone (they do not run in
    [Async], so they reach neither the service nor the log). Whatever the
    case folding [toLowerCase] of the host is: an element is shown exactly
    when the lower-cased term is a substring of the lower-cased value of one
    of the view's fixed fields (first name, last name, email, city for
    customers; activity or the customer's full name for trainings); terms
    with the same lower-casing give the same result, and so do customers
    whose searched fields have the same lower-casing; and filtering what is
    shown, by the same term, gives it back unchanged. *)
Theorem local_filter_case_insensitive_idempotent
        (toLowerCase : string -> string) :
  (forall customers term c,
      In c (CustomerList.filteredCustomers toLowerCase customers term) <->
      In c customers
      /\ exists field, In field [firstname; lastname; email; city]
                       /\ occurs_ignoring_case toLowerCase term (field c))
  /\ (forall customers term term',
         toLowerCase term = toLowerCase term' ->
         CustomerList.filteredCustomers toLowerCase customers term
         = CustomerList.filteredCustomers toLowerCase customers term')
  /\ (forall term c c',
         (forall field, In field [firstname; lastname; email; city] ->
                        toLowerCase (field c) = toLowerCase (field c')) ->
         CustomerList.matchesSearch toLowerCase term c
         = CustomerList.matchesSearch toLowerCase term c')
  /\ (forall customers term,
         CustomerList.filteredCustomers toLowerCase
           (CustomerList.filteredCustomers toLowerCase customers term) term
         = CustomerList.filteredCustomers toLowerCase customers term)
  /\ (forall trainings term,
         exists shown,
           TrainingList.filteredTrainings toLowerCase trainings term
           = JS.Normal shown
           /\ (forall t,
                  In t shown <->
                  In t trainings
                  /\ (occurs_ignoring_case toLowerCase term (activity t)
                      \/ exists c,
                           customer t = Some c
                           /\ occurs_ignoring_case toLowerCase term
                                                   (full_name c)))
           /\ TrainingList.filteredTrainings toLowerCase shown term
              = JS.Normal shown)
  /\ (forall trainings term term',
         toLowerCase term = toLowerCase term' ->
         TrainingList.filteredTrainings toLowerCase trainings term
         = TrainingList.filteredTrainings toLowerCase trainings term').
Proof.
  split; [|split; [|split; [|split; [|split]]]].
  - intros customers term c. unfold CustomerList.filteredCustomers.
    now rewrite filter_In, customers_callback_spec.
  - intros customers term term' Hcase.
    unfold CustomerList.filteredCustomers. apply filter_ext. intros c.
    unfold CustomerList.matchesSearch. now rewrite Hcase.
  - intros term c c' Hfields. unfold CustomerList.matchesSearch.
    rewrite (Hfields firstname), (Hfields lastname), (Hfields email),
      (Hfields city); simpl; tauto.
  - intros customers term. apply filter_idem.
  - intros trainings term.
    exists (filter (training_matches toLowerCase term) trainings).
    split; [|split].
    + apply filteredTrainings_eq.
    + intros t. rewrite filter_In, training_matches_spec. tauto.
    + rewrite filteredTrainings_eq. f_equal. apply filter_idem.
  - intros trainings term term' Hcase. rewrite !filteredTrainings_eq.
    f_equal. apply filter_ext. intros t. unfold training_matches.
    now rewrite Hcase.
Qed.

Lemma local_filter_witness :
  CustomerList.filteredCustomers ascii_toLowerCase [anna; john] "HELSINKI"
  = CustomerList.filteredCustomers ascii_toLowerCase [anna; john] "helsinki"
  /\ CustomerList.filteredCustomers ascii_toLowerCase [anna; john] "HELSINKI"
     = [anna].
Proof.
  split.
  - exact (proj1 (proj2 (local_filter_case_insensitive_idempotent
                           ascii_toLowerCase))
                 [anna; john] "HELSINKI" "helsinki" eq_refl).
  - reflexivity.
Defined.

(** C9: the trainings filter completes on every training list and every
    search term, also when a training's [customer] is [null]: the callback
    returns on such a training, and the training is shown exactly when the
    term occurs in its activity after the host has lower-cased both,
    whatever the case folding [toLowerCase] of the host is. *)
Theorem trainings_filter_total_with_null_customer
        (toLowerCase : string -> string)
        (trainings : list Training) (term : string) :
  exists shown,
    TrainingList.filteredTrainings toLowerCase trainings term
    = JS.Normal shown
    /\ forall t,
        customer t = None ->
        TrainingList.matchesSearch toLowerCase term t
        = JS.Normal (JS.includes (toLowerCase (activity t))
                                 (toLowerCase term))
        /\ (In t shown <->
            In t trainings
            /\ occurs_ignoring_case toLowerCase term (activity t)).
Proof.
  exists (filter (training_matches toLowerCase term) trainings). split.
  - apply filteredTrainings_eq.
  - intros t Hnull. split.
    + rewrite trainings_callback_completes. unfold training_matches.
      now rewrite Hnull, orb_false_r.
    + rewrite filter_In, training_matches_spec. split.
      * intros [Hin [Ha | [c [Hc _]]]]; [tauto | congruence].
      * tauto.
Qed.

Lemma trainings_filter_null_customer_witness :
  TrainingList.filteredTrainings ascii_toLowerCase
    [training 1 30 "Running" None; training 2 45 "Yoga" None;
     training 3 20 "Yoga" (Some anna)] "RUN"
  = JS.Normal [training 1 30 "Running" None]
  /\ TrainingList.matchesSearch ascii_toLowerCase "RUN"
       (training 2 45 "Yoga" None)
     = JS.Normal false.
Proof.
  destruct (trainings_filter_total_with_null_customer ascii_toLowerCase
              [training 1 30 "Running" None; training 2 45 "Yoga" None;
               training 3 20 "Yoga" (Some anna)] "RUN")
    as [shown [Hshown Hnull]].
  split.
  - reflexivity.
  - exact (proj1 (Hnull (training 2 45 "Yoga" None) eq_refl)).
Defined.

(** URLs stay as the source writes them while a run is simplified. *)
Local Arguments String.append : simpl never.

(** Unfolds the monad, axios and the members of [api] in a run, down to
    the answers of the service. *)
Ltac async_compute :=
  cbv beta iota zeta delta
    [run outcome state_after events_of
     bind ret throw try_catch finally settle await modify emit getState
     axios_request axios_get axios_post axios_put axios_delete
     toast_success toast_error console_error window_location_reload
     api.getCustomers api.addCustomer api.updateCustomer api.deleteCustomer
     api.getTrainings api.addTraining api.deleteTraining
     list_customers_request list_trainings_request
     remote log fst snd app].

(* ===================================================================== *)
(** * Binary64 arithmetic on integers *)
(* ===================================================================== *)

Section NumberFacts.
Import Number.

Lemma round_safe (z : Z) : Z.abs z <= 9007199254740992 -> round z = z.
Proof.
  intros Hz. unfold round.
  destruct (Z.leb_spec (Z.abs z) 9007199254740992); [reflexivity | lia].
Qed.

(** Above 2^53 rounding keeps the sign and does not go below the power of
    two under the number. *)
Lemma round_large (z : Z) :
  9007199254740992 < Z.abs z ->
  exists m, round z = Z.sgn z * m /\ 2 ^ Z.log2 (Z.abs z) <= m.
Proof.
  intros Hz. unfold round.
  destruct (Z.leb_spec (Z.abs z) 9007199254740992) as [Hle|_]; [lia|].
  set (a := Z.abs z) in *.
  assert (Ha : 0 < a) by lia.
  assert (Hlog : 53 <= Z.log2 a).
  { apply Z.log2_le_pow2; [assumption|]. change (2 ^ 53) with 9007199254740992.
    lia. }
  set (k := Z.log2 a - 52).
  assert (Hk : 0 < k) by (unfold k; lia).
  assert (Hpow : 0 < 2 ^ k) by (apply Z.pow_pos_nonneg; lia).
  assert (Hsplit : 2 ^ Z.log2 a = 2 ^ 52 * 2 ^ k).
  { rewrite <- Z.pow_add_r by lia. f_equal. unfold k. lia. }
  assert (Hq : 2 ^ 52 <= a / 2 ^ k).
  { apply Z.div_le_lower_bound; [assumption|].
    rewrite Z.mul_comm, <- Hsplit. apply Z.log2_spec. assumption. }
  eexists. split; [reflexivity|].
  rewrite Hsplit.
  apply Z.mul_le_mono_nonneg_r; [lia|].
  destruct (a mod 2 ^ k <? 2 ^ (k - 1)); [assumption|].
  destruct (2 ^ (k - 1) <? a mod 2 ^ k); [lia|].
  destruct (Z.even (a / 2 ^ k)); lia.
Qed.

(** Above 2^53 the result is a binary64 value, a significand of at most
    53 bits times the spacing [2^k] of the binary64 values around the
    number, and no binary64 value is nearer to the number. *)
Lemma round_nearest (z : Z) :
  9007199254740992 < Z.abs z ->
  let k := Z.log2 (Z.abs z) - 52 in
  (exists q, round z = q * 2 ^ k /\ Z.abs q <= 9007199254740992)
  /\ 2 * Z.abs (round z - z) <= 2 ^ k.
Proof.
  intros Hz k. unfold round.
  destruct (Z.leb_spec (Z.abs z) 9007199254740992) as [Hle|_]; [lia|].
  fold k.
  assert (Hlog : 53 <= Z.log2 (Z.abs z)).
  { apply Z.log2_le_pow2; [lia|]. change (2 ^ 53) with 9007199254740992.
    lia. }
  assert (Hk : 0 < k) by (unfold k; lia).
  assert (Hpow : 0 < 2 ^ k) by (apply Z.pow_pos_nonneg; lia).
  assert (Hhalf : 2 ^ k = 2 * 2 ^ (k - 1)).
  { rewrite <- Z.pow_succ_r by lia. f_equal. lia. }
  pose proof (Z.div_mod (Z.abs z) (2 ^ k) ltac:(lia)) as Hdm.
  pose proof (Z.mod_pos_bound (Z.abs z) (2 ^ k) Hpow) as Hr.
  assert (Hq : 0 <= Z.abs z / 2 ^ k < 9007199254740992).
  { split; [apply Z.div_pos; lia|].
    apply Z.div_lt_upper_bound; [assumption|].
    change 9007199254740992 with (2 ^ 53). rewrite <- Z.pow_add_r by lia.
    replace (k + 53) with (Z.succ (Z.log2 (Z.abs z))) by (unfold k; lia).
    apply Z.log2_spec. lia. }
  set (q := Z.abs z / 2 ^ k) in *. set (r := Z.abs z mod 2 ^ k) in *.
  split.
  - eexists. split; [rewrite Z.mul_assoc; reflexivity|].
    destruct (r <? 2 ^ (k - 1)); [|destruct (2 ^ (k - 1) <? r);
                                    [|destruct (Z.even q)]];
      destruct z as [|p|p]; cbn [Z.sgn]; lia.
  - destruct (Z.ltb_spec r (2 ^ (k - 1))) as [Hlt|Hge];
      [|destruct (Z.ltb_spec (2 ^ (k - 1)) r) as [Hgt|Heq];
        [|destruct (Z.even q)]];
      destruct z as [|p|p]; cbn [Z.sgn Z.abs] in *; nia.
Qed.

Lemma round_even (z : Z) :
  Z.abs z < 18014398509481984 -> Z.even z = true -> round z = z.
Proof.
  intros Hz Heven.
  destruct (Z.le_gt_cases (Z.abs z) 9007199254740992) as [Hle|Hgt];
    [now apply round_safe|].
  unfold round.
  destruct (Z.leb_spec (Z.abs z) 9007199254740992) as [Hle|_]; [lia|].
  assert (Hlog : Z.log2 (Z.abs z) = 53).
  { apply Z.log2_unique; [lia|].
    change (2 ^ 53) with 9007199254740992.
    change (2 ^ (53 + 1)) with 18014398509481984. lia. }
  rewrite Hlog. change (53 - 52) with 1. change (2 ^ 1) with 2.
  change (2 ^ (1 - 1)) with 1.
  assert (Hmod : Z.abs z mod 2 = 0).
  { apply Z.even_spec in Heven. destruct Heven as [h ->].
    rewrite Z.abs_mul. change (Z.abs 2) with 2.
    rewrite Z.mul_comm. apply Z.mod_mul. lia. }
  rewrite Hmod. change (0 <? 1) with true. cbv beta iota.
  pose proof (Z.div_mod (Z.abs z) 2 ltac:(lia)) as Hdm.
  rewrite Hmod in Hdm.
  replace (Z.abs z / 2 * 2) with (Z.abs z) by lia.
  destruct z; simpl; lia.
Qed.

Lemma round_lower_bound (n z : Z) :
  53 <= n -> 2 ^ n <= Z.abs z -> 2 ^ n <= Z.abs (round z).
Proof.
  intros Hn Hz.
  destruct (Z.le_gt_cases (Z.abs z) 9007199254740992) as [Hle|Hgt].
  - now rewrite round_safe.
  - destruct (round_large z Hgt) as [m [-> Hm]].
    assert (0 < 2 ^ n) by (apply Z.pow_pos_nonneg; lia).
    assert (Hnm : 2 ^ n <= m).
    { etransitivity; [|exact Hm]. apply Z.pow_le_mono_r; [lia|].
      apply Z.log2_le_pow2; [lia | assumption]. }
    rewrite Z.abs_mul. destruct z; cbn [Z.sgn]; lia.
Qed.

(** The sign of a number survives rounding. *)
Lemma round_sign (z : Z) : (round z <=? 0) = (z <=? 0).
Proof.
  destruct (Z.le_gt_cases (Z.abs z) 9007199254740992) as [Hle|Hgt].
  - now rewrite round_safe.
  - destruct (round_large z Hgt) as [m [-> Hm]].
    assert (0 < 2 ^ Z.log2 (Z.abs z)).
    { apply Z.pow_pos_nonneg; [lia|]. apply Z.log2_nonneg. }
    destruct z as [|p|p]; cbn [Z.sgn]; [lia| |].
    + destruct (Z.leb_spec (1 * m) 0); [lia|].
      symmetry. apply Z.leb_gt. lia.
    + destruct (Z.leb_spec (-1 * m) 0); [|lia].
      symmetry. apply Z.leb_le. lia.
Qed.

Lemma of_Z_exact (z : Z) :
  round z = z -> Z.abs z < 2 ^ 1024 -> of_Z z = Finite z.
Proof.
  intros Hr Hz. unfold of_Z. rewrite Hr.
  destruct (Z.leb_spec (2 ^ 1024) (Z.abs z)); [lia | reflexivity].
Qed.

Lemma safe_below_overflow (z : Z) :
  Z.abs z < 18014398509481984 -> Z.abs z < 2 ^ 1024.
Proof.
  intros Hz. eapply Z.lt_le_trans; [exact Hz|].
  change 18014398509481984 with (2 ^ 54). apply Z.pow_le_mono_r; lia.
Qed.

Lemma of_Z_safe (z : Z) : Z.abs z <= 9007199254740992 -> of_Z z = Finite z.
Proof.
  intros Hz. apply of_Z_exact; [now apply round_safe|].
  apply safe_below_overflow. lia.
Qed.

Lemma of_Z_even (z : Z) :
  Z.abs z < 18014398509481984 -> Z.even z = true -> of_Z z = Finite z.
Proof.
  intros Hz Heven. apply of_Z_exact; [now apply round_even|].
  now apply safe_below_overflow.
Qed.

Lemma of_Z_beyond (n z : Z) :
  53 <= n -> 2 ^ n <= Z.abs z -> beyond (2 ^ n) (of_Z z).
Proof.
  intros Hn Hz. unfold of_Z.
  destruct (2 ^ 1024 <=? Z.abs (round z)); simpl; [exact I|].
  now apply round_lower_bound.
Qed.

End NumberFacts.


(** On the samples [Number.of_Z] is the rounding of Rocq's specification
    of binary64. *)
Example of_Z_agrees_with_SpecFloat :
  forallb (fun z => match of_Z_by_SpecFloat z with
                    | Some x => same_number x (Number.of_Z z)
                    | None => false
                    end)
          rounding_samples
  = true.
Proof. vm_compute. reflexivity. Qed.

(** The comparison a sort makes of a difference is the comparison of the
    exact difference. *)
Lemma sort_order_of_Z (z : Z) :
  (Number.sort_order (Number.of_Z z) <=? 0) = (z <=? 0).
Proof.
  unfold Number.of_Z.
  destruct (Z.leb_spec (2 ^ 1024) (Z.abs (Number.round z))) as [Hinf|Hfin].
  - assert (Hz : z <> 0).
    { intros ->. change (Z.abs (Number.round 0)) with 0 in Hinf.
      assert (0 < 2 ^ 1024) by (apply Z.pow_pos_nonneg; lia). lia. }
    cbn [Number.sort_order].
    destruct (Z.ltb_spec z 0); destruct (Z.leb_spec z 0); try reflexivity; lia.
  - cbn [Number.sort_order]. apply round_sign.
Qed.

(* ===================================================================== *)
(** * Calendar projection *)
(* ===================================================================== *)

Section ClipFacts.
Import Number CalendarPage.

Lemma TimeClip_beyond (x : t) : beyond (2 ^ 53) x -> TimeClip x = NaN.
Proof.
  change (2 ^ 53) with 9007199254740992.
  destruct x as [z| |]; cbn [beyond TimeClip]; intros Hx; try reflexivity.
  destruct (Z.leb_spec (Z.abs z) 8640000000000000); [lia | reflexivity].
Qed.

Lemma TimeClip_valid (x : t) (time : Z) :
  TimeClip x = Finite time -> x = Finite time /\ Z.abs time <= 8640000000000000.
Proof.
  destruct x as [z| |]; simpl; try discriminate.
  destruct (Z.leb_spec (Z.abs z) 8640000000000000); [|discriminate].
  intros Heq. injection Heq as <-. now split.
Qed.

(** [duration * 60000] in binary64: the exact product while it is below
    2^54, and at least 2^54 in absolute value (or infinite) from there
    on. *)
Lemma minutes_to_milliseconds (d : Z) :
  (Z.abs (d * 60000) < 18014398509481984
   /\ mul (of_Z d) (Finite 60000) = Finite (d * 60000))
  \/ (18014398509481984 <= Z.abs (d * 60000)
      /\ beyond (2 ^ 54) (mul (of_Z d) (Finite 60000))).
Proof.
  destruct (Z.lt_ge_cases (Z.abs (d * 60000)) 18014398509481984) as [Hlt|Hge].
  - left. split; [assumption|].
    rewrite of_Z_safe by lia. cbn [mul]. apply of_Z_even; [assumption|].
    rewrite Z.even_mul. apply orb_true_r.
  - right. split; [assumption|].
    destruct (Z.le_gt_cases (Z.abs d) 9007199254740992) as [Hd|Hd].
    + rewrite of_Z_safe by assumption. cbn [mul].
      apply of_Z_beyond; [lia|]. change (2 ^ 54) with 18014398509481984. lia.
    + assert (Hb : beyond (2 ^ 53) (of_Z d)).
      { apply of_Z_beyond; [lia|]. change (2 ^ 53) with 9007199254740992. lia. }
      change (2 ^ 53) with 9007199254740992 in Hb.
      destruct (of_Z d) as [d'| |]; cbn [beyond] in Hb;
        [| exact I | contradiction].
      cbn [mul]. apply of_Z_beyond; [lia|].
      change (2 ^ 54) with 18014398509481984. lia.
Qed.

(** The time value of [new Date(start + duration * 60000)] for a valid
    [start]. *)
Lemma end_time_clipped (start d : Z) :
  Z.abs start <= 8640000000000000 ->
  TimeClip (add (Finite start) (mul (of_Z d) (Finite 60000)))
  = if Z.abs (start + d * 60000) <=? 8640000000000000
    then Finite (start + d * 60000) else NaN.
Proof.
  intros Hs.
  destruct (minutes_to_milliseconds d) as [[Hlt ->] | [Hge Hb]].
  - cbn [add].
    destruct (Z.le_gt_cases (Z.abs (start + d * 60000)) 9007199254740992)
      as [Hsum|Hsum].
    + rewrite of_Z_safe by assumption. reflexivity.
    + rewrite TimeClip_beyond.
      * destruct (Z.leb_spec (Z.abs (start + d * 60000)) 8640000000000000);
          [lia | reflexivity].
      * apply of_Z_beyond; [lia|]. change (2 ^ 53) with 9007199254740992. lia.
  - destruct (Z.leb_spec (Z.abs (start + d * 60000)) 8640000000000000);
      [lia|].
    apply TimeClip_beyond.
    change (2 ^ 54) with 18014398509481984 in Hb.
    destruct (mul (of_Z d) (Finite 60000)) as [p| |]; cbn [beyond] in Hb;
      [| exact I | contradiction].
    cbn [add]. apply of_Z_beyond; [lia|]. change (2 ^ 53) with 9007199254740992.
    lia.
Qed.

End ClipFacts.

Section CalendarFacts.
Import JS CalendarPage.
Variable Date_parse : string -> Number.t.

(** The end of an entry, as [toCalendarEvent] computes it from the start. *)
Lemma end_time_minutes_after (time : Number.t) (d : Z) :
  TimeClip (Number.add (TimeClip time)
                       (Number.mul (Number.of_Z d) (Number.Finite 60000)))
  = minutes_after (TimeClip time) d.
Proof.
  destruct (TimeClip time) as [s| |] eqn:Es.
  - apply TimeClip_valid in Es. destruct Es as [_ Hs].
    unfold minutes_after, max_time. now apply end_time_clipped.
  - destruct time as [z| |]; simpl in Es; try discriminate.
    destruct (Z.abs z <=? 8640000000000000); discriminate.
  - reflexivity.
Qed.

Lemma toCalendarEvent_entry (t : Training) (e : CalendarEvent) :
  toCalendarEvent Date_parse t = Normal e -> derived_entry Date_parse t e.
Proof.
  unfold toCalendarEvent, TrainingList.customer_member, derived_entry.
  destruct (customer t) as [c|]; simpl; [|discriminate].
  intros He. injection He as <-. exists c.
  cbn [ev_start ev_end ev_title getTime new_Date_of_string
       new_Date_of_number].
  split; [reflexivity|]. split; [reflexivity|].
  split; [apply end_time_minutes_after | reflexivity].
Qed.

Lemma calendarEvents_entries (trainings : list Training) :
  forall evs,
    calendarEvents Date_parse trainings = Normal evs ->
    Forall2 (derived_entry Date_parse) trainings evs.
Proof.
  unfold calendarEvents.
  induction trainings as [|t trainings IH]; simpl; intros evs Hev.
  - injection Hev as <-. constructor.
  - destruct (toCalendarEvent Date_parse t) as [e|] eqn:Ee;
      simpl in Hev; [|discriminate].
    destruct (Array_map (toCalendarEvent Date_parse) trainings)
      as [rest|] eqn:Er; simpl in Hev; [|discriminate].
    injection Hev as <-. constructor.
    + now apply toCalendarEvent_entry.
    + now apply IH.
Qed.

Lemma calendarEvents_total (trainings : list Training) :
  (forall t, In t trainings -> customer t <> None) ->
  exists evs, calendarEvents Date_parse trainings = Normal evs.
Proof.
  unfold calendarEvents.
  induction trainings as [|t trainings IH]; simpl; intros Hc.
  - now exists [].
  - destruct IH as [rest Hrest]; [intros u Hu; apply Hc; now right|].
    rewrite Hrest. unfold toCalendarEvent, TrainingList.customer_member.
    destruct (customer t) as [c|] eqn:Ec.
    + simpl. eauto.
    + exfalso. apply (Hc t); [now left | assumption].
Qed.

(** One training without its customer makes the whole projection throw. *)
Lemma calendarEvents_null_customer (trainings : list Training) (t : Training) :
  In t trainings -> customer t = None ->
  exists e, calendarEvents Date_parse trainings = Throw e.
Proof.
  unfold calendarEvents.
  induction trainings as [|u trainings IH]; simpl; intros Hin Hnull;
    [contradiction|].
  unfold toCalendarEvent at 1, TrainingList.customer_member.
  destruct (customer u) as [c|] eqn:Ec; simpl; [|eauto].
  destruct Hin as [-> | Hin]; [congruence|].
  destruct (IH Hin Hnull) as [e He]. rewrite He. simpl. eauto.
Qed.

End CalendarFacts.

(** C4, as the code has it: for every loaded training collection whose
    trainings carry their customer, the calendar projection yields one
    entry per training, in order; the entry starts at the training's
    timestamp (an Invalid Date when the host cannot read it) and its label
    is the activity, [" / "], and the customer's first and last name. When
    the start is a valid date and the instant [duration * 60000]
    milliseconds later is within the range of a [Date] (8.64e15
    milliseconds on either side of the epoch), the end is exactly that
    instant; otherwise the end is an Invalid Date. Whenever the projection
    yields entries at all, they are these; and [fetchTrainings] stores them
    as the events of the page. *)
Theorem calendar_entry_start_end_label
        (Date_parse : string -> Number.t) (trainings : list Training) :
  ((forall t, In t trainings -> customer t <> None) ->
   exists evs,
     CalendarPage.calendarEvents Date_parse trainings = JS.Normal evs
     /\ Forall2 (derived_entry Date_parse) trainings evs)
  /\ (forall evs,
         CalendarPage.calendarEvents Date_parse trainings = JS.Normal evs ->
         Forall2 (derived_entry Date_parse) trainings evs)
  /\ (forall t e start,
         derived_entry Date_parse t e ->
         CalendarPage.getTime (CalendarPage.ev_start e) = Number.Finite start ->
         Z.abs (start + duration t * 60000) <= max_time ->
         CalendarPage.getTime (CalendarPage.ev_end e)
         = Number.Finite (start + duration t * 60000))
  /\ (forall (B : Backend) srv srv' evs,
         serve list_trainings_request srv
         = (srv', JS.Normal (TrainingsData trainings)) ->
         CalendarPage.calendarEvents Date_parse trainings = JS.Normal evs ->
         CalendarPage.events
           (state_after (run (CalendarPage.fetchTrainings Date_parse)
                             CalendarPage.initial srv))
         = evs).
Proof.
  split; [|split; [|split]].
  - intros Hc. destruct (calendarEvents_total Date_parse trainings Hc)
      as [evs Hev].
    exists evs. split; [assumption|]. now apply calendarEvents_entries.
  - apply calendarEvents_entries.
  - intros t e start [c [_ [_ [Hend _]]]] Hstart Hrange.
    rewrite Hend, Hstart. unfold minutes_after.
    destruct (Z.leb_spec (Z.abs (start + duration t * 60000)) max_time);
      [reflexivity | lia].
  - intros B srv srv' evs Hserve Hev.
    unfold list_trainings_request in Hserve.
    cbv delta [CalendarPage.fetchTrainings CalendarPage.setEvents
               CalendarPage.setLoading CalendarPage.trainings_map].
    async_compute. rewrite Hserve. cbv beta iota. rewrite Hev. reflexivity.
Qed.

Lemma calendar_entry_witness :
  exists evs,
    CalendarPage.calendarEvents sample_Date_parse
      [training 1 30 "Running" (Some anna); training 2 45 "Yoga" (Some john)]
    = JS.Normal evs
    /\ Forall2 (derived_entry sample_Date_parse)
         [training 1 30 "Running" (Some anna); training 2 45 "Yoga" (Some john)]
         evs.
Proof.
  apply (proj1 (calendar_entry_start_end_label sample_Date_parse
                  [training 1 30 "Running" (Some anna);
                   training 2 45 "Yoga" (Some john)])).
  intros t [<- | [<- | []]]; discriminate.
Defined.

(** C4, as stated, fails in two ways. A training of 144000000000 minutes
    that starts on 2024-11-25 has a calendar entry whose start is that
    date and whose end is an Invalid Date, not the start plus the
    duration; and in a collection that holds a training without customer
    no training has a calendar entry, the projection throws. *)
Lemma calendar_entry_without_end_or_without_entry :
  (exists e,
      CalendarPage.calendarEvents sample_Date_parse
        [training 1 144000000000 "Running" (Some anna)]
      = JS.Normal [e]
      /\ CalendarPage.getTime (CalendarPage.ev_start e)
         = Number.Finite 1732528800000
      /\ CalendarPage.getTime (CalendarPage.ev_end e) = Number.NaN
      /\ CalendarPage.getTime (CalendarPage.ev_end e)
         <> Number.Finite (1732528800000 + 144000000000 * 60000))
  /\ (exists error,
         CalendarPage.calendarEvents sample_Date_parse
           [training 1 30 "Running" (Some anna); training 2 45 "Yoga" None]
         = JS.Throw error).
Proof.
  split.
  - eexists. split; [vm_compute; reflexivity|].
    split; [reflexivity|]. split; [reflexivity | discriminate].
  - eexists. vm_compute. reflexivity.
Qed.

(* ===================================================================== *)
(** * Sorting, object entries, grouping *)
(* ===================================================================== *)

Section SortFacts.
Import JS.
Context {A : Type} (le : A -> A -> bool).

Lemma insert_sorted_perm (x : A) (l : list A) :
  Permutation (insert_sorted le x l) (x :: l).
Proof.
  induction l as [|y l IH]; simpl; [reflexivity|].
  destruct (le x y); [reflexivity|].
  rewrite IH. apply perm_swap.
Qed.

Lemma stable_sort_perm (l : list A) : Permutation (stable_sort le l) l.
Proof.
  induction l as [|x l IH]; simpl; [reflexivity|].
  rewrite insert_sorted_perm. now constructor.
Qed.

Hypothesis le_total : forall a b, le a b = false -> le b a = true.
Hypothesis le_trans :
  forall a b c, le a b = true -> le b c = true -> le a c = true.




End SortFacts.

Lemma filter_split_perm {A} (f : A -> bool) (l : list A) :
  Permutation (filter f l ++ filter (fun x => negb (f x)) l) l.
Proof.
  induction l as [|x l IH]; simpl; [reflexivity|].
  destruct (f x); simpl.
  - now constructor.
  - symmetry. apply Permutation_cons_app. now symmetry.
Qed.

Lemma Object_entries_perm {V} (o : JS.Obj V) :
  Permutation (JS.Object_entries o) o.
Proof.
  unfold JS.Object_entries.
  rewrite stable_sort_perm. apply filter_split_perm.
Qed.

Lemma Zsum_app (l1 l2 : list Z) : Zsum (l1 ++ l2) = Zsum l1 + Zsum l2.
Proof.
  unfold Zsum. induction l1 as [|x l1 IH]; simpl; [reflexivity|].
  rewrite IH. lia.
Qed.

Lemma Zsum_perm (l1 l2 : list Z) : Permutation l1 l2 -> Zsum l1 = Zsum l2.
Proof.
  unfold Zsum. induction 1; simpl; lia.
Qed.

Lemma sumBy_Zsum {A} (dur : A -> Z) (l : list A) :
  lodash.sumBy l dur = Zsum (map dur l).
Proof.
  unfold lodash.sumBy.
  enough (Hgen : forall acc,
             fold_left (fun result value => result + dur value) l acc
             = acc + Zsum (map dur l)) by (rewrite Hgen; lia).
  induction l as [|x l IH]; intros acc; simpl; [lia|].
  rewrite IH. lia.
Qed.

Section GroupFacts.
Import JS lodash.
Context {A : Type} (key : A -> string).

Lemma assign_group_keys (o : Obj (list A)) (k : string) (v : A) (k' : string) :
  In k' (map fst (assign_group o k v)) <-> k' = k \/ In k' (map fst o).
Proof.
  induction o as [|[k0 vs] o IH]; simpl.
  - intuition congruence.
  - destruct (String.eqb_spec k0 k) as [-> | Hne]; simpl.
    + intuition congruence.
    + rewrite IH. tauto.
Qed.

Lemma assign_group_NoDup (o : Obj (list A)) (k : string) (v : A) :
  NoDup (map fst o) -> NoDup (map fst (assign_group o k v)).
Proof.
  induction o as [|[k0 vs] o IH]; simpl; intros Hnd.
  - repeat constructor. intros [].
  - inversion Hnd as [|? ? Hnotin Hnd']; subst.
    destruct (String.eqb_spec k0 k) as [-> | Hne]; simpl.
    + now constructor.
    + constructor; [|now apply IH].
      rewrite assign_group_keys. intros [-> | Hin]; [congruence | tauto].
Qed.

(** Where an entry of the updated object comes from. *)
Lemma assign_group_In (o : Obj (list A)) (k : string) (v : A)
      (k' : string) (vs : list A) :
  NoDup (map fst o) ->
  In (k', vs) (assign_group o k v) ->
  (k' <> k /\ In (k', vs) o)
  \/ (k' = k /\ exists vs0, In (k, vs0) o /\ vs = vs0 ++ [v])
  \/ (k' = k /\ ~ In k (map fst o) /\ vs = [v]).
Proof.
  induction o as [|[k0 vs0] o IH]; simpl; intros Hnd.
  - intros [Heq | []]. injection Heq as <- <-. right; right. tauto.
  - inversion Hnd as [|? ? Hnotin Hnd']; subst.
    destruct (String.eqb_spec k0 k) as [-> | Hne]; simpl.
    + intros [Heq | Hin].
      * injection Heq as <- <-. right; left. split; [reflexivity|].
        exists vs0. tauto.
      * left. split; [|tauto]. intros ->. apply Hnotin.
        change k with (fst (k, vs)). now apply in_map.
    + intros [Heq | Hin].
      * injection Heq as <- <-. left. tauto.
      * destruct (IH Hnd' Hin)
          as [[Hk Ho] | [[Hk [vs1 [Ho Hv]]] | [Hk [Ho Hv]]]].
        -- left. tauto.
        -- right; left. split; [assumption|]. exists vs1. tauto.
        -- right; right. repeat split; try assumption.
           intros [Heq | Hin']; [congruence | tauto].
Qed.

Lemma filter_none (f : A -> bool) (l : list A) :
  (forall x, In x l -> f x = false) -> filter f l = [].
Proof.
  induction l as [|x l IH]; simpl; intros Hf; [reflexivity|].
  rewrite (Hf x (or_introl eq_refl)). apply IH. intros y Hy. apply Hf.
  now right.
Qed.

Lemma grouped_step (o : Obj (list A)) (seen : list A) (x : A) :
  grouped key o seen -> grouped key (assign_group o (key x) x) (seen ++ [x]).
Proof.
  intros [Hnd [Hent Hkeys]]. split; [|split].
  - now apply assign_group_NoDup.
  - intros k vs Hin. rewrite filter_app. simpl.
    destruct (assign_group_In _ _ _ _ _ Hnd Hin)
      as [[Hk Ho] | [[-> [vs0 [Ho ->]]] | [-> [Ho ->]]]].
    + destruct (Hent _ _ Ho) as [-> Hne].
      destruct (String.eqb_spec (key x) k) as [Heq | _]; [congruence|].
      now rewrite app_nil_r.
    + destruct (Hent _ _ Ho) as [-> _].
      rewrite String.eqb_refl. split; [reflexivity|].
      intros Hnil. now apply app_eq_nil in Hnil.
    + rewrite String.eqb_refl, filter_none; [split; [reflexivity|discriminate]|].
      intros y Hy. destruct (String.eqb_spec (key y) (key x)) as [Heq|];
        [|reflexivity].
      exfalso. apply Ho. rewrite <- Heq. now apply Hkeys.
  - intros y Hy. rewrite assign_group_keys.
    apply in_app_or in Hy. destruct Hy as [Hy | [<- | []]].
    + right. now apply Hkeys.
    + now left.
Qed.

Lemma grouped_fold (l : list A) :
  forall o seen,
    grouped key o seen ->
    grouped key (fold_left (fun result value =>
                          assign_group result (key value) value) l o)
            (seen ++ l).
Proof.
  induction l as [|x l IH]; intros o seen Hg; simpl.
  - now rewrite app_nil_r.
  - replace (seen ++ x :: l) with ((seen ++ [x]) ++ l)
      by (now rewrite <- app_assoc).
    apply IH. now apply grouped_step.
Qed.

Lemma groupBy_grouped (l : list A) : grouped key (groupBy l key) l.
Proof.
  unfold groupBy. apply (grouped_fold l (o := []) (seen := [])).
  split; [constructor | split]; intros; contradiction.
Qed.

Variable dur : A -> Z.

Lemma assign_group_total (o : Obj (list A)) (k : string) (v : A) :
  group_total dur (assign_group o k v) = group_total dur o + dur v.
Proof.
  unfold group_total.
  induction o as [|[k0 vs] o IH]; simpl.
  - rewrite sumBy_Zsum. simpl. lia.
  - destruct (String.eqb k0 k); simpl.
    + rewrite !sumBy_Zsum, map_app, Zsum_app. simpl. lia.
    + rewrite IH. lia.
Qed.

Lemma groupBy_total (l : list A) :
  group_total dur (groupBy l key) = Zsum (map dur l).
Proof.
  unfold groupBy.
  enough (Hgen : forall o,
             group_total dur
               (fold_left (fun result value =>
                             assign_group result (key value) value) l o)
             = group_total dur o + Zsum (map dur l))
    by (rewrite Hgen; reflexivity).
  induction l as [|x l IH]; intros o; simpl; [lia|].
  rewrite IH, assign_group_total. lia.
Qed.

End GroupFacts.

(* ===================================================================== *)
(** * Statistics aggregation *)
(* ===================================================================== *)

Section StatisticsFacts.
Import JS StatisticsPage.


(** Up to order, the statistics are one record per own property of the
    grouped object. *)
Lemma activityStats_perm (trainings : list Training) :
  Permutation
    (activityStats trainings)
    (map (fun entry : string * list Training =>
            {| stat_activity := fst entry;
               stat_duration := lodash.sumBy (snd entry) duration |})
         (lodash.groupBy trainings activity)).
Proof.
  unfold activityStats, Array_sort.
  etransitivity; [apply stable_sort_perm|].
  erewrite map_ext; [apply Permutation_map, Object_entries_perm|].
  intros [k vs]. reflexivity.
Qed.


Lemma activityStats_In (trainings : list Training) (s : ActivityStat) :
  In s (activityStats trainings) <->
  (exists t, In t trainings /\ activity t = stat_activity s)
  /\ stat_duration s
     = Zsum (map duration (with_activity (stat_activity s) trainings)).
Proof.
  destruct (groupBy_grouped activity trainings) as [Hnd [Hent Hkeys]].
  split.
  - intros Hin.
    apply (Permutation_in _ (activityStats_perm trainings)) in Hin.
    apply in_map_iff in Hin. destruct Hin as [[k vs] [<- Ho]]. simpl.
    destruct (Hent _ _ Ho) as [Hvs Hne]. split.
    + destruct vs as [|t vs]; [congruence|].
      assert (Ht : In t (filter (fun x => String.eqb (activity x) k) trainings))
        by (rewrite <- Hvs; now left).
      apply filter_In in Ht. destruct Ht as [Ht Hk].
      exists t. split; [assumption|]. now apply String.eqb_eq.
    + rewrite sumBy_Zsum. unfold with_activity. now rewrite <- Hvs.
  - intros [[t [Ht Ha]] Hsum].
    apply (Permutation_in _ (Permutation_sym (activityStats_perm trainings))).
    apply in_map_iff.
    pose proof (Hkeys t Ht) as Hk. apply in_map_iff in Hk.
    destruct Hk as [[k vs] [Hfst Ho]]. simpl in Hfst. subst k.
    exists (activity t, vs). split; [|assumption]. simpl.
    destruct s as [a d]. simpl in *. subst a. f_equal.
    destruct (Hent _ _ Ho) as [Hvs _].
    rewrite sumBy_Zsum, Hsum. unfold with_activity. now rewrite <- Hvs.
Qed.

Lemma activityStats_labels_perm (trainings : list Training) :
  Permutation (map stat_activity (activityStats trainings))
              (map fst (lodash.groupBy trainings activity)).
Proof.
  rewrite (Permutation_map stat_activity (activityStats_perm trainings)).
  rewrite map_map. reflexivity.
Qed.

Lemma activityStats_labels (trainings : list Training) (a : string) :
  In a (map stat_activity (activityStats trainings)) <->
  In a (map activity trainings).
Proof.
  destruct (groupBy_grouped activity trainings) as [Hnd [Hent Hkeys]].
  split.
  - intros Hin.
    apply (Permutation_in _ (activityStats_labels_perm trainings)) in Hin.
    apply in_map_iff in Hin. destruct Hin as [[k vs] [Hfst Ho]].
    simpl in Hfst. subst k.
    destruct (Hent _ _ Ho) as [Hvs Hne].
    destruct vs as [|t vs]; [congruence|].
    assert (Ht : In t (filter (fun x => String.eqb (activity x) a) trainings))
      by (rewrite <- Hvs; now left).
    apply filter_In in Ht. destruct Ht as [Ht Hk].
    apply String.eqb_eq in Hk. subst a. now apply in_map.
  - intros Hin. apply in_map_iff in Hin. destruct Hin as [t [<- Ht]].
    apply (Permutation_in
             _ (Permutation_sym (activityStats_labels_perm trainings))).
    now apply Hkeys.
Qed.

End StatisticsFacts.

(** [fetchStats] stores the aggregation of what the service returned. *)
Lemma fetchStats_stores_activityStats (B : Backend) srv srv' trainings :
  serve list_trainings_request srv
  = (srv', JS.Normal (TrainingsData trainings)) ->
  StatisticsPage.stats
    (state_after (run StatisticsPage.fetchStats StatisticsPage.initial srv))
  = StatisticsPage.activityStats trainings
  /\ StatisticsPage.loading
       (state_after (run StatisticsPage.fetchStats StatisticsPage.initial srv))
     = false.
Proof.
  intros Hserve. unfold list_trainings_request in Hserve.
  cbv delta [StatisticsPage.fetchStats StatisticsPage.setStats
             StatisticsPage.setLoading].
  async_compute. rewrite Hserve. split; reflexivity.
Qed.


(** In exact arithmetic the totals of the records add up to the sum of
    the [dur] of all trainings, for every measure [dur]. *)
Lemma activityStats_conserve_exact (trainings : list Training) :
  Zsum (map StatisticsPage.stat_duration
            (StatisticsPage.activityStats trainings))
  = Zsum (map duration trainings).
Proof.
  rewrite (Zsum_perm
             (Permutation_map StatisticsPage.stat_duration
                              (activityStats_perm trainings))).
  rewrite map_map. simpl.
  apply (groupBy_total activity duration trainings).
Qed.

(* ===================================================================== *)
(** * Statistics in the arithmetic of the host *)
(* ===================================================================== *)

Section Binary64Statistics.
Import JS StatisticsPage.

Lemma total_magnitude_nonneg {A} (dur : A -> Z) (l : list A) :
  0 <= total_magnitude dur l.
Proof.
  unfold total_magnitude, Zsum.
  induction l as [|x l IH]; simpl; lia.
Qed.

Lemma total_magnitude_In {A} (dur : A -> Z) (l : list A) (x : A) :
  In x l -> Z.abs (dur x) <= total_magnitude dur l.
Proof.
  unfold total_magnitude, Zsum.
  induction l as [|y l IH]; simpl; [contradiction|].
  pose proof (total_magnitude_nonneg dur l) as Hl.
  unfold total_magnitude, Zsum in Hl.
  intros [-> | Hin]; [lia|]. specialize (IH Hin). lia.
Qed.

Lemma total_magnitude_filter {A} (dur : A -> Z) (f : A -> bool) (l : list A) :
  total_magnitude dur (filter f l) <= total_magnitude dur l.
Proof.
  unfold total_magnitude, Zsum.
  induction l as [|x l IH]; simpl; [lia|].
  destruct (f x); simpl; lia.
Qed.

Lemma total_magnitude_perm {A} (dur : A -> Z) (l l' : list A) :
  Permutation l l' -> total_magnitude dur l = total_magnitude dur l'.
Proof.
  intros Hperm. unfold total_magnitude. apply Zsum_perm.
  now apply Permutation_map.
Qed.

Lemma Zsum_magnitude {A} (dur : A -> Z) (l : list A) :
  Z.abs (Zsum (map dur l)) <= total_magnitude dur l.
Proof.
  unfold total_magnitude, Zsum.
  induction l as [|x l IH]; simpl; lia.
Qed.

(** While the running sum stays a safe integer no addition rounds. *)
Lemma fold_add_exact {A} (f : A -> Number.t) (dur : A -> Z) (l : list A) :
  forall acc,
    (forall x, In x l -> f x = Number.Finite (dur x)) ->
    Z.abs acc + total_magnitude dur l <= max_safe ->
    fold_left (fun result value => Number.add result (f value)) l
              (Number.Finite acc)
    = Number.Finite (acc + Zsum (map dur l)).
Proof.
  unfold total_magnitude, Zsum, max_safe.
  induction l as [|x l IH]; intros acc Hf Hsafe; simpl in *.
  - f_equal. lia.
  - pose proof (total_magnitude_nonneg dur l) as Hl.
    unfold total_magnitude, Zsum in Hl.
    rewrite (Hf x (or_introl eq_refl)). cbn [Number.add].
    rewrite of_Z_safe by lia.
    rewrite IH; [f_equal; lia | intros y Hy; apply Hf; now right | lia].
Qed.

Lemma sumBy_binary64_exact {A} (f : A -> Number.t) (dur : A -> Z)
      (l : list A) :
  (forall x, In x l -> f x = Number.Finite (dur x)) ->
  total_magnitude dur l <= max_safe ->
  lodash.sumBy_binary64 l f = Number.Finite (Zsum (map dur l)).
Proof.
  intros Hf Hsafe. destruct l as [|x l]; [reflexivity|].
  unfold lodash.sumBy_binary64. rewrite (Hf x (or_introl eq_refl)).
  rewrite (fold_add_exact f dur l).
  - reflexivity.
  - intros y Hy. apply Hf. now right.
  - unfold total_magnitude, Zsum in *. simpl in Hsafe. exact Hsafe.
Qed.

(** The durations of a collection of safe total magnitude, added by the
    host. *)
Lemma sumBy_binary64_durations (l : list Training) :
  total_magnitude duration l <= max_safe ->
  lodash.sumBy_binary64 l (fun t => Number.of_Z (duration t))
  = Number.Finite (Zsum (map duration l)).
Proof.
  intros Hsafe. apply sumBy_binary64_exact; [|assumption].
  intros t Ht. apply of_Z_safe.
  pose proof (total_magnitude_In duration l t Ht). unfold max_safe in *. lia.
Qed.

Lemma sumBy_binary64_map {A C} (g : A -> C) (f : C -> Number.t)
      (l : list A) :
  lodash.sumBy_binary64 (map g l) f
  = lodash.sumBy_binary64 l (fun x => f (g x)).
Proof.
  destruct l as [|x l]; [reflexivity|]. unfold lodash.sumBy_binary64.
  cbn [map]. generalize (f (g x)). induction l as [|y l IH]; intros acc;
    [reflexivity|].
  cbn [map fold_left]. apply IH.
Qed.

(** The magnitudes of the exact totals add up to no more than those of
    the durations. *)
Lemma activityStats_magnitude (trainings : list Training) :
  total_magnitude stat_duration (activityStats trainings)
  <= total_magnitude duration trainings.
Proof.
  unfold total_magnitude.
  rewrite (Zsum_perm
             (Permutation_map (fun s => Z.abs (stat_duration s))
                              (activityStats_perm trainings))).
  rewrite map_map. cbn [stat_duration].
  rewrite <- (groupBy_total activity (fun t => Z.abs (duration t)) trainings).
  unfold group_total.
  induction (lodash.groupBy trainings activity) as [|[k vs] o IH];
    [reflexivity|].
  cbn [map snd]. rewrite !sumBy_Zsum.
  pose proof (Zsum_magnitude duration vs) as Hvs.
  unfold total_magnitude, Zsum in *. cbn [fold_right]. lia.
Qed.

Lemma insert_sorted_map {A C} (g : A -> C) (le : A -> A -> bool)
      (le' : C -> C -> bool) (x : A) (l : list A) :
  (forall a b, le' (g a) (g b) = le a b) ->
  insert_sorted le' (g x) (map g l) = map g (insert_sorted le x l).
Proof.
  intros Hle. induction l as [|y l IH]; simpl; [reflexivity|].
  rewrite Hle. destruct (le x y); simpl; [reflexivity|]. now rewrite IH.
Qed.

Lemma stable_sort_map {A C} (g : A -> C) (le : A -> A -> bool)
      (le' : C -> C -> bool) (l : list A) :
  (forall a b, le' (g a) (g b) = le a b) ->
  stable_sort le' (map g l) = map g (stable_sort le l).
Proof.
  intros Hle. induction l as [|x l IH]; simpl; [reflexivity|].
  rewrite IH. now apply insert_sorted_map.
Qed.

(** On a collection of safe total magnitude the host computes the exact
    aggregation. *)
Lemma activityStats_binary64_exact (trainings : list Training) :
  total_magnitude duration trainings <= max_safe ->
  activityStats_binary64 trainings
  = map exact_stat (activityStats trainings).
Proof.
  intros Hsafe. unfold activityStats_binary64, activityStats, Array_sort.
  rewrite <- stable_sort_map
    with (le' := fun a b =>
                   Number.sort_order
                     (Number.sub (stat64_duration b) (stat64_duration a))
                   <=? 0).
  - f_equal. rewrite map_map. apply map_ext_in. intros [k vs] Hin.
    unfold exact_stat. cbn [stat_activity stat_duration]. f_equal.
    apply (Permutation_in _ (Object_entries_perm _)) in Hin.
    destruct (groupBy_grouped activity trainings) as [_ [Hent _]].
    destruct (Hent _ _ Hin) as [Hvs _].
    rewrite sumBy_Zsum. apply sumBy_binary64_durations.
    rewrite Hvs. etransitivity; [apply total_magnitude_filter | exact Hsafe].
  - intros a b. unfold exact_stat. cbn [stat64_duration].
    cbn [Number.sub Number.opp Number.add]. apply sort_order_of_Z.
Qed.

End Binary64Statistics.

(** C5, as the code has it: on every loaded collection whose durations add
    up, in absolute value, to at most 2^53 (so that no addition of the
    aggregation rounds), every total of the chart is the exact sum of its
    group, the totals add up to the sum of the durations of all loaded
    trainings, and the host finds the same number whether it adds the
    totals of the chart or the durations of the trainings. *)
Theorem statistics_conserve_duration (trainings : list Training) :
  total_magnitude duration trainings <= max_safe ->
  exists totals,
    map StatisticsPage.stat64_duration
        (StatisticsPage.activityStats_binary64 trainings)
    = map Number.Finite totals
    /\ Zsum totals = Zsum (map duration trainings)
    /\ lodash.sumBy_binary64
         (StatisticsPage.activityStats_binary64 trainings)
         StatisticsPage.stat64_duration
       = Number.Finite (Zsum (map duration trainings))
    /\ lodash.sumBy_binary64 trainings (fun t => Number.of_Z (duration t))
       = Number.Finite (Zsum (map duration trainings)).
Proof.
  intros Hsafe.
  exists (map StatisticsPage.stat_duration
              (StatisticsPage.activityStats trainings)).
  rewrite activityStats_binary64_exact by assumption.
  split; [|split; [|split]].
  - now rewrite !map_map.
  - apply activityStats_conserve_exact.
  - rewrite <- activityStats_conserve_exact, sumBy_binary64_map.
    apply sumBy_binary64_exact; [reflexivity|].
    etransitivity; [apply activityStats_magnitude | exact Hsafe].
  - now apply sumBy_binary64_durations.
Qed.

Lemma statistics_conserve_duration_witness :
  exists totals,
    map StatisticsPage.stat64_duration
        (StatisticsPage.activityStats_binary64
           [training 1 30 "Run" None; training 2 45 "Run" None;
            training 3 20 "Yoga" None])
    = map Number.Finite totals
    /\ Zsum totals = 95.
Proof.
  destruct (statistics_conserve_duration
              [training 1 30 "Run" None; training 2 45 "Run" None;
               training 3 20 "Yoga" None])
    as [totals [Htotals [Hsum _]]].
  - vm_compute. discriminate.
  - exists totals. split; [exact Htotals | exact Hsum].
Defined.

(** C5, as stated, fails: of the durations 2^53 (Run), 1 (Yoga), 1 (Yoga)
    and 1 (Run) the chart holds the totals 2^53 for Run, the addition of 1
    being lost to rounding, and 2 for Yoga. The totals add up to 2^53 + 2,
    exactly and in the host's arithmetic, while the durations add up to
    2^53 + 3 exactly and to 2^53 when the host adds them. *)
Lemma statistics_lose_duration_to_rounding :
  let trainings :=
    [training 1 9007199254740992 "Run" None; training 2 1 "Yoga" None;
     training 3 1 "Yoga" None; training 4 1 "Run" None] in
  StatisticsPage.activityStats_binary64 trainings
  = [ {| StatisticsPage.stat64_activity := "Run";
         StatisticsPage.stat64_duration := Number.Finite 9007199254740992 |};
      {| StatisticsPage.stat64_activity := "Yoga";
         StatisticsPage.stat64_duration := Number.Finite 2 |} ]
  /\ lodash.sumBy_binary64 (StatisticsPage.activityStats_binary64 trainings)
                           StatisticsPage.stat64_duration
     = Number.Finite 9007199254740994
  /\ lodash.sumBy_binary64 trainings (fun t => Number.of_Z (duration t))
     = Number.Finite 9007199254740992
  /\ Zsum (map duration trainings) = 9007199254740995.
Proof. repeat split; vm_compute; reflexivity. Qed.

(** C10: every activity label of the loaded trainings is the label of
    exactly one record of the statistics, and every record's label is the
    activity of some loaded training. *)
Theorem statistics_labels_distinct (trainings : list Training) :
  (forall a,
      In a (map activity trainings) ->
      count_occ string_dec
                (map StatisticsPage.stat_activity
                     (StatisticsPage.activityStats trainings)) a
      = 1%nat)
  /\ (forall a,
         In a (map StatisticsPage.stat_activity
                   (StatisticsPage.activityStats trainings)) ->
         In a (map activity trainings)).
Proof.
  split.
  - intros a Ha. apply NoDup_count_occ'.
    + apply (Permutation_NoDup
               (Permutation_sym (activityStats_labels_perm trainings))).
      apply (groupBy_grouped activity trainings).
    + now apply activityStats_labels.
  - intros a. apply activityStats_labels.
Qed.

Lemma statistics_labels_witness :
  count_occ string_dec
            (map StatisticsPage.stat_activity
                 (StatisticsPage.activityStats
                    [training 1 30 "Run" None; training 2 45 "Yoga" None;
                     training 3 20 "Run" None])) "Run"
  = 1%nat.
Proof.
  apply (proj1 (statistics_labels_distinct
                  [training 1 30 "Run" None; training 2 45 "Yoga" None;
                   training 3 20 "Run" None])).
  simpl. tauto.
Defined.

(* ===================================================================== *)
(** * The fetch / mutate / refresh cycle of the list views *)
(* ===================================================================== *)

(** Unfold the handlers of the two list views. *)
Ltac customers_page :=
  cbv delta
    [CustomerList.handle CustomerList.mount CustomerList.fetchCustomers
     CustomerList.fetchCustomers_request CustomerList.fetchCustomers_resume
     CustomerList.resume_pending
     CustomerList.handleAddCustomer CustomerList.handleEditCustomer
     CustomerList.handleDeleteCustomer CustomerList.handleAddTraining
     CustomerList.setCustomers CustomerList.setLoading
     CustomerList.setCustomerDialogOpen CustomerList.setTrainingDialogOpen
     CustomerList.setDeleteDialogOpen CustomerList.setSelectedCustomer
     CustomerList.setSelectedCustomerUrl];
  async_compute.

Ltac trainings_page :=
  cbv delta
    [TrainingList.mount TrainingList.fetchTrainings
     TrainingList.handleDeleteTraining
     TrainingList.setTrainings TrainingList.setLoading
     TrainingList.setDeleteDialogOpen TrainingList.setSelectedTrainingId];
  async_compute.

(** Splits a run on the answers of the service, one request at a time. *)
Ltac split_on_service :=
  repeat match goal with
         | |- context [serve ?r ?s] =>
             let E := fresh "Eserve" in
             destruct (serve r s) as [? [[]|?]] eqn:E; cbv beta iota zeta
         end.

(** Closes a goal about a run in which the mutating call failed: either
    no mutating call of the log failed, or the log is the failed call
    followed by its notification. *)
Ltac failed_call_only :=
  simpl;
  let c := fresh "c" in
  let Hin := fresh "Hin" in
  let Hs := fresh "Hs" in
  intros [c [Hin Hs]];
  repeat (destruct Hin as [<- | Hin]; try discriminate Hs);
  try contradiction;
  (split; [reflexivity|]); (split; [reflexivity|]);
  (split; [eexists; simpl; eauto|]);
  eexists; split; reflexivity.

(** Closes a goal about a run in which the mutating call succeeded: the
    log holds one list request, and a well-formed answer to it is the
    collection of the final state. *)
Ltac refreshed_once :=
  simpl;
  let c := fresh "c" in
  let Hin := fresh "Hin" in
  let Hs := fresh "Hs" in
  intros [c [Hin Hs]];
  repeat (destruct Hin as [<- | Hin]; try discriminate Hs);
  try contradiction;
  (eexists; split;
   [ reflexivity
   | let loaded := fresh "loaded" in
     let Hl := fresh "Hl" in
     intros loaded Hl; try discriminate Hl; injection Hl as <-; reflexivity ]).

Section CycleFacts.
Context {B : Backend}.
Import JS.

Lemma call_sends_request_of {St} (op : api.Operation) (st : St) (srv : Server) :
  exists response,
    events_of (run (api.call op) st srv) = [Http (api.request_of op) response].
Proof.
  destruct op; cbv delta [api.call]; async_compute; split_on_service;
    eexists; reflexivity.
Qed.

Lemma request_of_not_reset (op : api.Operation) :
  api.request_of op <> Layout.reset_request.
Proof.
  intros Hop. destruct op;
    try (apply (f_equal method) in Hop; discriminate);
    apply (f_equal url) in Hop; vm_compute in Hop; discriminate.
Qed.

End CycleFacts.

(** ** Sample runs *)

Example Z_to_string_samples :
  Z_to_string 42 = "42" /\ Z_to_string 0 = "0" /\ Z_to_string 1000 = "1000"
  /\ Z_to_string (-7) = "-7".
Proof. repeat split. Qed.

Example add_customer_run :
  events_of (run (B := scripted) (CustomerList.handleAddCustomer john)
                 CustomerList.initial
                 [JS.Normal (CustomerData john);
                  JS.Normal (CustomersData [john])])
  = [Http (rest_request (CreateCustomer john)) (JS.Normal (CustomerData john));
     ToastSuccess "Customer added successfully";
     Http list_customers_request (JS.Normal (CustomersData [john]))]
  /\ CustomerList.customers
       (state_after (run (B := scripted) (CustomerList.handleAddCustomer john)
                         CustomerList.initial
                         [JS.Normal (CustomerData john);
                          JS.Normal (CustomersData [john])]))
     = [john].
Proof. split; reflexivity. Qed.

Example delete_training_refused_run :
  events_of (run (B := scripted) TrainingList.handleDeleteTraining
                 trainings_page_loaded
                 [JS.Throw (JS.AxiosError "status 404")])
  = [Http (rest_request (RemoveTraining 42))
          (JS.Throw (JS.AxiosError "status 404"));
     ConsoleError "Error deleting training:" (JS.AxiosError "status 404");
     ToastError "Failed to delete training session"].
Proof. reflexivity. Qed.

Example stale_list_after_failed_refresh :
  CustomerList.customers
    (state_after (run (B := scripted) CustomerList.handleDeleteCustomer
                      customers_page_loaded [JS.Normal NoContent]))
  = [anna; john].
Proof. reflexivity. Qed.

Example reset_run :
  events_of (run (B := scripted) Layout.handleResetDatabase tt
                 [JS.Normal NoContent])
  = [Http Layout.reset_request (JS.Normal NoContent);
     ToastSuccess "Database reset successfully";
     PageReload].
Proof. reflexivity. Qed.

(** C8: when the load issued on mount fails, the list view completes
    without an exception, holds the empty collection and is not loading;
    the failure was sent once, notified and logged, and nothing else
    happened (no second request, no reload). *)
Theorem failed_initial_load_leaves_empty_view (B : Backend) :
  (forall srv e,
      outcome (run api.getCustomers CustomerList.initial srv) = JS.Throw e ->
      outcome (run CustomerList.mount CustomerList.initial srv) = JS.Normal tt
      /\ CustomerList.customers
           (state_after (run CustomerList.mount CustomerList.initial srv)) = []
      /\ CustomerList.loading
           (state_after (run CustomerList.mount CustomerList.initial srv))
         = false
      /\ exists response,
          events_of (run CustomerList.mount CustomerList.initial srv)
          = [Http list_customers_request response;
             ToastError "Failed to fetch customers";
             ConsoleError "Error fetching customers:" e])
  /\ (forall srv e,
         outcome (run api.getTrainings TrainingList.initial srv) = JS.Throw e ->
         outcome (run TrainingList.mount TrainingList.initial srv)
         = JS.Normal tt
         /\ TrainingList.trainings
              (state_after (run TrainingList.mount TrainingList.initial srv))
            = []
         /\ TrainingList.loading
              (state_after (run TrainingList.mount TrainingList.initial srv))
            = false
         /\ exists response,
             events_of (run TrainingList.mount TrainingList.initial srv)
             = [Http list_trainings_request response;
                ConsoleError "Error fetching trainings:" e;
                ToastError "Failed to load training sessions"]).
Proof.
  split; intros srv e; [customers_page | trainings_page];
    split_on_service; simpl; intros He;
    try discriminate; injection He as <-;
    repeat split; eexists; reflexivity.
Qed.

Lemma failed_initial_load_witness :
  CustomerList.customers
    (state_after (run (B := scripted) CustomerList.mount
                      CustomerList.initial [])) = []
  /\ CustomerList.loading
       (state_after (run (B := scripted) CustomerList.mount
                         CustomerList.initial [])) = false.
Proof.
  destruct (proj1 (failed_initial_load_leaves_empty_view scripted)
                  [] (JS.AxiosError "Network Error") eq_refl)
    as [_ [Hempty [Hloading _]]].
  exact (conj Hempty Hloading).
Defined.

(** C2: when the mutating call of a handler fails (create, update, delete
    customer and create training on the customers page; delete training on
    the trainings page), the component state after the handler is the state
    before it, so the loaded collection is unchanged; an error toast was
    shown; and the failed call is the only request that was sent. *)
Theorem failed_mutation_keeps_collection (B : Backend) :
  (forall (m : CustomerList.Mutation) st srv,
      let r := run (CustomerList.handle m) st srv in
      (exists c, In c (mutating_calls (events_of r)) /\ succeeded c = false) ->
      state_after r = st
      /\ CustomerList.customers (state_after r) = CustomerList.customers st
      /\ (exists message, In (ToastError message) (events_of r))
      /\ (exists c, http_calls (events_of r) = [c] /\ succeeded c = false))
  /\ (forall st srv,
         let r := run TrainingList.handleDeleteTraining st srv in
         (exists c, In c (mutating_calls (events_of r))
                    /\ succeeded c = false) ->
         state_after r = st
         /\ TrainingList.trainings (state_after r) = TrainingList.trainings st
         /\ (exists message, In (ToastError message) (events_of r))
         /\ (exists c, http_calls (events_of r) = [c] /\ succeeded c = false)).
Proof.
  split.
  - intros m st srv r; subst r. destruct m; customers_page.
    + split_on_service; failed_call_only.
    + destruct (CustomerList.selected_href (CustomerList.selectedCustomer st))
        as [[|a href]|]; cbv beta iota zeta;
        split_on_service; failed_call_only.
    + destruct (CustomerList.selectedCustomerUrl st) as [|a customerUrl];
        cbv beta iota zeta; split_on_service; failed_call_only.
    + split_on_service; failed_call_only.
  - intros st srv r; subst r. trainings_page.
    destruct (TrainingList.selectedTrainingId st)
      as [[|trainingId|trainingId]|];
      cbv beta iota zeta; split_on_service; failed_call_only.
Qed.

Lemma failed_mutation_witness :
  CustomerList.customers
    (state_after (run (B := scripted) (CustomerList.handleAddCustomer john)
                      customers_page_loaded
                      [JS.Throw (JS.AxiosError "status 500")]))
  = [anna; john].
Proof.
  refine (proj1 (proj2 (proj1 (failed_mutation_keeps_collection scripted)
                              (CustomerList.AddCustomer john)
                              customers_page_loaded
                              [JS.Throw (JS.AxiosError "status 500")] _))).
  eexists. split; [left; reflexivity | reflexivity].
Defined.

(** C1, as the code has it: after a successful create, update or delete of
    a customer the customers page sends exactly one list request, and a
    collection returned for it becomes the page's collection whatever the
    page held before; the same holds on the trainings page after a
    successful delete of a training. Adding a training from the customers
    page sends no list request and keeps the page's collection. *)
Theorem successful_mutation_refetches_once (B : Backend) :
  (forall (m : CustomerList.Mutation) st srv,
      let r := run (CustomerList.handle m) st srv in
      (exists c, In c (mutating_calls (events_of r)) /\ succeeded c = true) ->
      match m with
      | CustomerList.AddTraining _ =>
          list_calls (events_of r) = []
          /\ CustomerList.customers (state_after r) = CustomerList.customers st
      | _ =>
          exists response,
            list_calls (events_of r) = [(list_customers_request, response)]
            /\ forall loaded,
                response = JS.Normal (CustomersData loaded) ->
                CustomerList.customers (state_after r) = loaded
      end)
  /\ (forall st srv,
         let r := run TrainingList.handleDeleteTraining st srv in
         (exists c, In c (mutating_calls (events_of r))
                    /\ succeeded c = true) ->
         exists response,
           list_calls (events_of r) = [(list_trainings_request, response)]
           /\ forall loaded,
               response = JS.Normal (TrainingsData loaded) ->
               TrainingList.trainings (state_after r) = loaded).
Proof.
  split.
  - intros m st srv r; subst r. destruct m; customers_page.
    + split_on_service; refreshed_once.
    + destruct (CustomerList.selected_href (CustomerList.selectedCustomer st))
        as [[|a href]|]; cbv beta iota zeta;
        split_on_service; refreshed_once.
    + destruct (CustomerList.selectedCustomerUrl st) as [|a customerUrl];
        cbv beta iota zeta; split_on_service; refreshed_once.
    + split_on_service; simpl; intros [c [Hin Hs]];
        repeat (destruct Hin as [<- | Hin]; try discriminate Hs);
        try contradiction; split; reflexivity.
  - intros st srv r; subst r. trainings_page.
    destruct (TrainingList.selectedTrainingId st)
      as [[|trainingId|trainingId]|];
      cbv beta iota zeta; split_on_service; refreshed_once.
Qed.

Lemma successful_mutation_witness :
  exists response,
    list_calls
      (events_of (run (B := scripted) TrainingList.handleDeleteTraining
                      trainings_page_loaded
                      [JS.Normal NoContent;
                       JS.Normal (TrainingsData
                                    [training 7 45 "Yoga" (Some john)])]))
    = [(list_trainings_request, response)]
    /\ forall loaded,
        response = JS.Normal (TrainingsData loaded) ->
        TrainingList.trainings
          (state_after (run (B := scripted) TrainingList.handleDeleteTraining
                            trainings_page_loaded
                            [JS.Normal NoContent;
                             JS.Normal (TrainingsData
                                          [training 7 45 "Yoga" (Some john)])]))
        = loaded.
Proof.
  refine (proj2 (successful_mutation_refetches_once scripted)
                trainings_page_loaded
                [JS.Normal NoContent;
                 JS.Normal (TrainingsData [training 7 45 "Yoga" (Some john)])]
                _).
  eexists. split; [left; reflexivity | reflexivity].
Defined.

(** C1, as stated, fails for the create-training mutation of the customers
    page: the call succeeds and the page sends no list request. *)
Lemma add_training_sends_no_list_request :
  let r := run (B := scripted)
               (CustomerList.handle (CustomerList.AddTraining new_training))
               customers_page_loaded
               [JS.Normal (TrainingData (training 99 60 "Spinning" None))] in
  (exists c, In c (mutating_calls (events_of r)) /\ succeeded c = true)
  /\ list_calls (events_of r) = []
  /\ List.length (list_calls (events_of r)) <> 1%nat.
Proof.
  split; [|split].
  - eexists. split; [left; reflexivity | reflexivity].
  - reflexivity.
  - discriminate.
Qed.

(* ===================================================================== *)
(** * The API client and the reset action *)
(* ===================================================================== *)

(** C7, as the code has it: a member of [api] sends exactly one request;
    the members cover listing, creating, replacing and deleting customers
    and listing, creating and deleting trainings, and every member performs
    one of these seven actions. No member sends the reset request: the
    layout's [handleResetDatabase] posts it through axios itself. *)
Theorem api_client_wraps_all_but_reset (B : Backend) :
  (forall (St : Type) (op : api.Operation) (st : St) srv,
      exists response,
        events_of (run (api.call op) st srv)
        = [Http (api.request_of op) response])
  /\ (forall a,
         a <> ResetAllData ->
         exists op, api.request_of op = rest_request a)
  /\ (forall op,
         exists a, a <> ResetAllData /\ api.request_of op = rest_request a)
  /\ (forall op, api.request_of op <> rest_request ResetAllData)
  /\ (forall srv,
         exists response,
           http_calls (events_of (run Layout.handleResetDatabase tt srv))
           = [(rest_request ResetAllData, response)]).
Proof.
  split; [|split; [|split; [|split]]].
  - intros St op st srv. apply call_sends_request_of.
  - intros a Ha. destruct a as [|c|u c|u| |t|i|]; try congruence.
    + now exists api.op_getCustomers.
    + now exists (api.op_addCustomer c).
    + now exists (api.op_updateCustomer u c).
    + now exists (api.op_deleteCustomer u).
    + now exists api.op_getTrainings.
    + now exists (api.op_addTraining t).
    + now exists (api.op_deleteTraining i).
  - intros op. destruct op as [|c|u c|u| |t|i].
    + exists ListCustomers. split; [discriminate | reflexivity].
    + exists (CreateCustomer c). split; [discriminate | reflexivity].
    + exists (ReplaceCustomer u c). split; [discriminate | reflexivity].
    + exists (RemoveCustomer u). split; [discriminate | reflexivity].
    + exists ListTrainings. split; [discriminate | reflexivity].
    + exists (CreateTraining t). split; [discriminate | reflexivity].
    + exists (RemoveTraining i). split; [discriminate | reflexivity].
  - intros op. apply request_of_not_reset.
  - intros srv. cbv delta [Layout.handleResetDatabase]. async_compute.
    split_on_service; eexists; reflexivity.
Qed.

Lemma api_client_witness :
  exists op, api.request_of op = rest_request (RemoveTraining 42).
Proof.
  apply (proj1 (proj2 (api_client_wraps_all_but_reset scripted))).
  discriminate.
Defined.

(** C7, as stated, fails: for no arguments does a member of [api] send the
    request that resets the remote data. *)
Lemma reset_is_no_api_operation :
  ~ exists op : api.Operation, api.request_of op = rest_request ResetAllData.
Proof.
  intros [op Hop]. exact (request_of_not_reset op Hop).
Qed.

(* ===================================================================== *)
(** * Further properties of the pages *)
(* ===================================================================== *)

(** Unfold the click, close and save events of the two list views. *)
Ltac customers_events :=
  cbv delta
    [CustomerList.onEditClick CustomerList.onDeleteClick
     CustomerList.onAddTrainingClick CustomerList.onAddCustomerClick
     CustomerList.onCustomerDialogClose CustomerList.onTrainingDialogClose
     CustomerList.onDeleteDialogClose CustomerList.onCustomerDialogSave
     CustomerList.onTrainingDialogSubmit CustomerList.handleExportCSV
     CustomerList.row_href CustomerList.setSearchTerm
     CustomerList.setIsEditing];
  customers_page.

Ltac trainings_events :=
  cbv delta [TrainingList.onDeleteClick TrainingList.onDeleteDialogClose];
  trainings_page.

(** X1: a load that the service answers with a collection stores that
    collection and clears the loading flag, and changes no other cell of
    the page (search term, dialogs, selection); it sends the one list
    request and shows no toast. *)
Theorem successful_load_replaces_collection_only (B : Backend) :
  (forall st srv srv' loaded,
      serve list_customers_request srv
      = (srv', JS.Normal (CustomersData loaded)) ->
      state_after (run CustomerList.fetchCustomers st srv)
      = CustomerList.with_loading false (CustomerList.with_customers loaded st)
      /\ events_of (run CustomerList.fetchCustomers st srv)
         = [Http list_customers_request (JS.Normal (CustomersData loaded))])
  /\ (forall st srv srv' loaded,
         serve list_trainings_request srv
         = (srv', JS.Normal (TrainingsData loaded)) ->
         state_after (run TrainingList.fetchTrainings st srv)
         = TrainingList.with_loading false
             (TrainingList.with_trainings loaded st)
         /\ events_of (run TrainingList.fetchTrainings st srv)
            = [Http list_trainings_request
                    (JS.Normal (TrainingsData loaded))]).
Proof.
  split; intros st srv srv' loaded Hserve;
    cbv delta [list_customers_request list_trainings_request] in Hserve;
    [customers_page | trainings_page];
    rewrite Hserve; split; reflexivity.
Qed.

Lemma successful_load_witness :
  state_after (run (B := scripted) CustomerList.fetchCustomers
                   customers_page_loaded
                   [JS.Normal (CustomersData [john])])
  = CustomerList.with_loading false
      (CustomerList.with_customers [john] customers_page_loaded).
Proof.
  exact (proj1 (proj1 (successful_load_replaces_collection_only scripted)
                      customers_page_loaded
                      [JS.Normal (CustomersData [john])] []
                      [john] eq_refl)).
Defined.

(** X2: no handler of any page lets an exception escape, whatever the
    service answers: the loads on mount, every mutation, the save of the
    customer dialog, the calendar and statistics loads and the reset all
    complete normally. *)
Theorem handlers_contain_every_failure (B : Backend) :
  (forall st srv, outcome (run CustomerList.mount st srv) = JS.Normal tt)
  /\ (forall m st srv,
         outcome (run (CustomerList.handle m) st srv) = JS.Normal tt)
  /\ (forall form st srv,
         outcome (run (CustomerList.onCustomerDialogSave form) st srv)
         = JS.Normal tt)
  /\ (forall st srv, outcome (run TrainingList.mount st srv) = JS.Normal tt)
  /\ (forall st srv,
         outcome (run TrainingList.handleDeleteTraining st srv)
         = JS.Normal tt)
  /\ (forall Date_parse st srv,
         outcome (run (CalendarPage.fetchTrainings Date_parse) st srv)
         = JS.Normal tt)
  /\ (forall st srv,
         outcome (run StatisticsPage.fetchStats st srv) = JS.Normal tt)
  /\ (forall srv,
         outcome (run Layout.handleResetDatabase tt srv) = JS.Normal tt).
Proof.
  repeat apply conj.
  - intros st srv. customers_page. split_on_service; reflexivity.
  - intros m st srv. destruct m; customers_page.
    + split_on_service; reflexivity.
    + destruct (CustomerList.selected_href (CustomerList.selectedCustomer st))
        as [[|a href]|]; cbv beta iota zeta; split_on_service; reflexivity.
    + destruct (CustomerList.selectedCustomerUrl st) as [|a customerUrl];
        cbv beta iota zeta; split_on_service; reflexivity.
    + split_on_service; reflexivity.
  - intros form st srv. customers_events.
    destruct (CustomerList.isEditing st); cbv beta iota zeta.
    + destruct (CustomerList.selected_href (CustomerList.selectedCustomer st))
        as [[|a href]|]; cbv beta iota zeta; split_on_service; reflexivity.
    + split_on_service; reflexivity.
  - intros st srv. trainings_page. split_on_service; reflexivity.
  - intros st srv. trainings_page.
    destruct (TrainingList.selectedTrainingId st)
      as [[|trainingId|trainingId]|];
      cbv beta iota zeta; split_on_service; reflexivity.
  - intros Date_parse st srv.
    cbv delta [CalendarPage.fetchTrainings CalendarPage.setEvents
               CalendarPage.setLoading CalendarPage.trainings_map].
    async_compute. split_on_service; try reflexivity.
    match goal with
    | |- context [CalendarPage.calendarEvents ?f ?l] =>
        destruct (CalendarPage.calendarEvents f l)
    end; reflexivity.
  - intros st srv.
    cbv delta [StatisticsPage.fetchStats StatisticsPage.setStats
               StatisticsPage.setLoading].
    async_compute. split_on_service; reflexivity.
  - intros srv. cbv delta [Layout.handleResetDatabase]. async_compute.
    split_on_service; reflexivity.
Qed.

(** X3: the loading flag is never left set. A load on mount ends with the
    flag cleared, from any state and whatever the service answers; and a
    mutation handler started on a page that is not loading ends on a page
    that is not loading. The calendar and statistics loads clear it too. *)
Theorem loading_flag_is_cleared (B : Backend) :
  (forall st srv,
      CustomerList.loading (state_after (run CustomerList.mount st srv))
      = false)
  /\ (forall m st srv,
         CustomerList.loading st = false ->
         CustomerList.loading
           (state_after (run (CustomerList.handle m) st srv)) = false)
  /\ (forall st srv,
         TrainingList.loading (state_after (run TrainingList.mount st srv))
         = false)
  /\ (forall st srv,
         TrainingList.loading st = false ->
         TrainingList.loading
           (state_after (run TrainingList.handleDeleteTraining st srv))
         = false)
  /\ (forall Date_parse st srv,
         CalendarPage.loading
           (state_after (run (CalendarPage.fetchTrainings Date_parse) st srv))
         = false)
  /\ (forall st srv,
         StatisticsPage.loading
           (state_after (run StatisticsPage.fetchStats st srv)) = false).
Proof.
  repeat apply conj.
  - intros st srv. customers_page. split_on_service; reflexivity.
  - intros m st srv Hl. destruct m; customers_page.
    + split_on_service; simpl; auto.
    + destruct (CustomerList.selected_href (CustomerList.selectedCustomer st))
        as [[|a href]|]; cbv beta iota zeta; split_on_service; simpl; auto.
    + destruct (CustomerList.selectedCustomerUrl st) as [|a customerUrl];
        cbv beta iota zeta; split_on_service; simpl; auto.
    + split_on_service; simpl; auto.
  - intros st srv. trainings_page. split_on_service; reflexivity.
  - intros st srv Hl. trainings_page.
    destruct (TrainingList.selectedTrainingId st)
      as [[|trainingId|trainingId]|];
      cbv beta iota zeta; split_on_service; simpl; auto.
  - intros Date_parse st srv.
    cbv delta [CalendarPage.fetchTrainings CalendarPage.setEvents
               CalendarPage.setLoading CalendarPage.trainings_map].
    async_compute. split_on_service; try reflexivity.
    match goal with
    | |- context [CalendarPage.calendarEvents ?f ?l] =>
        destruct (CalendarPage.calendarEvents f l)
    end; reflexivity.
  - intros st srv.
    cbv delta [StatisticsPage.fetchStats StatisticsPage.setStats
               StatisticsPage.setLoading].
    async_compute. split_on_service; reflexivity.
Qed.

Lemma loading_flag_witness :
  CustomerList.loading
    (state_after (run (B := scripted)
                      (CustomerList.handle (CustomerList.AddCustomer john))
                      customers_page_loaded
                      [JS.Normal (CustomerData john)])) = false.
Proof.
  exact (proj1 (proj2 (loading_flag_is_cleared scripted))
               (CustomerList.AddCustomer john) customers_page_loaded
               [JS.Normal (CustomerData john)] eq_refl).
Defined.

(** X4: the guards of the handlers are silent. Saving an edit when the
    selected customer has no locator (none selected, no link, or an empty
    link), confirming a customer deletion with an empty selected locator,
    and confirming a training deletion when the selected id is null or 0
    send nothing, show nothing and leave the page as it was. *)
Theorem guarded_handlers_do_nothing (B : Backend) :
  (forall form st srv,
      CustomerList.selected_href (CustomerList.selectedCustomer st) = None
      \/ CustomerList.selected_href (CustomerList.selectedCustomer st)
         = Some EmptyString ->
      run (CustomerList.handleEditCustomer form) st srv
      = (JS.Normal tt, st, {| remote := srv; log := [] |}))
  /\ (forall st srv,
         CustomerList.selectedCustomerUrl st = EmptyString ->
         run CustomerList.handleDeleteCustomer st srv
         = (JS.Normal tt, st, {| remote := srv; log := [] |}))
  /\ (forall st srv,
         TrainingList.selectedTrainingId st = None
         \/ TrainingList.selectedTrainingId st = Some 0 ->
         run TrainingList.handleDeleteTraining st srv
         = (JS.Normal tt, st, {| remote := srv; log := [] |})).
Proof.
  repeat apply conj.
  - intros form st srv [Hsel | Hsel]; customers_page; rewrite Hsel;
      reflexivity.
  - intros st srv Hsel. customers_page. rewrite Hsel. reflexivity.
  - intros st srv [Hsel | Hsel]; trainings_page; rewrite Hsel; reflexivity.
Qed.

Lemma guarded_handlers_witness :
  run (B := scripted) TrainingList.handleDeleteTraining
      (TrainingList.with_selectedTrainingId (Some 0) trainings_page_loaded)
      [JS.Normal NoContent]
  = (JS.Normal tt,
     TrainingList.with_selectedTrainingId (Some 0) trainings_page_loaded,
     @Build_World scripted [JS.Normal NoContent] []).
Proof.
  exact (proj2 (proj2 (guarded_handlers_do_nothing scripted))
               (TrainingList.with_selectedTrainingId
                  (Some 0) trainings_page_loaded)
               [JS.Normal NoContent] (or_intror eq_refl)).
Defined.

(** X5: when a mutation succeeds and the refresh that follows it fails,
    the page keeps the collection it had (now stale) although the success
    toast was shown. On the customers page the refresh fails when the list
    request fails or its answer has no embedded customers to read, and the
    fetch error toast is shown too. On the trainings page the refresh fails
    when the list request fails; the error toast of the failed refresh
    comes first and the success toast of the deletion comes last. *)
Theorem failed_refresh_leaves_stale_list (B : Backend) :
  (forall m st srv,
      let r := run (CustomerList.handle m) st srv in
      (exists c, In c (mutating_calls (events_of r)) /\ succeeded c = true) ->
      (forall c loaded,
          In c (list_calls (events_of r)) ->
          snd c <> JS.Normal (CustomersData loaded)) ->
      CustomerList.customers (state_after r) = CustomerList.customers st
      /\ (exists message, In (ToastSuccess message) (events_of r))
      /\ (list_calls (events_of r) <> [] ->
          In (ToastError "Failed to fetch customers") (events_of r)))
  /\ (forall st srv,
         let r := run TrainingList.handleDeleteTraining st srv in
         (exists c, In c (mutating_calls (events_of r))
                    /\ succeeded c = true) ->
         (forall c, In c (list_calls (events_of r)) -> succeeded c = false) ->
         TrainingList.trainings (state_after r) = TrainingList.trainings st
         /\ exists before,
             events_of r
             = before
               ++ [ToastError "Failed to load training sessions";
                   ToastSuccess "Training session deleted successfully"]).
Proof.
  split.
  - intros m st srv r; subst r. destruct m; customers_page;
      [ | destruct (CustomerList.selected_href
                      (CustomerList.selectedCustomer st)) as [[|a href]|];
          cbv beta iota zeta
        | destruct (CustomerList.selectedCustomerUrl st) as [|a customerUrl];
          cbv beta iota zeta
        | ];
      split_on_service; simpl; intros [c [Hin Hs]] Hlist;
      repeat (destruct Hin as [<- | Hin]; try discriminate Hs);
      try contradiction;
      try (exfalso; eapply Hlist; [left; reflexivity | reflexivity]);
      (split; [reflexivity|]);
      (split; [eexists; simpl; eauto | intros Hne; simpl; auto 10]);
      now contradiction Hne.
  - intros st srv r; subst r. trainings_page.
    destruct (TrainingList.selectedTrainingId st)
      as [[|trainingId|trainingId]|];
      cbv beta iota zeta; split_on_service; simpl;
      intros [c [Hin Hs]] Hlist;
      repeat (destruct Hin as [<- | Hin]; try discriminate Hs);
      try contradiction;
      try (specialize (Hlist _ (or_introl eq_refl)); discriminate Hlist);
      (split; [reflexivity|]);
      eexists [_; _; _]; reflexivity.
Qed.

Lemma failed_refresh_witness :
  CustomerList.customers
    (state_after (run (B := scripted)
                      (CustomerList.handle CustomerList.DeleteCustomer)
                      customers_page_loaded
                      [JS.Normal NoContent;
                       JS.Throw (JS.AxiosError "status 503")]))
  = [anna; john]
  /\ TrainingList.trainings
       (state_after (run (B := scripted) TrainingList.handleDeleteTraining
                         trainings_page_loaded
                         [JS.Normal NoContent;
                          JS.Throw (JS.AxiosError "status 503")]))
     = TrainingList.trainings trainings_page_loaded.
Proof.
  split.
  - refine (proj1 (proj1 (failed_refresh_leaves_stale_list scripted)
                         CustomerList.DeleteCustomer customers_page_loaded
                         [JS.Normal NoContent;
                          JS.Throw (JS.AxiosError "status 503")] _ _)).
    + eexists. split; [left; reflexivity | reflexivity].
    + intros c loaded [<- | []]. discriminate.
  - refine (proj1 (proj2 (failed_refresh_leaves_stale_list scripted)
                         trainings_page_loaded
                         [JS.Normal NoContent;
                          JS.Throw (JS.AxiosError "status 503")] _ _)).
    + eexists. split; [left; reflexivity | reflexivity].
    + intros c [<- | []]. reflexivity.
Defined.

(** X6: a successful mutation closes its dialog and clears its selection,
    whether or not the refresh that follows succeeds: the customer dialog
    after a create or an update (the update also drops the selected
    customer), the delete dialog and the selected locator after a delete,
    the training dialog and the selected locator after a training was
    added, the delete dialog and the selected id on the trainings page. The
    search term is kept. *)
Theorem successful_mutation_closes_dialog (B : Backend) :
  (forall m st srv,
      let r := run (CustomerList.handle m) st srv in
      (exists c, In c (mutating_calls (events_of r)) /\ succeeded c = true) ->
      match m with
      | CustomerList.AddCustomer _ =>
          CustomerList.customerDialogOpen (state_after r) = false
      | CustomerList.EditCustomer _ =>
          CustomerList.customerDialogOpen (state_after r) = false
          /\ CustomerList.selectedCustomer (state_after r) = None
      | CustomerList.DeleteCustomer =>
          CustomerList.deleteDialogOpen (state_after r) = false
          /\ CustomerList.selectedCustomerUrl (state_after r) = EmptyString
      | CustomerList.AddTraining _ =>
          CustomerList.trainingDialogOpen (state_after r) = false
          /\ CustomerList.selectedCustomerUrl (state_after r) = EmptyString
      end
      /\ CustomerList.searchTerm (state_after r) = CustomerList.searchTerm st)
  /\ (forall st srv,
         let r := run TrainingList.handleDeleteTraining st srv in
         (exists c, In c (mutating_calls (events_of r))
                    /\ succeeded c = true) ->
         TrainingList.deleteDialogOpen (state_after r) = false
         /\ TrainingList.selectedTrainingId (state_after r) = None
         /\ TrainingList.searchTerm (state_after r)
            = TrainingList.searchTerm st).
Proof.
  split.
  - intros m st srv r; subst r. destruct m; customers_page;
      [ | destruct (CustomerList.selected_href
                      (CustomerList.selectedCustomer st)) as [[|a href]|];
          cbv beta iota zeta
        | destruct (CustomerList.selectedCustomerUrl st) as [|a customerUrl];
          cbv beta iota zeta
        | ];
      split_on_service; simpl; intros [c [Hin Hs]];
      repeat (destruct Hin as [<- | Hin]; try discriminate Hs);
      try contradiction; repeat split.
  - intros st srv r; subst r. trainings_page.
    destruct (TrainingList.selectedTrainingId st)
      as [[|trainingId|trainingId]|];
      cbv beta iota zeta; split_on_service; simpl;
      intros [c [Hin Hs]];
      repeat (destruct Hin as [<- | Hin]; try discriminate Hs);
      try contradiction; repeat split.
Qed.

Lemma successful_mutation_closes_dialog_witness :
  CustomerList.deleteDialogOpen
    (state_after (run (B := scripted)
                      (CustomerList.handle CustomerList.DeleteCustomer)
                      customers_page_loaded [JS.Normal NoContent])) = false
  /\ CustomerList.selectedCustomerUrl
       (state_after (run (B := scripted)
                         (CustomerList.handle CustomerList.DeleteCustomer)
                         customers_page_loaded [JS.Normal NoContent]))
     = EmptyString.
Proof.
  refine (proj1 (proj1 (successful_mutation_closes_dialog scripted)
                       CustomerList.DeleteCustomer customers_page_loaded
                       [JS.Normal NoContent] _)).
  eexists. split; [left; reflexivity | reflexivity].
Defined.

(** Unfold the sequences of user actions. *)
Ltac sessions :=
  cbv delta [edit_and_save add_and_save delete_and_confirm
             add_training_and_submit delete_training_and_confirm
             CustomerList.customerDialog_formData
             CustomerDialog.formData_on_open];
  customers_events; trainings_events.

(** X7: the Save of the customer dialog goes where the dialog was opened
    from. Opened with Edit on a row that has a locator, it sends one PUT
    to that row's locator, with the row as changed by what was typed;
    opened with Add Customer, it sends one POST to the customers
    collection with the empty form as changed by what was typed. *)
Theorem dialog_save_targets_selected_row (B : Backend) :
  (forall row href changes st srv,
      links_self_href row = Some href ->
      href <> EmptyString ->
      exists response,
        mutating_calls (events_of (run (edit_and_save row changes) st srv))
        = [(rest_request
              (ReplaceCustomer href (CustomerDialog.typed row changes)),
            response)])
  /\ (forall changes st srv,
         exists response,
           mutating_calls (events_of (run (add_and_save changes) st srv))
           = [(rest_request
                 (CreateCustomer
                    (CustomerDialog.typed CustomerDialog.defaultFormData
                                          changes)),
               response)]).
Proof.
  split.
  - intros row href changes st srv Hlink Hne. sessions. simpl.
    rewrite Hlink. destruct href as [|a href]; [contradiction|].
    cbv beta iota zeta. split_on_service; eexists; reflexivity.
  - intros changes st srv. sessions. simpl.
    split_on_service; eexists; reflexivity.
Qed.

Lemma dialog_save_witness :
  exists response,
    mutating_calls
      (events_of (run (B := scripted)
                      (edit_and_save anna [(CustomerDialog.f_city, "Espoo")])
                      customers_page_loaded []))
    = [(rest_request
          (ReplaceCustomer
             (api.BASE_URL ++ "/customers/1")%string
             (CustomerDialog.typed anna [(CustomerDialog.f_city, "Espoo")])),
        response)].
Proof.
  apply (proj1 (dialog_save_targets_selected_row scripted)
               anna (api.BASE_URL ++ "/customers/1")%string
               [(CustomerDialog.f_city, "Espoo")] customers_page_loaded []).
  - reflexivity.
  - discriminate.
Defined.

Lemma handleChange_field_value (form : Customer)
      (name changed : CustomerDialog.Field) (value : string) :
  field_value name (CustomerDialog.handleChange form changed value)
  = if same_field changed name then value else field_value name form.
Proof. destruct name, changed; reflexivity. Qed.

(** X8: in the customer form every text field holds the last value typed
    into it, or the value the form was opened with when nothing was typed
    into it; the locator of the edited row is carried through unchanged. *)
Theorem customer_form_keeps_last_typed_value
        (form : Customer) (changes : list (CustomerDialog.Field * string)) :
  (forall name,
      field_value name (CustomerDialog.typed form changes)
      = match last_typed name changes with
        | Some value => value
        | None => field_value name form
        end)
  /\ links_self_href (CustomerDialog.typed form changes)
     = links_self_href form.
Proof.
  unfold CustomerDialog.typed, last_typed.
  induction changes as [|[changed value] changes IH] using rev_ind.
  - split; reflexivity.
  - destruct IH as [IHf IHl]. split.
    + intros name. rewrite !fold_left_app. simpl.
      rewrite handleChange_field_value.
      destruct (same_field changed name); [reflexivity | apply IHf].
    + rewrite fold_left_app. simpl. exact IHl.
Qed.

(** X9: the actions of a row reach that row. On the customers page,
    Delete on a row with a non-empty locator followed by the confirmation
    sends one DELETE to the locator of that row, and Add Training followed
    by Save posts the form with that row's locator as its customer. On the
    trainings page, Delete on a row followed by the confirmation sends one
    DELETE for the id of that row, except for id 0: then nothing is sent
    and the dialog stays open. *)
Theorem row_actions_target_clicked_row (B : Backend) :
  (forall row href st srv,
      links_self_href row = Some href ->
      href <> EmptyString ->
      exists response,
        mutating_calls (events_of (run (delete_and_confirm row) st srv))
        = [(rest_request (RemoveCustomer href), response)])
  /\ (forall row href formData st srv,
         links_self_href row = Some href ->
         exists response,
           mutating_calls
             (events_of (run (add_training_and_submit row formData) st srv))
           = [(rest_request
                 (CreateTraining (TrainingDialog.submitted formData href)),
               response)])
  /\ (forall row st srv,
         id row <> 0 ->
         exists response,
           mutating_calls
             (events_of (run (delete_training_and_confirm row) st srv))
           = [(rest_request (RemoveTraining (id row)), response)])
  /\ (forall row st srv,
         id row = 0 ->
         events_of (run (delete_training_and_confirm row) st srv) = []
         /\ TrainingList.deleteDialogOpen
              (state_after (run (delete_training_and_confirm row) st srv))
            = true).
Proof.
  repeat apply conj.
  - intros row href st srv Hlink Hne. sessions. rewrite Hlink.
    cbv beta iota zeta. simpl. destruct href as [|a href]; [contradiction|].
    cbv beta iota zeta. split_on_service; eexists; reflexivity.
  - intros row href formData st srv Hlink. sessions. rewrite Hlink.
    cbv beta iota zeta. simpl. split_on_service; eexists; reflexivity.
  - intros row st srv Hid. sessions. simpl.
    destruct (id row) as [|trainingId|trainingId]; [contradiction| |];
      cbv beta iota zeta; split_on_service; eexists; reflexivity.
  - intros row st srv Hid. sessions. simpl. rewrite Hid. split; reflexivity.
Qed.

Lemma row_actions_witness :
  exists response,
    mutating_calls
      (events_of (run (B := scripted)
                      (delete_training_and_confirm
                         (training 42 30 "Running" (Some anna)))
                      TrainingList.initial []))
    = [(rest_request (RemoveTraining 42), response)].
Proof.
  apply (proj1 (proj2 (proj2 (row_actions_target_clicked_row scripted)))
               (training 42 30 "Running" (Some anna))
               TrainingList.initial []).
  discriminate.
Defined.

(* ===================================================================== *)
(** * Calendar, statistics and reset: further properties *)
(* ===================================================================== *)

Lemma Array_map_Forall2 {A C} (callback : A -> JS.Completion C)
      (l : list A) :
  forall l', JS.Array_map callback l = JS.Normal l' ->
             Forall2 (fun x y => callback x = JS.Normal y) l l'.
Proof.
  induction l as [|x l IH]; simpl; intros l' Hmap.
  - injection Hmap as <-. constructor.
  - destruct (callback x) as [y|] eqn:Ey; simpl in Hmap; [|discriminate].
    destruct (JS.Array_map callback l) as [rest|] eqn:Er; simpl in Hmap;
      [|discriminate].
    injection Hmap as <-. constructor; [assumption | now apply IH].
Qed.

Lemma Math_round_div_minutes (minutes : Z) :
  JS.Math_round_div (minutes * 60000) 60000 = minutes.
Proof.
  unfold JS.Math_round_div.
  replace (2 * (minutes * 60000) + 60000)
    with (minutes * (2 * 60000) + 60000) by lia.
  rewrite Z.div_add_l by lia.
  change (60000 / (2 * 60000)) with 0. lia.
Qed.

(** X10: the tooltip of a calendar entry gives back the duration of its
    training whenever the entry has a valid end (C4 says when): the minutes
    it prints, computed from the entry's end and start, are then the
    training's [duration]. When the end is an Invalid Date the tooltip
    prints NaN for the minutes. In both cases the entry carries the id of
    its training. *)
Theorem calendar_tooltip_shows_training_duration
        (Date_parse : string -> Number.t) (trainings : list Training)
        (evs : list CalendarPage.CalendarEvent) :
  CalendarPage.calendarEvents Date_parse trainings = JS.Normal evs ->
  Forall2
    (fun t e =>
       CalendarPage.tooltipAccessor e
       = (CalendarPage.ev_title e
          ++ String JS.newline_char EmptyString
          ++ "Duration: "
          ++ match CalendarPage.getTime (CalendarPage.ev_end e) with
             | Number.Finite _ => Z_to_string (duration t)
             | _ => "NaN"
             end
          ++ " minutes")%string
       /\ CalendarPage.ev_id e = id t)
    trainings evs.
Proof.
  intros Hev. apply Array_map_Forall2 in Hev.
  eapply Forall2_impl; [|exact Hev].
  intros t e He. unfold CalendarPage.toCalendarEvent,
    TrainingList.customer_member in He.
  destruct (customer t) as [c|]; simpl in He; [|discriminate].
  injection He as <-. split; [|reflexivity].
  unfold CalendarPage.tooltipAccessor.
  cbn [CalendarPage.ev_title CalendarPage.ev_start CalendarPage.ev_end
       CalendarPage.getTime CalendarPage.new_Date_of_string
       CalendarPage.new_Date_of_number].
  rewrite end_time_minutes_after.
  destruct (CalendarPage.TimeClip (Date_parse (date t))) as [start| |] eqn:Es;
    [|reflexivity|reflexivity].
  apply TimeClip_valid in Es. destruct Es as [_ Hstart].
  unfold minutes_after, max_time.
  destruct (Z.leb_spec (Z.abs (start + duration t * 60000)) 8640000000000000)
    as [Hend|Hend]; [|reflexivity].
  cbn [Number.sub Number.opp Number.add].
  replace (start + duration t * 60000 + - start) with (duration t * 60000)
    by lia.
  rewrite of_Z_even; [| lia | rewrite Z.even_mul; apply orb_true_r].
  cbn [Number.Math_round_div Number_toString].
  now rewrite Math_round_div_minutes.
Qed.

Lemma calendar_tooltip_witness :
  Forall2
    (fun t e =>
       CalendarPage.tooltipAccessor e
       = (CalendarPage.ev_title e
          ++ String JS.newline_char EmptyString
          ++ "Duration: "
          ++ match CalendarPage.getTime (CalendarPage.ev_end e) with
             | Number.Finite _ => Z_to_string (duration t)
             | _ => "NaN"
             end
          ++ " minutes")%string
       /\ CalendarPage.ev_id e = id t)
    [training 1 30 "Running" (Some anna);
     training 2 144000000000 "Yoga" (Some john)]
    [ {| CalendarPage.ev_id := 1;
         CalendarPage.ev_title := "Running / Anna Virtanen";
         CalendarPage.ev_start :=
           {| CalendarPage.getTime := Number.Finite 1732528800000 |};
         CalendarPage.ev_end :=
           {| CalendarPage.getTime := Number.Finite 1732530600000 |};
         CalendarPage.ev_customer := "Anna Virtanen" |};
      {| CalendarPage.ev_id := 2;
         CalendarPage.ev_title := "Yoga / John Smith";
         CalendarPage.ev_start :=
           {| CalendarPage.getTime := Number.Finite 1732528800000 |};
         CalendarPage.ev_end := {| CalendarPage.getTime := Number.NaN |};
         CalendarPage.ev_customer := "John Smith" |} ].
Proof.
  apply (calendar_tooltip_shows_training_duration
           sample_Date_parse
           [training 1 30 "Running" (Some anna);
            training 2 144000000000 "Yoga" (Some john)]).
  vm_compute. reflexivity.
Defined.

(** The tooltips of the two entries above, as the user reads them. *)
Example calendar_tooltip_samples :
  CalendarPage.calendarEvents sample_Date_parse
    [training 1 30 "Running" (Some anna);
     training 2 144000000000 "Yoga" (Some john)]
  = JS.Normal
      [ {| CalendarPage.ev_id := 1;
           CalendarPage.ev_title := "Running / Anna Virtanen";
           CalendarPage.ev_start :=
             {| CalendarPage.getTime := Number.Finite 1732528800000 |};
           CalendarPage.ev_end :=
             {| CalendarPage.getTime := Number.Finite 1732530600000 |};
           CalendarPage.ev_customer := "Anna Virtanen" |};
        {| CalendarPage.ev_id := 2;
           CalendarPage.ev_title := "Yoga / John Smith";
           CalendarPage.ev_start :=
             {| CalendarPage.getTime := Number.Finite 1732528800000 |};
           CalendarPage.ev_end := {| CalendarPage.getTime := Number.NaN |};
           CalendarPage.ev_customer := "John Smith" |} ]
  /\ map CalendarPage.tooltipAccessor
       [ {| CalendarPage.ev_id := 1;
            CalendarPage.ev_title := "Running / Anna Virtanen";
            CalendarPage.ev_start :=
              {| CalendarPage.getTime := Number.Finite 1732528800000 |};
            CalendarPage.ev_end :=
              {| CalendarPage.getTime := Number.Finite 1732530600000 |};
            CalendarPage.ev_customer := "Anna Virtanen" |};
         {| CalendarPage.ev_id := 2;
            CalendarPage.ev_title := "Yoga / John Smith";
            CalendarPage.ev_start :=
              {| CalendarPage.getTime := Number.Finite 1732528800000 |};
            CalendarPage.ev_end := {| CalendarPage.getTime := Number.NaN |};
            CalendarPage.ev_customer := "John Smith" |} ]
     = [ String.append "Running / Anna Virtanen"
           (String JS.newline_char "Duration: 30 minutes");
         String.append "Yoga / John Smith"
           (String JS.newline_char "Duration: NaN minutes") ].
Proof. split; vm_compute; reflexivity. Qed.

(** X11: the calendar load is all or nothing. When the service returns
    trainings of which one has no customer, no entry is stored at all: the
    events of the page stay as they were, the error toast is shown, and the
    page stops loading. *)
Theorem calendar_load_is_all_or_nothing
        (B : Backend) (Date_parse : string -> Number.t)
        (st : CalendarPage.State) (srv srv' : Server)
        (trainings : list Training) (t : Training) :
  serve list_trainings_request srv
  = (srv', JS.Normal (TrainingsData trainings)) ->
  In t trainings ->
  customer t = None ->
  CalendarPage.events
    (state_after (run (CalendarPage.fetchTrainings Date_parse) st srv))
  = CalendarPage.events st
  /\ CalendarPage.loading
       (state_after (run (CalendarPage.fetchTrainings Date_parse) st srv))
     = false
  /\ In (ToastError "Failed to load calendar events")
        (events_of (run (CalendarPage.fetchTrainings Date_parse) st srv)).
Proof.
  intros Hserve Hin Hnull.
  destruct (calendarEvents_null_customer Date_parse trainings t Hin Hnull)
    as [e He].
  cbv delta [list_trainings_request] in Hserve.
  cbv delta [CalendarPage.fetchTrainings CalendarPage.setEvents
             CalendarPage.setLoading CalendarPage.trainings_map].
  async_compute. rewrite Hserve, He. simpl. auto 10.
Qed.

Lemma calendar_all_or_nothing_witness :
  CalendarPage.events
    (state_after
       (run (B := scripted) (CalendarPage.fetchTrainings sample_Date_parse)
            CalendarPage.initial
            [JS.Normal (TrainingsData
                          [training 1 30 "Running" (Some anna);
                           training 2 45 "Yoga" None])]))
  = [].
Proof.
  refine (proj1 (@calendar_load_is_all_or_nothing
                   scripted sample_Date_parse CalendarPage.initial
                   [JS.Normal (TrainingsData
                                 [training 1 30 "Running" (Some anna);
                                  training 2 45 "Yoga" None])]
                   [] _ (training 2 45 "Yoga" None) eq_refl _ eq_refl)).
  right; left; reflexivity.
Defined.

(** X12: when the load of the calendar page or of the statistics page
    fails, the page keeps what it showed (nothing, on mount), stops
    loading, and the failure is logged and then shown in a toast; the one
    request is not repeated. *)
Theorem failed_load_of_calendar_and_statistics (B : Backend) :
  (forall Date_parse st srv e,
      outcome (run api.getTrainings st srv) = JS.Throw e ->
      let r := run (CalendarPage.fetchTrainings Date_parse) st srv in
      CalendarPage.events (state_after r) = CalendarPage.events st
      /\ CalendarPage.loading (state_after r) = false
      /\ exists response,
          events_of r
          = [Http list_trainings_request response;
             ConsoleError "Error fetching trainings:" e;
             ToastError "Failed to load calendar events"])
  /\ (forall st srv e,
         outcome (run api.getTrainings st srv) = JS.Throw e ->
         let r := run StatisticsPage.fetchStats st srv in
         StatisticsPage.stats (state_after r) = StatisticsPage.stats st
         /\ StatisticsPage.loading (state_after r) = false
         /\ exists response,
             events_of r
             = [Http list_trainings_request response;
                ConsoleError "Error fetching training statistics:" e;
                ToastError "Failed to load statistics"]).
Proof.
  split.
  - intros Date_parse st srv e.
    cbv delta [CalendarPage.fetchTrainings CalendarPage.setEvents
               CalendarPage.setLoading CalendarPage.trainings_map].
    async_compute. split_on_service; simpl; intros He; try discriminate;
      injection He as <-; repeat split; eexists; reflexivity.
  - intros st srv e.
    cbv delta [StatisticsPage.fetchStats StatisticsPage.setStats
               StatisticsPage.setLoading].
    async_compute. split_on_service; simpl; intros He; try discriminate;
      injection He as <-; repeat split; eexists; reflexivity.
Qed.

Lemma failed_load_statistics_witness :
  StatisticsPage.stats
    (state_after (run (B := scripted) StatisticsPage.fetchStats
                      StatisticsPage.initial [])) = []
  /\ StatisticsPage.loading
       (state_after (run (B := scripted) StatisticsPage.fetchStats
                         StatisticsPage.initial [])) = false.
Proof.
  destruct (proj2 (failed_load_of_calendar_and_statistics scripted)
                  StatisticsPage.initial []
                  (JS.AxiosError "Network Error") eq_refl)
    as [Hstats [Hloading _]].
  exact (conj Hstats Hloading).
Defined.

(** X13: the reset sends its one request and reloads the page exactly when
    that request succeeded; when it failed, the page is not reloaded and
    the failure is shown and logged. *)
Theorem reset_reloads_only_on_success (B : Backend) (srv : Server) :
  exists response,
    http_calls (events_of (run Layout.handleResetDatabase tt srv))
    = [(Layout.reset_request, response)]
    /\ (In PageReload (events_of (run Layout.handleResetDatabase tt srv))
        <-> succeeded (Layout.reset_request, response) = true)
    /\ (In (ToastError "Failed to reset database")
           (events_of (run Layout.handleResetDatabase tt srv))
        <-> succeeded (Layout.reset_request, response) = false).
Proof.
  cbv delta [Layout.handleResetDatabase]. async_compute.
  split_on_service; eexists; (split; [reflexivity|]); simpl;
    split; split; intros Hx; try reflexivity; try discriminate;
    repeat (destruct Hx as [Hx | Hx]; try discriminate Hx);
    try contradiction; auto 10.
Qed.

(* ===================================================================== *)
(** * The text filters: further properties *)
(* ===================================================================== *)

Lemma string_app_assoc (a b c : string) :
  ((a ++ b) ++ c)%string = (a ++ b ++ c)%string.
Proof.
  induction a as [|x a IH]; [reflexivity|].
  change (String x ((a ++ b) ++ c)%string = String x (a ++ b ++ c)%string).
  now rewrite IH.
Qed.

Lemma includes_empty (s : string) : JS.includes s EmptyString = true.
Proof. destruct s; reflexivity. Qed.

Lemma occurs_trans (toLowerCase : string -> string) (term term' s : string) :
  occurs_ignoring_case toLowerCase term term' ->
  occurs_ignoring_case toLowerCase term' s ->
  occurs_ignoring_case toLowerCase term s.
Proof.
  intros [pre [post Ht]] [p [q Hs]].
  exists (p ++ pre)%string, (post ++ q)%string.
  rewrite Hs, Ht. now rewrite !string_app_assoc.
Qed.

Lemma filter_after_weaker {A} (f g : A -> bool) (l : list A) :
  (forall x, f x = true -> g x = true) ->
  filter f (filter g l) = filter f l.
Proof.
  intros Hfg. induction l as [|x l IH]; simpl; [reflexivity|].
  destruct (g x) eqn:Eg; simpl.
  - now rewrite IH.
  - destruct (f x) eqn:Ef; [|assumption].
    apply Hfg in Ef. congruence.
Qed.

(** X14: with an empty search term the [rows] handed to each grid are the
    whole loaded collection, in the order it was loaded, on every host
    whose [toLowerCase] maps the empty string to itself. (What a grid does
    with its rows, sorting and paging them, is the grid's own.) *)
Theorem empty_search_shows_whole_collection
        (toLowerCase : string -> string) :
  toLowerCase "" = "" ->
  (forall customers,
      CustomerList.filteredCustomers toLowerCase customers "" = customers)
  /\ (forall st,
         CustomerList.searchTerm st = EmptyString ->
         CustomerList.rows toLowerCase st = CustomerList.customers st)
  /\ (forall trainings,
         TrainingList.filteredTrainings toLowerCase trainings ""
         = JS.Normal trainings)
  /\ (forall st,
         TrainingList.searchTerm st = EmptyString ->
         TrainingList.rows toLowerCase st
         = JS.Normal (TrainingList.trainings st)).
Proof.
  intros Hempty.
  assert (Hc : forall customers,
             CustomerList.filteredCustomers toLowerCase customers ""
             = customers).
  { intros customers. unfold CustomerList.filteredCustomers.
    induction customers as [|c customers IH]; simpl; [reflexivity|].
    unfold CustomerList.matchesSearch at 1. rewrite Hempty.
    rewrite includes_empty. simpl. now rewrite IH. }
  assert (Ht : forall trainings,
             TrainingList.filteredTrainings toLowerCase trainings ""
             = JS.Normal trainings).
  { intros trainings. rewrite filteredTrainings_eq. f_equal.
    induction trainings as [|t trainings IH]; simpl; [reflexivity|].
    unfold training_matches at 1. rewrite Hempty.
    rewrite includes_empty. simpl. now rewrite IH. }
  repeat apply conj.
  - exact Hc.
  - intros st Hterm. unfold CustomerList.rows. rewrite Hterm. apply Hc.
  - exact Ht.
  - intros st Hterm. unfold TrainingList.rows. rewrite Hterm. apply Ht.
Qed.

Lemma empty_search_witness :
  CustomerList.rows ascii_toLowerCase customers_page_loaded = [anna; john]
  /\ TrainingList.rows ascii_toLowerCase trainings_page_loaded
     = JS.Normal [training 42 30 "Running" (Some anna);
                  training 7 45 "Yoga" (Some john)].
Proof.
  split.
  - exact (proj1 (proj2 (empty_search_shows_whole_collection
                           ascii_toLowerCase eq_refl))
                 customers_page_loaded eq_refl).
  - exact (proj2 (proj2 (proj2 (empty_search_shows_whole_collection
                                  ascii_toLowerCase eq_refl)))
                 trainings_page_loaded eq_refl).
Defined.

(** X15: refining a search narrows it. Whatever the case folding
    [toLowerCase] of the host is: when the lower-cased previous term is a
    substring of the lower-cased new term, filtering the loaded collection
    by the new term gives the same rows as filtering, by the new term, the
    rows that the previous term showed; so such a refinement never brings
    back a row. *)
Theorem refining_search_narrows_rows
        (toLowerCase : string -> string) (term term' : string) :
  occurs_ignoring_case toLowerCase term term' ->
  (forall customers,
      CustomerList.filteredCustomers toLowerCase customers term'
      = CustomerList.filteredCustomers toLowerCase
          (CustomerList.filteredCustomers toLowerCase customers term) term')
  /\ (forall trainings,
         exists shown,
           TrainingList.filteredTrainings toLowerCase trainings term
           = JS.Normal shown
           /\ TrainingList.filteredTrainings toLowerCase trainings term'
              = TrainingList.filteredTrainings toLowerCase shown term').
Proof.
  intros Hocc. split.
  - intros customers. unfold CustomerList.filteredCustomers.
    symmetry. apply filter_after_weaker. intros c Hm.
    apply customers_callback_spec in Hm. apply customers_callback_spec.
    destruct Hm as [field [Hin Hf]]. exists field. split; [assumption|].
    now apply occurs_trans with term'.
  - intros trainings.
    exists (filter (training_matches toLowerCase term) trainings).
    split; [apply filteredTrainings_eq|].
    rewrite !filteredTrainings_eq. f_equal.
    symmetry. apply filter_after_weaker. intros t Hm.
    apply training_matches_spec in Hm. apply training_matches_spec.
    destruct Hm as [Ha | [c [Hc Hn]]].
    + left. now apply occurs_trans with term'.
    + right. exists c. split; [assumption|].
      now apply occurs_trans with term'.
Qed.

Lemma refining_search_witness :
  CustomerList.filteredCustomers ascii_toLowerCase [anna; john] "Virta"
  = CustomerList.filteredCustomers ascii_toLowerCase
      (CustomerList.filteredCustomers ascii_toLowerCase [anna; john] "IRT")
      "Virta".
Proof.
  apply (proj1 (@refining_search_narrows_rows ascii_toLowerCase "IRT" "Virta"
                  (ex_intro _ "v"%string
                            (ex_intro _ "a"%string eq_refl)))).
Defined.

(* ===================================================================== *)
(** * Statistics: the order of equal totals *)
(* ===================================================================== *)

Section TieOrder.
Import JS.












End TieOrder.




Example statistics_numeric_labels_first :
  map StatisticsPage.stat_activity
      (StatisticsPage.activityStats
         [training 1 30 "Yoga" None; training 2 30 "10" None;
          training 3 30 "2" None])
  = ["2"; "10"; "Yoga"].
Proof. reflexivity. Qed.

(* ===================================================================== *)
(** * CSV export *)
(* ===================================================================== *)

Example csv_parse_sample :
  csv_parse (CustomerList.csvString [anna])
  = Some [["firstname"; "lastname"; "email"; "phone"; "streetaddress";
           "postcode"; "city"];
          ["Anna"; "Virtanen"; "anna@example.com"; "040-1234567"; "Katu 1";
           "00100"; "Helsinki"]].
Proof. reflexivity. Qed.

Section CsvFacts.
Import JS.

(** Here text is read character by character. *)
Local Arguments String.append : simpl nomatch.

Lemma string_app_nil_r (s : string) : (s ++ "")%string = s.
Proof.
  induction s as [|c s IH]; [reflexivity|].
  change (String c (s ++ "")%string = String c s). now rewrite IH.
Qed.

Lemma Array_join_cons (separator x : string) (l : list string) :
  Array_join separator (x :: l) = (x ++ joined_after separator l)%string.
Proof.
  revert x. induction l as [|y l IH]; intros x.
  - symmetry. apply string_app_nil_r.
  - change (Array_join separator (x :: y :: l))
      with (x ++ separator ++ Array_join separator (y :: l))%string.
    now rewrite IH.
Qed.

(** Inside the quotes, the doubled value reads back as the value. *)
Lemma csv_read_doubled (v : string) :
  forall field record records rest,
    csv_read Quoted field record records
             (double_quotes v ++ String quote_char rest)
    = csv_read QuoteSeen (field ++ v) record records rest.
Proof.
  induction v as [|c v IH]; intros field record records rest.
  - rewrite string_app_nil_r. reflexivity.
  - replace (field ++ String c v)%string
      with ((field ++ String c EmptyString) ++ v)%string
      by (now rewrite string_app_assoc).
    rewrite <- IH. cbn [double_quotes].
    destruct (Ascii.eqb c quote_char) eqn:Ec.
    + apply Ascii.eqb_eq in Ec. subst c. reflexivity.
    + cbn [String.append csv_read]. now rewrite Ec.
Qed.

Lemma csv_read_cell (v : string) (record : list string)
      (records : list (list string)) (rest : string) :
  csv_read FieldStart EmptyString record records
           (CustomerList.csv_cell v ++ rest)
  = csv_read QuoteSeen v record records rest.
Proof.
  unfold CustomerList.csv_cell.
  change (csv_read Quoted EmptyString record records
                   ((double_quotes v ++ String quote_char EmptyString)
                    ++ rest)
          = csv_read QuoteSeen v record records rest).
  rewrite string_app_assoc.
  change (String quote_char EmptyString ++ rest)%string
    with (String quote_char rest).
  now rewrite csv_read_doubled.
Qed.

Lemma csv_read_comma (v : string) (record : list string)
      (records : list (list string)) (rest : string) :
  csv_read QuoteSeen v record records ("," ++ rest)
  = csv_read FieldStart EmptyString (record ++ [v]) records rest.
Proof. reflexivity. Qed.

Lemma csv_read_row (c : Customer) (records : list (list string))
      (rest : string) :
  csv_read FieldStart EmptyString [] records (CustomerList.csvRow c ++ rest)
  = csv_read QuoteSeen (city c)
             [firstname c; lastname c; email c; phone c; streetaddress c;
              postcode c]
             records rest.
Proof.
  unfold CustomerList.csvRow, CustomerList.csv_fields.
  cbn [map Array_join snd].
  rewrite !string_app_assoc.
  repeat (rewrite csv_read_cell, csv_read_comma).
  rewrite csv_read_cell. reflexivity.
Qed.

Lemma csv_read_rows (customers : list Customer) :
  forall field record records,
    csv_read QuoteSeen field record records
             (joined_after (String newline_char EmptyString)
                           (map CustomerList.csvRow customers))
    = Some (records ++ [record ++ [field]] ++ map exported_values customers).
Proof.
  induction customers as [|c customers IH]; intros field record records.
  - reflexivity.
  - cbn [map joined_after].
    change (csv_read FieldStart EmptyString []
                     (records ++ [record ++ [field]])
                     (CustomerList.csvRow c
                      ++ joined_after (String newline_char EmptyString)
                           (map CustomerList.csvRow customers))
            = Some (records ++ [record ++ [field]]
                    ++ exported_values c :: map exported_values customers)).
    rewrite csv_read_row, IH. now rewrite <- app_assoc.
Qed.

Lemma csv_parse_csvString (customers : list Customer) :
  csv_parse (CustomerList.csvString customers)
  = Some (map fst CustomerList.csv_fields
          :: map exported_values customers).
Proof.
  unfold csv_parse, CustomerList.csvString. rewrite Array_join_cons.
  change (csv_read Bare "city"
                   ["firstname"; "lastname"; "email"; "phone";
                    "streetaddress"; "postcode"] []
                   (joined_after (String newline_char EmptyString)
                                 (map CustomerList.csvRow customers))
          = Some (map fst CustomerList.csv_fields
                  :: map exported_values customers)).
  destruct customers as [|c customers]; [reflexivity|].
  cbn [map joined_after].
  change (csv_read FieldStart EmptyString []
                   [map fst CustomerList.csv_fields]
                   (CustomerList.csvRow c
                    ++ joined_after (String newline_char EmptyString)
                         (map CustomerList.csvRow customers))
          = Some (map fst CustomerList.csv_fields
                  :: exported_values c :: map exported_values customers)).
  rewrite csv_read_row, csv_read_rows. reflexivity.
Qed.

End CsvFacts.

(** X17: the CSV export reads back. The file the export hands to the
    browser is named customers.csv and, read as comma-separated text, is
    the header record of the seven column names followed by one record per
    loaded customer holding exactly that customer's seven values, whatever
    characters they contain (double quotes, commas and line breaks
    included). It covers the whole loaded collection, not the rows the
    search term leaves; the export sends no request and changes no state,
    and without browser support for downloads it does nothing. *)
Theorem exported_csv_reads_back
        (B : Backend) (st : CustomerList.State) (srv : Server) :
  (exists text,
      outcome (run (CustomerList.handleExportCSV true) st srv)
      = JS.Normal (Some ("customers.csv", text))
      /\ csv_parse text
         = Some (map fst CustomerList.csv_fields
                 :: map exported_values (CustomerList.customers st)))
  /\ state_after (run (CustomerList.handleExportCSV true) st srv) = st
  /\ events_of (run (CustomerList.handleExportCSV true) st srv)
     = [ToastSuccess "Customers exported successfully"]
  /\ run (CustomerList.handleExportCSV false) st srv
     = (JS.Normal None, st, {| remote := srv; log := [] |}).
Proof.
  repeat apply conj; try reflexivity.
  exists (CustomerList.csvString (CustomerList.customers st)).
  split; [reflexivity | apply csv_parse_csvString].
Qed.

(* ===================================================================== *)
(** * The URL of a training *)
(* ===================================================================== *)

Section DecimalFacts.
Import JS.

Lemma digit_of_digit_char (d : N) :
  (d < 10)%N -> digit_of (digit_char d) = Some d.
Proof.
  intros Hd.
  assert (Hcases : d = 0%N \/ d = 1%N \/ d = 2%N \/ d = 3%N \/ d = 4%N
                   \/ d = 5%N \/ d = 6%N \/ d = 7%N \/ d = 8%N \/ d = 9%N)
    by lia.
  repeat (destruct Hcases as [-> | Hcases]; [reflexivity|]).
  subst d. reflexivity.
Qed.

(** Reading the digits written for [n] continues the number read so far. *)
Lemma parse_decimal_digits (fuel : nat) :
  forall n acc a,
    (n < 2 ^ N.of_nat fuel)%N ->
    exists k,
      parse_digits (decimal_digits fuel n acc) a
      = parse_digits acc (a * 10 ^ k + n)%N.
Proof.
  induction fuel as [|fuel IH]; intros n acc a Hn.
  - exists 0%N. simpl in *. replace n with 0%N by lia.
    f_equal. lia.
  - cbn [decimal_digits].
    assert (Hmod : (n mod 10 < 10)%N) by (apply N.mod_lt; lia).
    destruct (n <? 10)%N eqn:Elt.
    + apply N.ltb_lt in Elt. exists 1%N. cbn [parse_digits].
      rewrite (digit_of_digit_char Hmod), N.mod_small by assumption.
      f_equal. lia.
    + apply N.ltb_ge in Elt.
      assert (Hdiv : (n / 10 < 2 ^ N.of_nat fuel)%N).
      { rewrite Nat2N.inj_succ, N.pow_succ_r' in Hn.
        apply N.Div0.div_lt_upper_bound. lia. }
      destruct (IH (n / 10)%N (String (digit_char (n mod 10)) acc) a Hdiv)
        as [k Hk].
      exists (N.succ k). rewrite Hk. cbn [parse_digits].
      rewrite (digit_of_digit_char Hmod). f_equal.
      rewrite N.pow_succ_r'. pose proof (N.div_mod n 10). lia.
Qed.

Lemma parse_digits_of_N (n : N) :
  parse_digits
    (decimal_digits (S (N.to_nat (N.log2 n))) n EmptyString) 0
  = Some n.
Proof.
  assert (Hn : (n < 2 ^ N.of_nat (S (N.to_nat (N.log2 n))))%N).
  { rewrite Nat2N.inj_succ, N2Nat.id.
    destruct (N.eq_dec n 0) as [-> | Hpos]; [reflexivity|].
    apply N.log2_spec. lia. }
  destruct (@parse_decimal_digits _ n EmptyString 0 Hn) as [k Hk].
  rewrite Hk. reflexivity.
Qed.

Lemma string_app_inv_head (a b c : string) :
  (a ++ b)%string = (a ++ c)%string -> b = c.
Proof.
  induction a as [|x a IH]; intros Heq; [exact Heq|].
  apply IH. now injection Heq.
Qed.

Lemma parse_digits_minus (s : string) (a : N) :
  parse_digits (String "-"%char s) a = None.
Proof. reflexivity. Qed.

Lemma Z_to_string_injective (i j : Z) :
  Z_to_string i = Z_to_string j -> i = j.
Proof.
  unfold Z_to_string. cbv zeta.
  destruct (i <? 0) eqn:Ei, (j <? 0) eqn:Ej; intros Heq.
  - apply (f_equal (fun s => match s with
                                | String _ digits => parse_digits digits 0
                                | EmptyString => None
                                end)) in Heq.
    cbv beta iota in Heq.
    rewrite !parse_digits_of_N in Heq. injection Heq as Heq.
    apply Z.ltb_lt in Ei, Ej. lia.
  - apply (f_equal (fun s => parse_digits s 0)) in Heq. cbv beta in Heq.
    rewrite parse_digits_of_N, parse_digits_minus in Heq. discriminate.
  - apply (f_equal (fun s => parse_digits s 0)) in Heq. cbv beta in Heq.
    rewrite parse_digits_of_N, parse_digits_minus in Heq. discriminate.
  - apply (f_equal (fun s => parse_digits s 0)) in Heq. cbv beta in Heq.
    rewrite !parse_digits_of_N in Heq. injection Heq as Heq.
    apply Z.ltb_ge in Ei, Ej. lia.
Qed.

End DecimalFacts.

(** X18: the delete request of a training names that training and no
    other, for ids that are safe integers (at most 2^53 in absolute value,
    where the template literal of the URL prints the decimal digits of the
    id): the requests that [api.deleteTraining] sends for two such ids are
    the same request only when the ids are equal, and such an id that is
    not negative can be read back from the decimal digits that end the
    URL. *)
Theorem delete_training_url_identifies_training :
  (forall i j,
      Z.abs i <= max_safe ->
      Z.abs j <= max_safe ->
      api.request_of (api.op_deleteTraining i)
      = api.request_of (api.op_deleteTraining j) ->
      i = j)
  /\ (forall i,
         0 <= i <= max_safe ->
         url (api.request_of (api.op_deleteTraining i))
         = (api.BASE_URL ++ "/trainings/"
              ++ Number_toString (Number.of_Z i))%string
         /\ JS.parse_digits (Number_toString (Number.of_Z i)) 0
            = Some (Z.to_N i)).
Proof.
  split.
  - intros i j _ _ Heq. apply (f_equal url) in Heq. simpl in Heq.
    apply string_app_inv_head, string_app_inv_head in Heq.
    now apply Z_to_string_injective.
  - intros i [Hi Hsafe]. unfold max_safe in Hsafe.
    rewrite of_Z_safe by lia. cbn [Number_toString].
    split; [reflexivity|].
    unfold Z_to_string. destruct (i <? 0) eqn:Ei.
    + apply Z.ltb_lt in Ei. lia.
    + rewrite parse_digits_of_N. f_equal. lia.
Qed.

Lemma delete_training_url_witness :
  JS.parse_digits (Number_toString (Number.of_Z 42)) 0 = Some 42%N.
Proof.
  refine (proj2 (proj2 delete_training_url_identifies_training 42 _)).
  unfold max_safe. lia.
Defined.

(* ===================================================================== *)
(** * The refresh reads what the mutation wrote *)
(* ===================================================================== *)

(** X19: the refresh follows the write. When the mutating request of a
    customer handler succeeds, the list request is sent next and is
    answered by the service in the state the mutation left it in; these
    are the only two requests, in this order, and the service ends in the
    state after the list request. Adding a training sends its one request
    and nothing else. On the trainings page a successful deletion is
    followed in the same way by the list request. *)
Theorem refresh_reads_after_write (B : Backend) :
  (forall m st srv request srv1 data srv2 response,
      mutation_request m st = Some request ->
      serve request srv = (srv1, JS.Normal data) ->
      serve list_customers_request srv1 = (srv2, response) ->
      let r := run (CustomerList.handle m) st srv in
      match m with
      | CustomerList.AddTraining _ =>
          http_calls (events_of r) = [(request, JS.Normal data)]
          /\ remote (snd r) = srv1
      | _ =>
          http_calls (events_of r)
          = [(request, JS.Normal data); (list_customers_request, response)]
          /\ remote (snd r) = srv2
      end)
  /\ (forall st trainingId srv srv1 data srv2 response,
         TrainingList.selectedTrainingId st = Some trainingId ->
         trainingId <> 0 ->
         serve (rest_request (RemoveTraining trainingId)) srv
         = (srv1, JS.Normal data) ->
         serve list_trainings_request srv1 = (srv2, response) ->
         let r := run TrainingList.handleDeleteTraining st srv in
         http_calls (events_of r)
         = [(rest_request (RemoveTraining trainingId), JS.Normal data);
            (list_trainings_request, response)]
         /\ remote (snd r) = srv2).
Proof.
  split.
  - intros m st srv request srv1 data srv2 response Hreq Hmut Hlist r;
      subst r.
    cbv delta [list_customers_request] in Hlist.
    destruct m; cbn [mutation_request] in Hreq; customers_page;
      [ | destruct (CustomerList.selected_href
                      (CustomerList.selectedCustomer st)) as [[|a href]|]
        | destruct (CustomerList.selectedCustomerUrl st) as [|a href]
        | ];
      try discriminate Hreq; injection Hreq as <-;
      cbv delta [rest_request] in Hmut; cbv beta iota in Hmut;
      cbv beta iota zeta; rewrite Hmut; cbv beta iota zeta;
      try rewrite Hlist; cbv beta iota zeta;
      destruct response as [[]|]; split; reflexivity.
  - intros st trainingId srv srv1 data srv2 response Hsel Hne Hmut Hlist r;
      subst r.
    cbv delta [list_trainings_request] in Hlist.
    cbv delta [rest_request] in Hmut; cbv beta iota in Hmut.
    trainings_page. rewrite Hsel.
    destruct trainingId as [|p|p]; [contradiction| |];
      cbv beta iota zeta; rewrite Hmut; cbv beta iota zeta;
      rewrite Hlist; cbv beta iota zeta;
      destruct response as [[]|]; split; reflexivity.
Qed.

Lemma refresh_reads_after_write_witness :
  http_calls
    (events_of (run (B := scripted)
                    (CustomerList.handle (CustomerList.AddCustomer john))
                    customers_page_loaded
                    [JS.Normal (CustomerData john);
                     JS.Normal (CustomersData [anna; john])]))
  = [(rest_request (CreateCustomer john), JS.Normal (CustomerData john));
     (list_customers_request, JS.Normal (CustomersData [anna; john]))].
Proof.
  exact (proj1 (proj1 (refresh_reads_after_write scripted)
                      (CustomerList.AddCustomer john) customers_page_loaded
                      [JS.Normal (CustomerData john);
                       JS.Normal (CustomersData [anna; john])]
                      (rest_request (CreateCustomer john))
                      [JS.Normal (CustomersData [anna; john])]
                      (CustomerData john) [] 
                      (JS.Normal (CustomersData [anna; john]))
                      eq_refl eq_refl eq_refl)).
Defined.

(* ===================================================================== *)
(** * Statistics and the order of the loaded trainings *)
(* ===================================================================== *)

Lemma filter_perm {A} (f : A -> bool) (l l' : list A) :
  Permutation l l' -> Permutation (filter f l) (filter f l').
Proof.
  induction 1 as [|x l l' _ IH|x y l|l l' l'' _ IH1 _ IH2]; simpl.
  - constructor.
  - destruct (f x); [now constructor | assumption].
  - destruct (f x), (f y); try reflexivity. apply perm_swap.
  - now transitivity (filter f l').
Qed.

Lemma activityStats_NoDup (trainings : list Training) :
  NoDup (StatisticsPage.activityStats trainings).
Proof.
  apply (NoDup_map_inv StatisticsPage.stat_activity).
  apply (Permutation_NoDup
           (Permutation_sym (activityStats_labels_perm trainings))).
  apply (groupBy_grouped activity trainings).
Qed.

Lemma activityStats_load_order (trainings trainings' : list Training) :
  Permutation trainings trainings' ->
  Permutation (StatisticsPage.activityStats trainings)
              (StatisticsPage.activityStats trainings').
Proof.
  intros Hperm.
  apply NoDup_Permutation; try apply activityStats_NoDup.
  intros s. rewrite !activityStats_In.
  assert (Hsum : Zsum (map duration
                           (with_activity (StatisticsPage.stat_activity s)
                                          trainings))
                 = Zsum (map duration
                             (with_activity (StatisticsPage.stat_activity s)
                                            trainings'))).
  { apply Zsum_perm, Permutation_map. unfold with_activity.
    now apply filter_perm. }
  rewrite Hsum. split; intros [[t [Ht Ha]] Hd]; (split; [|assumption]);
    exists t; (split; [|assumption]).
  - now apply (Permutation_in _ Hperm).
  - now apply (Permutation_in _ (Permutation_sym Hperm)).
Qed.

(** X20: on collections whose durations add up, in absolute value, to at
    most 2^53, the statistics do not depend on the order in which the
    service returns the trainings, except for the order of the records:
    two loads that hold the same trainings in different orders give the
    same records, each label with the same total. Beyond that bound the
    order of the load shows in the totals: 2^53, 1, 1 add up to 2^53 and
    1, 1, 2^53 to 2^53 + 2. *)
Theorem statistics_ignore_load_order (trainings trainings' : list Training) :
  Permutation trainings trainings' ->
  total_magnitude duration trainings <= max_safe ->
  Permutation (StatisticsPage.activityStats_binary64 trainings)
              (StatisticsPage.activityStats_binary64 trainings').
Proof.
  intros Hperm Hsafe.
  rewrite !activityStats_binary64_exact;
    [ | now rewrite <- (total_magnitude_perm duration Hperm) | assumption ].
  apply Permutation_map. now apply activityStats_load_order.
Qed.

Lemma statistics_ignore_load_order_witness :
  Permutation
    (StatisticsPage.activityStats_binary64
       [training 1 30 "Run" None; training 2 45 "Yoga" None;
        training 3 15 "Run" None])
    (StatisticsPage.activityStats_binary64
       [training 2 45 "Yoga" None; training 3 15 "Run" None;
        training 1 30 "Run" None]).
Proof.
  apply statistics_ignore_load_order.
  - apply Permutation_cons_append.
  - vm_compute. discriminate.
Defined.

(** Beyond the bound the totals depend on the order of the load. *)
Example statistics_depend_on_load_order :
  StatisticsPage.activityStats_binary64
    [training 1 9007199254740992 "Run" None; training 2 1 "Run" None;
     training 3 1 "Run" None]
  = [ {| StatisticsPage.stat64_activity := "Run";
         StatisticsPage.stat64_duration := Number.Finite 9007199254740992 |} ]
  /\ StatisticsPage.activityStats_binary64
       [training 2 1 "Run" None; training 3 1 "Run" None;
        training 1 9007199254740992 "Run" None]
     = [ {| StatisticsPage.stat64_activity := "Run";
            StatisticsPage.stat64_duration :=
              Number.Finite 9007199254740994 |} ].
Proof. split; vm_compute; reflexivity. Qed.
